(** * kredit-plus: the credit-limit ledger, contract issuance and the
    installment schedule

    A shallow embedding of the Go packages [internal/entity],
    [internal/repository], [internal/service] and [internal/handler] that
    make up the credit-allocation engine, followed by the properties
    established about them.

    Conventions of the embedding.
    - Money is [float64] in Go: amounts are IEEE 754 binary64 numbers
      ([spec_float] with a 53-bit mantissa), and the arithmetic and the
      comparisons of the code are those of binary64, rounding to nearest
      even, with its infinities, its signed zeros and NaN.
    - The money columns of MySQL are [DECIMAL(15,2)].  What a column makes
      of a [float64] written to it, and what the driver reads back, is the
      server's business: it is a field of [mysql.Server], as are the
      conversions of the [DATE] and [TIMESTAMP] columns and the collation
      that compares the [VARCHAR] columns.  The properties hold for every
      server unless they say otherwise; the examples run on
      [Examples.server].
    - Go's [int] is modelled as [Z]; [uuid.UUID] as the 128-bit number it
      encodes ([N], with [uuid.Nil] = 0; the canonical textual form stored
      in the [CHAR(36)] columns sorts like that number).
    - Go's [(value, error)] results are the type [result]; a nil pointer
      with a nil error is [Ok None].
    - Every repository call runs against the database value [mysql.DB] and
      returns the database it leaves behind.  [mysql.Transaction] restores
      the initial database when its body fails.  A service call is a
      sequence of such repository calls; [inflight] gives the statements
      of [UpdateUsedAmount] one at a time, for calls that overlap.
    - [time.Now] and [uuid.New] are read from a [Runtime] value handed to
      the code that calls them.
    - The Redis read-through cache in front of the customer and asset
      tables, tracing, logging, connection failures and the timestamp
      columns of rows other than installments are left out. *)

From Stdlib Require Import ZArith NArith.
From Stdlib Require Import List String Ascii Bool.
From Stdlib Require Import SpecFloat.
From Stdlib Require Import Lia.
From Stdlib Require Import Sorted Permutation.
Import ListNotations.

Local Open Scope string_scope.
Local Open Scope list_scope.
Local Open Scope Z_scope.

(** ** Go runtime values *)

Definition UUID := N.

Module uuid.
Definition Nil : UUID := 0%N.
End uuid.

(** [time.Time] in UTC: a civil date and the nanoseconds elapsed since
    midnight. *)
Module gotime.

Record Time := mkTime {
    year : Z;
    month : Z;
    day : Z;
    nsec : Z
  }.

Definition isLeap (y : Z) : bool :=
    (y mod 4 =? 0) && (negb (y mod 100 =? 0) || (y mod 400 =? 0)).

Definition daysIn (y m : Z) : Z :=
    if m =? 2 then (if isLeap y then 29 else 28)
    else if (m =? 4) || (m =? 6) || (m =? 9) || (m =? 11) then 30
    else 31.

  (** [t.AddDate(years, months, 0)].  As [time.Date] does, the month is
      normalised first, overflowing into the year; a day that the target
      month does not have then overflows into the following month
      (October 31 plus one month is December 1). *)
Definition AddDate (years months : Z) (t : Time) : Time :=
    let m0 := month t - 1 + months in
    let y := year t + years + m0 / 12 in
    let m := m0 mod 12 + 1 in
    if day t <=? daysIn y m then mkTime y m (day t) (nsec t)
    else if m =? 12 then mkTime (y + 1) 1 (day t - daysIn y m) (nsec t)
    else mkTime y (m + 1) (day t - daysIn y m) (nsec t).

  (** A date that exists in the calendar. *)
Definition valid (t : Time) : Prop :=
    1 <= month t <= 12 /\ 1 <= day t <= daysIn (year t) (month t).

  (** Chronological order on instants. *)
Definition before (a b : Time) : Prop :=
    year a < year b
    \/ (year a = year b /\ month a < month b)
    \/ (year a = year b /\ month a = month b /\ day a < day b)
    \/ (year a = year b /\ month a = month b /\ day a = day b /\ nsec a < nsec b).

End gotime.

(** The sources of fresh values of one call: the successive readings of
    [time.Now().UTC()] and the successive results of [uuid.New()]. *)
Record Runtime := mkRuntime {
  Now : Z -> gotime.Time;
  NewUUID : Z -> UUID
}.

(** Go's [float64]: IEEE 754 binary64. *)
Definition float64 := spec_float.

Module f64.

Definition prec : Z := 53.
Definition emax : Z := 1024.

Definition zero : float64 := S754_zero false.
Definition nan : float64 := S754_nan.

  (** [float64(z)] for an [int], and the constants of the source. *)
Definition of_int (z : Z) : float64 := binary_normalize prec emax z 0 false.

Definition add (a b : float64) : float64 := SFadd prec emax a b.
Definition sub (a b : float64) : float64 := SFsub prec emax a b.
Definition mul (a b : float64) : float64 := SFmul prec emax a b.
Definition div (a b : float64) : float64 := SFdiv prec emax a b.

  (** [a == b], [a < b], [a <= b], [a > b]: false as soon as one side is
      NaN. *)
Definition eqb (a b : float64) : bool := SFeqb a b.
Definition ltb (a b : float64) : bool := SFltb a b.
Definition leb (a b : float64) : bool := SFleb a b.
Definition gtb (a b : float64) : bool := SFltb b a.

  (** The [float64] nearest to n/d, for n and d below 2^53: what a
      decimal literal such as 0.01 (1/100) is read as. *)
Definition ratio (n d : Z) : float64 := div (of_int n) (of_int d).

End f64.

(** The number of characters of a UTF-8 string: the bytes that do not
    continue a character. *)
Module utf8.

Definition continues (c : ascii) : bool :=
    ((128 <=? N_of_ascii c) && (N_of_ascii c <? 192))%N.

Fixpoint RuneCount (s : string) : Z :=
    match s with
    | EmptyString => 0
    | String c s' => (if continues c then 0 else 1) + RuneCount s'
    end.

End utf8.
(** ** Package entity *)

Module entity.

Inductive error : Type :=
  | ErrCreditLimitNotFound
  | ErrInsufficientCreditLimit
  | ErrDuplicateCreditLimit
  | ErrCreditLimitInUse
  | ErrTransactionNotFound
  | ErrDuplicateContract
  | ErrInvalidStatus
  | ErrRecordNotFound                       (* gorm.ErrRecordNotFound *)
  | ErrEmptySlice                           (* gorm.ErrEmptySlice *)
  | ErrConstraint (what : string)           (* an error raised by MySQL *)
  | Panic (what : string)                   (* a run-time panic *)
  | Errorf (msg : string)                   (* fmt.Errorf without %w *)
  | Wrapf (msg : string) (inner : error).   (* fmt.Errorf("msg: %w", inner) *)

Inductive result (A : Type) : Type :=
  | Ok (a : A)
  | Err (e : error).
Arguments Ok {A} a.
Arguments Err {A} e.

Definition TransactionStatus := string.
Definition TransactionDetailStatus := string.

Definition TransactionStatusPending : TransactionStatus := "pending".
Definition TransactionStatusActive : TransactionStatus := "active".
Definition TransactionStatusCompleted : TransactionStatus := "completed".

Definition TransactionDetailStatusPending : TransactionDetailStatus := "pending".
Definition TransactionDetailStatusPaid : TransactionDetailStatus := "paid".
Definition TransactionDetailStatusOverdue : TransactionDetailStatus := "overdue".

Module TransactionStatus.
Definition IsValid (s : TransactionStatus) : bool :=
      String.eqb s TransactionStatusPending
      || String.eqb s TransactionStatusActive
      || String.eqb s TransactionStatusCompleted.
End TransactionStatus.

Module TransactionDetailStatus.
Definition IsValid (s : TransactionDetailStatus) : bool :=
      String.eqb s TransactionDetailStatusPending
      || String.eqb s TransactionDetailStatusPaid
      || String.eqb s TransactionDetailStatusOverdue.
End TransactionDetailStatus.

Module Customer.
Record t := mk {
      ID : UUID;
      IsActive : bool
    }.
End Customer.

Module Asset.
Record t := mk {
      ID : UUID;
      Price : float64
    }.
End Asset.

Module CreditLimit.
Record t := mk {
      ID : UUID;
      CustomerID : UUID;
      TenorMonth : Z;
      LimitAmount : float64;
      UsedAmount : float64
    }.
End CreditLimit.

Module TransactionDetail.
Record t := mk {
      ID : UUID;
      TransactionID : UUID;
      InstallmentNumber : Z;
      Amount : float64;
      DueDate : gotime.Time;
      Status : TransactionDetailStatus;
      CreatedAt : gotime.Time;
      UpdatedAt : gotime.Time
    }.
End TransactionDetail.

Module Transaction.
Record t := mk {
      ID : UUID;
      CustomerID : UUID;
      AssetID : UUID;
      ContractNumber : string;
      OTRAmount : float64;
      AdminFee : float64;
      InterestAmount : float64;
      TenorMonth : Z;
      InstallmentAmount : float64;
      Status : TransactionStatus;
      Customer : option Customer.t;
      Asset : option Asset.t;
      TransactionDetail : option TransactionDetail.t
    }.
End Transaction.

Definition isValidTenor (tenor : Z) : bool :=
    (tenor =? 1) || (tenor =? 2) || (tenor =? 3) || (tenor =? 6).

Module CreateCreditLimitRequest.
Record t := mk {
      CustomerID : UUID;
      TenorMonth : Z;
      LimitAmount : float64
    }.

Definition Validate (r : t) : list string :=
      (if (CustomerID r =? uuid.Nil)%N then ["customer_id is required"] else [])
      ++ (if negb (isValidTenor (TenorMonth r))
          then ["tenor_month must be 1, 2, 3, or 6"] else [])
      ++ (if f64.leb (LimitAmount r) f64.zero
          then ["limit_amount must be greater than 0"] else []).
End CreateCreditLimitRequest.

Module CreateTransactionRequest.
Record t := mk {
      CustomerID : UUID;
      AssetID : UUID;
      TenorMonth : Z;
      AdminFee : float64;
      InterestRate : float64;
      ContractNumber : string
    }.

    (** The value of [html.EscapeString(r.ContractNumber)] is discarded by
        the source, so it does not appear here. *)
Definition Validate (r : t) : list string :=
      (if (CustomerID r =? uuid.Nil)%N then ["customer_id is required"] else [])
      ++ (if (AssetID r =? uuid.Nil)%N then ["asset_id is required"] else [])
      ++ (if negb (isValidTenor (TenorMonth r))
          then ["tenor_month must be 1, 2, 3, or 6"] else [])
      ++ (if f64.ltb (AdminFee r) f64.zero
          then ["admin_fee must not be negative"] else [])
      ++ (if f64.ltb (InterestRate r) f64.zero
             || f64.gtb (InterestRate r) (f64.of_int 100)
          then ["interest_rate must be between 0 and 100"] else [])
      ++ (if String.eqb (ContractNumber r) "" then ["contract_number is required"] else []).
End CreateTransactionRequest.

Module InstallmentResponse.
Record t := mk {
      ID : UUID;
      TransactionID : UUID;
      InstallmentNumber : Z;
      Amount : float64;
      DueDate : gotime.Time;
      Status : TransactionDetailStatus
    }.
End InstallmentResponse.

Module TransactionResponse.
Record t := mk {
      ID : UUID;
      CustomerID : UUID;
      AssetID : UUID;
      ContractNumber : string;
      OTRAmount : float64;
      AdminFee : float64;
      InterestAmount : float64;
      TenorMonth : Z;
      InstallmentAmount : float64;
      Status : TransactionStatus;
      Installments : list InstallmentResponse.t
    }.
End TransactionResponse.

Module CreditLimitResponse.
Record t := mk {
      ID : UUID;
      CustomerID : UUID;
      TenorMonth : Z;
      LimitAmount : float64;
      UsedAmount : float64
    }.
End CreditLimitResponse.

Module TransactionFilterRepository.
Record t := mk {
    Status : TransactionStatus;
    Limit : Z;
    Offset : Z
  }.
End TransactionFilterRepository.

Module TransactionFilterRequest.
Record t := mk {
    Status : TransactionStatus;
    Page : Z;
    PerPage : Z
  }.

Definition Validate (r : t) : list string :=
    (if Page r <? 1 then ["page must be greater than 0"] else [])
    ++ (if PerPage r <? 1 then ["per_page must be greater than 0"] else [])
    ++ (if 100 <? PerPage r then ["per_page must not exceed 100"] else [])
    ++ (if negb (String.eqb (Status r) "")
           && negb (TransactionStatus.IsValid (Status r))
        then ["invalid status"] else []).

    (** The offset is computed in Go's [int] (64 bits, two's
        complement): the product wraps around. *)
Definition wrap (z : Z) : Z := (z + 2 ^ 63) mod 2 ^ 64 - 2 ^ 63.

Definition ToTransactionFilterRepo (r : t) : TransactionFilterRepository.t :=
    TransactionFilterRepository.mk (Status r) (PerPage r)
      (wrap (wrap (Page r - 1) * PerPage r)).
End TransactionFilterRequest.

End entity.

Import entity.

(** ** The MySQL store

    The five tables of [migrations/], each a list of rows in storage
    order, with what the migrations declare: the column types, primary
    keys, the unique contract number, foreign keys and the [CHECK]s on the
    status columns.  [credit_limits] declares a primary key on [id], a
    foreign key to [customers] and an index on [customer_id], and nothing
    else.  A row holds what gorm scans out of it: a money column as the
    [float64] read back from its [DECIMAL(15,2)] value. *)

Module mysql.

  (** What the server does with the values written to typed columns, in
      its default strict mode.  [Decimal x] is what a [DECIMAL(15,2)]
      column reads as after [x] was written to it, [None] when the server
      refuses [x] (out of range, NaN, an infinity); [Date] and
      [Timestamp] likewise for the [DATE] and [TIMESTAMP] columns;
      [Collate a b] tells whether the collation of the [VARCHAR] columns
      takes two strings that differ for equal (the migrations name no
      collation, so the default of the server applies, which ignores
      case). *)
Record Server := mkServer {
    Decimal : float64 -> option float64;
    Date : gotime.Time -> option gotime.Time;
    Timestamp : gotime.Time -> option gotime.Time;
    Collate : string -> string -> bool
  }.

  (** [a = b] on a [VARCHAR] column. *)
Definition same (srv : Server) (a b : string) : bool :=
    String.eqb a b || Collate srv a b.

  (** The range of an [INT] column. *)
Definition int32 (z : Z) : bool := (- 2 ^ 31 <=? z) && (z <? 2 ^ 31).

Record DB := mkDB {
    customers : list Customer.t;
    assets : list Asset.t;
    credit_limits : list CreditLimit.t;
    transactions : list Transaction.t;
    transaction_details : list TransactionDetail.t
  }.

Definition empty : DB := mkDB [] [] [] [] [].

  (** [Client.Transaction]: the body's effects are kept when it returns
      nil and rolled back when it returns an error. *)
Definition Transaction (fn : DB -> DB * option error) (db : DB)
    : DB * option error :=
    match fn db with
    | (db', None) => (db', None)
    | (_, Some e) => (db, Some e)
    end.

  (** [ORDER BY id LIMIT 1], which gorm's [First] appends to its query. *)
Fixpoint lowest {A : Type} (key : A -> UUID) (rows : list A) : option A :=
    match rows with
    | [] => None
    | r :: rs =>
        match lowest key rs with
        | None => Some r
        | Some m => if (key r <=? key m)%N then Some r else Some m
        end
    end.

Definition First {A : Type} (key : A -> UUID) (cond : A -> bool)
    (rows : list A) : option A :=
    lowest key (filter cond rows).

Definition has_id {A : Type} (key : A -> UUID) (id : UUID) (rows : list A)
    : bool :=
    existsb (fun r => (key r =? id)%N) rows.

  (** The row a [credit_limits] statement writes for the struct [l]: the
      money columns converted to their type. *)
Definition credit_limit_row (srv : Server) (l : CreditLimit.t)
    : result CreditLimit.t :=
    match Decimal srv (CreditLimit.LimitAmount l) with
    | None => Err (ErrConstraint "out of range value for column limit_amount")
    | Some limit =>
        match Decimal srv (CreditLimit.UsedAmount l) with
        | None => Err (ErrConstraint "out of range value for column used_amount")
        | Some used =>
            Ok (CreditLimit.mk (CreditLimit.ID l) (CreditLimit.CustomerID l)
                  (CreditLimit.TenorMonth l) limit used)
        end
    end.

  (** [INSERT INTO credit_limits]. *)
Definition insert_credit_limit (srv : Server) (l : CreditLimit.t) (db : DB)
    : result DB :=
    if negb (int32 (CreditLimit.TenorMonth l))
    then Err (ErrConstraint "out of range value for column tenor_month")
    else
      match credit_limit_row srv l with
      | Err e => Err e
      | Ok row =>
          if has_id CreditLimit.ID (CreditLimit.ID l) (credit_limits db)
          then Err (ErrConstraint "duplicate entry for key PRIMARY")
          else if negb (has_id Customer.ID (CreditLimit.CustomerID l)
                          (customers db))
          then Err (ErrConstraint "foreign key constraint fails: customer_id")
          else Ok (mkDB (customers db) (assets db) (credit_limits db ++ [row])
                     (transactions db) (transaction_details db))
      end.

  (** The table with the row of [row]'s key replaced by [row]. *)
Definition put_credit_limit (row : CreditLimit.t) (db : DB) : DB :=
    mkDB (customers db) (assets db)
      (map (fun r => if (CreditLimit.ID r =? CreditLimit.ID row)%N
                     then row else r)
         (credit_limits db))
      (transactions db) (transaction_details db).

  (** [UPDATE credit_limits SET ... WHERE id = ?] with every column of
      [l], the statement behind gorm's [Save] of a row that was read in
      the same transaction. *)
Definition save_credit_limit (srv : Server) (l : CreditLimit.t) (db : DB)
    : result DB :=
    match credit_limit_row srv l with
    | Err e => Err e
    | Ok row => Ok (put_credit_limit row db)
    end.

  (** [DELETE FROM credit_limits WHERE id = ?]. *)
Definition delete_credit_limit (id : UUID) (db : DB) : DB :=
    mkDB (customers db) (assets db)
      (filter (fun r => negb (CreditLimit.ID r =? id)%N) (credit_limits db))
      (transactions db) (transaction_details db).

  (** The row an [INSERT INTO transactions] writes for the struct [t]; a
      string longer than its [VARCHAR] column is refused.  The association
      pointers of the struct are not columns. *)
Definition transaction_row (srv : Server) (t : Transaction.t)
    : result Transaction.t :=
    if 50 <? utf8.RuneCount (Transaction.ContractNumber t)
    then Err (ErrConstraint "data too long for column contract_number")
    else if 20 <? utf8.RuneCount (Transaction.Status t)
    then Err (ErrConstraint "data too long for column status")
    else if negb (int32 (Transaction.TenorMonth t))
    then Err (ErrConstraint "out of range value for column tenor_month")
    else
      match Decimal srv (Transaction.OTRAmount t),
            Decimal srv (Transaction.AdminFee t),
            Decimal srv (Transaction.InterestAmount t),
            Decimal srv (Transaction.InstallmentAmount t) with
      | Some otr, Some fee, Some interest, Some installment =>
          Ok (Transaction.mk (Transaction.ID t) (Transaction.CustomerID t)
                (Transaction.AssetID t) (Transaction.ContractNumber t)
                otr fee interest (Transaction.TenorMonth t) installment
                (Transaction.Status t) None None None)
      | _, _, _, _ => Err (ErrConstraint "out of range value for a decimal column")
      end.

  (** [status IN (...)], as the [CHECK]s of the status columns compare. *)
Definition status_in (srv : Server) (status : string) (allowed : list string)
    : bool :=
    existsb (same srv status) allowed.

  (** [INSERT INTO transactions]. *)
Definition insert_transaction (srv : Server) (t : Transaction.t) (db : DB)
    : result DB :=
    match transaction_row srv t with
    | Err e => Err e
    | Ok row =>
        if has_id Transaction.ID (Transaction.ID t) (transactions db)
        then Err (ErrConstraint "duplicate entry for key PRIMARY")
        else if existsb (fun r => same srv (Transaction.ContractNumber r)
                                    (Transaction.ContractNumber t))
                  (transactions db)
        then Err (ErrConstraint "duplicate entry for key contract_number")
        else if negb (has_id Customer.ID (Transaction.CustomerID t) (customers db))
        then Err (ErrConstraint "foreign key constraint fails: customer_id")
        else if negb (has_id Asset.ID (Transaction.AssetID t) (assets db))
        then Err (ErrConstraint "foreign key constraint fails: asset_id")
        else if negb (status_in srv (Transaction.Status t)
                        [TransactionStatusPending; TransactionStatusActive;
                         TransactionStatusCompleted])
        then Err (ErrConstraint "check constraint on status is violated")
        else Ok (mkDB (customers db) (assets db) (credit_limits db)
                   (transactions db ++ [row]) (transaction_details db))
    end.

  (** The row an [INSERT INTO transaction_details] writes for [d]. *)
Definition transaction_detail_row (srv : Server) (d : TransactionDetail.t)
    : result TransactionDetail.t :=
    if negb (int32 (TransactionDetail.InstallmentNumber d))
    then Err (ErrConstraint "out of range value for column installment_number")
    else if 20 <? utf8.RuneCount (TransactionDetail.Status d)
    then Err (ErrConstraint "data too long for column status")
    else
      match Decimal srv (TransactionDetail.Amount d),
            Date srv (TransactionDetail.DueDate d),
            Timestamp srv (TransactionDetail.CreatedAt d),
            Timestamp srv (TransactionDetail.UpdatedAt d) with
      | Some amount, Some dueDate, Some createdAt, Some updatedAt =>
          Ok (TransactionDetail.mk (TransactionDetail.ID d)
                (TransactionDetail.TransactionID d)
                (TransactionDetail.InstallmentNumber d) amount dueDate
                (TransactionDetail.Status d) createdAt updatedAt)
      | _, _, _, _ => Err (ErrConstraint "incorrect value for a column")
      end.

  (** [INSERT INTO transaction_details], one row. *)
Definition insert_transaction_detail (srv : Server) (d : TransactionDetail.t)
    (db : DB) : result DB :=
    match transaction_detail_row srv d with
    | Err e => Err e
    | Ok row =>
        if has_id TransactionDetail.ID (TransactionDetail.ID d)
             (transaction_details db)
        then Err (ErrConstraint "duplicate entry for key PRIMARY")
        else if negb (has_id Transaction.ID (TransactionDetail.TransactionID d)
                        (transactions db))
        then Err (ErrConstraint "foreign key constraint fails: transaction_id")
        else if negb (status_in srv (TransactionDetail.Status d)
                        [TransactionDetailStatusPending;
                         TransactionDetailStatusPaid;
                         TransactionDetailStatusOverdue])
        then Err (ErrConstraint "check constraint on status is violated")
        else Ok (mkDB (customers db) (assets db) (credit_limits db)
                   (transactions db) (transaction_details db ++ [row]))
    end.

Fixpoint insert_rows (srv : Server) (ds : list TransactionDetail.t) (db : DB)
    : result DB :=
    match ds with
    | [] => Ok db
    | d :: ds' =>
        match insert_transaction_detail srv d db with
        | Ok db' => insert_rows srv ds' db'
        | Err e => Err e
        end
    end.

  (** gorm's [Create] of a slice: an empty slice is refused. *)
Definition insert_transaction_details (srv : Server)
    (ds : list TransactionDetail.t) (db : DB) : result DB :=
    match ds with
    | [] => Err ErrEmptySlice
    | _ :: _ => insert_rows srv ds db
    end.

  (** [UPDATE transactions SET status = ? WHERE id = ?]. *)
Definition update_transaction_status (srv : Server) (id : UUID)
    (status : TransactionStatus) (db : DB) : result DB :=
    if 20 <? utf8.RuneCount status
    then Err (ErrConstraint "data too long for column status")
    else if negb (status_in srv status
                    [TransactionStatusPending; TransactionStatusActive;
                     TransactionStatusCompleted])
    then Err (ErrConstraint "check constraint on status is violated")
    else Ok (mkDB (customers db) (assets db) (credit_limits db)
               (map (fun r =>
                       if (Transaction.ID r =? id)%N
                       then Transaction.mk (Transaction.ID r)
                              (Transaction.CustomerID r) (Transaction.AssetID r)
                              (Transaction.ContractNumber r)
                              (Transaction.OTRAmount r) (Transaction.AdminFee r)
                              (Transaction.InterestAmount r)
                              (Transaction.TenorMonth r)
                              (Transaction.InstallmentAmount r) status
                              (Transaction.Customer r) (Transaction.Asset r)
                              (Transaction.TransactionDetail r)
                       else r)
                  (transactions db))
               (transaction_details db)).

  (** gorm's [Preload] of the three associations of a transaction.
      [TransactionDetail] is a single pointer (a has-one association):
      every installment row fetched for the transaction is assigned to it
      in turn, and the last one stays. *)
Definition preload (t : Transaction.t) (db : DB) : Transaction.t :=
    Transaction.mk (Transaction.ID t) (Transaction.CustomerID t)
      (Transaction.AssetID t) (Transaction.ContractNumber t)
      (Transaction.OTRAmount t) (Transaction.AdminFee t)
      (Transaction.InterestAmount t) (Transaction.TenorMonth t)
      (Transaction.InstallmentAmount t) (Transaction.Status t)
      (First Customer.ID
         (fun c => (Customer.ID c =? Transaction.CustomerID t)%N) (customers db))
      (First Asset.ID
         (fun a => (Asset.ID a =? Transaction.AssetID t)%N) (assets db))
      (last
         (map Some
            (filter (fun d => (TransactionDetail.TransactionID d
                               =? Transaction.ID t)%N)
               (transaction_details db)))
         None).

End mysql.

Import mysql.

(** ** The repository and service interfaces of package entity *)

Module CustomerRepository.
Record t := mk {
    GetByID : UUID -> DB -> DB * result (option Customer.t)
  }.
End CustomerRepository.

Module AssetRepository.
Record t := mk {
    GetByID : UUID -> DB -> DB * result (option Asset.t)
  }.
End AssetRepository.

Module CreditLimitRepository.
Record t := mk {
    Create : CreditLimit.t -> DB -> DB * option error;
    GetByID : UUID -> DB -> DB * result (option CreditLimit.t);
    GetByCustomerIDAndTenor : UUID -> Z -> DB -> DB * result (option CreditLimit.t);
    UpdateUsedAmount : UUID -> float64 -> DB -> DB * option error;
    Delete : UUID -> DB -> DB * option error
  }.
End CreditLimitRepository.

Module TransactionRepository.
Record t := mk {
    Create : Runtime -> Transaction.t -> DB -> DB * option error;
    GetByID : UUID -> DB -> DB * result (option Transaction.t);
    GetByContractNumber : string -> DB -> DB * result (option Transaction.t);
    UpdateStatus : UUID -> TransactionStatus -> DB -> DB * option error
  }.
End TransactionRepository.

(** ** Package repository

    Every repository is built on a client of the server [srv]. *)

Module repository.

Module customerRepository.
Definition GetByID (id : UUID) (db : DB) : DB * result (option Customer.t) :=
      (db, Ok (First Customer.ID (fun c => (Customer.ID c =? id)%N) (customers db))).

Definition repo : CustomerRepository.t := CustomerRepository.mk GetByID.
End customerRepository.

Module assetRepository.
Definition GetByID (id : UUID) (db : DB) : DB * result (option Asset.t) :=
      (db, Ok (First Asset.ID (fun a => (Asset.ID a =? id)%N) (assets db))).

Definition repo : AssetRepository.t := AssetRepository.mk GetByID.
End assetRepository.

Module creditLimitRepository.

Definition Create (srv : Server) (limit : CreditLimit.t)
      : DB -> DB * option error :=
      Transaction (fun tx =>
        match insert_credit_limit srv limit tx with
        | Err e => (tx, Some (Wrapf "failed to create credit limit" e))
        | Ok tx' => (tx', None)
        end).

Definition GetByID (id : UUID) (db : DB)
      : DB * result (option CreditLimit.t) :=
      (db, Ok (First CreditLimit.ID (fun l => (CreditLimit.ID l =? id)%N)
                 (credit_limits db))).

Definition GetByCustomerIDAndTenor (customerID : UUID) (tenorMonth : Z)
      (db : DB) : DB * result (option CreditLimit.t) :=
      (db, Ok (First CreditLimit.ID
                 (fun l => (CreditLimit.CustomerID l =? customerID)%N
                           && (CreditLimit.TenorMonth l =? tenorMonth))
                 (credit_limits db))).

Definition UpdateUsedAmount (srv : Server) (id : UUID) (amount : float64)
      : DB -> DB * option error :=
      Transaction (fun tx =>
        match First CreditLimit.ID (fun l => (CreditLimit.ID l =? id)%N)
                (credit_limits tx) with
        | None =>
            (tx, Some (Wrapf "failed to get credit limit for update"
                         ErrRecordNotFound))
        | Some limit =>
            if f64.gtb (f64.add (CreditLimit.UsedAmount limit) amount)
                 (CreditLimit.LimitAmount limit)
            then (tx, Some (Errorf "insufficient credit limit: available %.2f, requested %.2f"))
            else
              match save_credit_limit srv
                      (CreditLimit.mk (CreditLimit.ID limit)
                         (CreditLimit.CustomerID limit)
                         (CreditLimit.TenorMonth limit)
                         (CreditLimit.LimitAmount limit)
                         (f64.add (CreditLimit.UsedAmount limit) amount))
                      tx with
              | Err e =>
                  (tx, Some (Wrapf "failed to update credit limit used amount" e))
              | Ok tx' => (tx', None)
              end
        end).

Definition Delete (id : UUID) : DB -> DB * option error :=
      Transaction (fun tx =>
        match First CreditLimit.ID (fun l => (CreditLimit.ID l =? id)%N)
                (credit_limits tx) with
        | None => (tx, Some (Errorf "credit limit not found"))
        | Some limit =>
            if f64.gtb (CreditLimit.UsedAmount limit) f64.zero
            then (tx, Some (Errorf "cannot delete credit limit: limit is currently in use"))
            else (delete_credit_limit (CreditLimit.ID limit) tx, None)
        end).

Definition repo (srv : Server) : CreditLimitRepository.t :=
      CreditLimitRepository.mk (Create srv) GetByID GetByCustomerIDAndTenor
        (UpdateUsedAmount srv) Delete.

  (** [ORDER BY tenor_month ASC]: rows of equal duration keep their
      storage order. *)
Fixpoint insert_by_tenor (l : CreditLimit.t) (sorted : list CreditLimit.t)
      : list CreditLimit.t :=
      match sorted with
      | [] => [l]
      | x :: xs =>
          if CreditLimit.TenorMonth l <=? CreditLimit.TenorMonth x
          then l :: x :: xs
          else x :: insert_by_tenor l xs
      end.

Definition order_by_tenor (rows : list CreditLimit.t) : list CreditLimit.t :=
      fold_right insert_by_tenor [] rows.

Definition GetAllByCustomerID (customerID : UUID) (db : DB)
      : DB * result (list CreditLimit.t) :=
      (db, Ok (order_by_tenor
                 (filter (fun l => (CreditLimit.CustomerID l =? customerID)%N)
                    (credit_limits db)))).

End creditLimitRepository.

Module transactionRepository.

    (** The loop of [generateInstallments]: [n] iterations remain, [i] is
        the loop counter and [dueDate] the running due date.  Iteration
        [i] draws one identifier and reads the clock twice for the two
        timestamps. *)
Fixpoint installments_from (rt : Runtime) (transaction : Transaction.t)
      (n : nat) (i : Z) (dueDate : gotime.Time) : list TransactionDetail.t :=
      match n with
      | O => []
      | S n' =>
          let dueDate := gotime.AddDate 0 1 dueDate in
          TransactionDetail.mk (NewUUID rt i) (Transaction.ID transaction)
            (i + 1) (Transaction.InstallmentAmount transaction) dueDate
            TransactionDetailStatusPending
            (Now rt (2 * i + 1)) (Now rt (2 * i + 2))
          :: installments_from rt transaction n' (i + 1) dueDate
      end.

    (** [make] panics on a negative length, hence the option. *)
Definition generateInstallments (rt : Runtime) (transaction : Transaction.t)
      : option (list TransactionDetail.t) :=
      if Transaction.TenorMonth transaction <? 0 then None
      else Some (installments_from rt transaction
                   (Z.to_nat (Transaction.TenorMonth transaction)) 0 (Now rt 0)).

Definition Create (srv : Server) (rt : Runtime) (transaction : Transaction.t)
      : DB -> DB * option error :=
      Transaction (fun tx =>
        match First CreditLimit.ID
                (fun l => (CreditLimit.CustomerID l
                           =? Transaction.CustomerID transaction)%N
                          && (CreditLimit.TenorMonth l
                              =? Transaction.TenorMonth transaction))
                (credit_limits tx) with
        | None => (tx, Some (Wrapf "failed to get credit limit" ErrRecordNotFound))
        | Some creditLimit =>
            if f64.gtb (f64.add (CreditLimit.UsedAmount creditLimit)
                          (Transaction.OTRAmount transaction))
                 (CreditLimit.LimitAmount creditLimit)
            then (tx, Some (Errorf "insufficient credit limit: available %.2f, requested %.2f"))
            else
              match insert_transaction srv transaction tx with
              | Err e => (tx, Some (Wrapf "failed to create transaction" e))
              | Ok tx1 =>
                  match generateInstallments rt transaction with
                  | None => (tx1, Some (Panic "makeslice: len out of range"))
                  | Some installments =>
                      match insert_transaction_details srv installments tx1 with
                      | Err e =>
                          (tx1, Some (Wrapf "failed to create transaction details" e))
                      | Ok tx2 =>
                          match save_credit_limit srv
                                  (CreditLimit.mk (CreditLimit.ID creditLimit)
                                     (CreditLimit.CustomerID creditLimit)
                                     (CreditLimit.TenorMonth creditLimit)
                                     (CreditLimit.LimitAmount creditLimit)
                                     (f64.add (CreditLimit.UsedAmount creditLimit)
                                        (Transaction.OTRAmount transaction)))
                                  tx2 with
                          | Err e =>
                              (tx2, Some (Wrapf "failed to update credit limit" e))
                          | Ok tx3 => (tx3, None)
                          end
                      end
                  end
              end
        end).

Definition GetByID (id : UUID) (db : DB)
      : DB * result (option Transaction.t) :=
      match First Transaction.ID (fun t => (Transaction.ID t =? id)%N)
              (transactions db) with
      | None => (db, Ok None)
      | Some t => (db, Ok (Some (preload t db)))
      end.

Definition GetByContractNumber (srv : Server) (contractNumber : string)
      (db : DB) : DB * result (option Transaction.t) :=
      match First Transaction.ID
              (fun t => same srv (Transaction.ContractNumber t) contractNumber)
              (transactions db) with
      | None => (db, Ok None)
      | Some t => (db, Ok (Some (preload t db)))
      end.

Definition UpdateStatus (srv : Server) (id : UUID) (status : TransactionStatus)
      : DB -> DB * option error :=
      Transaction (fun tx =>
        match First Transaction.ID (fun t => (Transaction.ID t =? id)%N)
                (transactions tx) with
        | None => (tx, Some (Wrapf "failed to get transaction" ErrRecordNotFound))
        | Some transaction =>
            match update_transaction_status srv (Transaction.ID transaction)
                    status tx with
            | Err e => (tx, Some (Wrapf "failed to update transaction status" e))
            | Ok tx' => (tx', None)
            end
        end).

Definition repo (srv : Server) : TransactionRepository.t :=
      TransactionRepository.mk (Create srv) GetByID (GetByContractNumber srv)
        (UpdateStatus srv).

End transactionRepository.

End repository.
(** ** Package service *)

(** The runtime as it stands after [clock] readings of the clock and
    [ids] fresh identifiers have been consumed. *)
Definition advance (rt : Runtime) (clock ids : Z) : Runtime :=
  mkRuntime (fun k => Now rt (k + clock)) (fun k => NewUUID rt (k + ids)).

Module service.

Module creditLimitService.

Definition toResponse (limit : CreditLimit.t) : CreditLimitResponse.t :=
      CreditLimitResponse.mk (CreditLimit.ID limit) (CreditLimit.CustomerID limit)
        (CreditLimit.TenorMonth limit) (CreditLimit.LimitAmount limit)
        (CreditLimit.UsedAmount limit).

Definition Create (repo : CreditLimitRepository.t) (rt : Runtime)
      (req : CreateCreditLimitRequest.t) (db : DB)
      : DB * result CreditLimitResponse.t :=
      match CreateCreditLimitRequest.Validate req with
      | _ :: _ as errors =>
          (db, Err (Errorf ("validation failed: " ++ String.concat "||" errors)))
      | [] =>
          let (db1, existingLimit) :=
            CreditLimitRepository.GetByCustomerIDAndTenor repo
              (CreateCreditLimitRequest.CustomerID req)
              (CreateCreditLimitRequest.TenorMonth req) db in
          match existingLimit with
          | Err e => (db1, Err (Wrapf "failed to check existing credit limit" e))
          | Ok (Some _) => (db1, Err ErrDuplicateCreditLimit)
          | Ok None =>
              let limit :=
                CreditLimit.mk (NewUUID rt 0)
                  (CreateCreditLimitRequest.CustomerID req)
                  (CreateCreditLimitRequest.TenorMonth req)
                  (CreateCreditLimitRequest.LimitAmount req) f64.zero in
              match CreditLimitRepository.Create repo limit db1 with
              | (db2, Some e) => (db2, Err (Wrapf "failed to create credit limit" e))
              | (db2, None) => (db2, Ok (toResponse limit))
              end
          end
      end.

Definition Delete (repo : CreditLimitRepository.t) (id : UUID) (db : DB)
      : DB * option error :=
      let (db1, limit) := CreditLimitRepository.GetByID repo id db in
      match limit with
      | Err e => (db1, Some (Wrapf "failed to get credit limit" e))
      | Ok None => (db1, Some ErrCreditLimitNotFound)
      | Ok (Some limit) =>
          if f64.gtb (CreditLimit.UsedAmount limit) f64.zero
          then (db1, Some ErrCreditLimitInUse)
          else
            match CreditLimitRepository.Delete repo id db1 with
            | (db2, Some e) => (db2, Some (Wrapf "failed to delete credit limit" e))
            | (db2, None) => (db2, None)
            end
      end.

Definition UpdateUsedAmount (repo : CreditLimitRepository.t) (id : UUID)
      (amount : float64) (db : DB) : DB * option error :=
      if f64.eqb amount f64.zero then (db, None)
      else
        let (db1, limit) := CreditLimitRepository.GetByID repo id db in
        match limit with
        | Err e => (db1, Some (Wrapf "failed to get credit limit" e))
        | Ok None => (db1, Some ErrCreditLimitNotFound)
        | Ok (Some limit) =>
            if f64.ltb amount f64.zero
               && f64.ltb (f64.add (CreditLimit.UsedAmount limit) amount) f64.zero
            then (db1, Some (Errorf "invalid amount: would result in negative used amount"))
            else if f64.gtb amount f64.zero
                    && f64.gtb (f64.add (CreditLimit.UsedAmount limit) amount)
                         (CreditLimit.LimitAmount limit)
            then (db1, Some ErrInsufficientCreditLimit)
            else
              match CreditLimitRepository.UpdateUsedAmount repo id amount db1 with
              | (db2, Some e) =>
                  (db2, Some (Wrapf "failed to update credit limit used amount" e))
              | (db2, None) => (db2, None)
              end
        end.

Definition GetByID (repo : CreditLimitRepository.t) (id : UUID) (db : DB)
      : DB * result CreditLimitResponse.t :=
      let (db1, limit) := CreditLimitRepository.GetByID repo id db in
      match limit with
      | Err e => (db1, Err (Wrapf "failed to get credit limit" e))
      | Ok None => (db1, Err ErrCreditLimitNotFound)
      | Ok (Some limit) => (db1, Ok (toResponse limit))
      end.

Definition GetByCustomerIDAndTenor (repo : CreditLimitRepository.t)
      (customerID : UUID) (tenorMonth : Z) (db : DB)
      : DB * result CreditLimitResponse.t :=
      if negb (isValidTenor tenorMonth)
      then (db, Err (Errorf "invalid tenor month: must be 1, 2, 3, or 6"))
      else
        let (db1, limit) :=
          CreditLimitRepository.GetByCustomerIDAndTenor repo customerID
            tenorMonth db in
        match limit with
        | Err e => (db1, Err (Wrapf "failed to get credit limit" e))
        | Ok None => (db1, Err ErrCreditLimitNotFound)
        | Ok (Some limit) => (db1, Ok (toResponse limit))
        end.

    (** [getAll] is the repository's [GetAllByCustomerID]. *)
Definition GetAllByCustomerID
      (getAll : UUID -> DB -> DB * result (list CreditLimit.t))
      (customerID : UUID) (db : DB) : DB * result (list CreditLimitResponse.t) :=
      let (db1, limits) := getAll customerID db in
      match limits with
      | Err e => (db1, Err (Wrapf "failed to get credit limits" e))
      | Ok limits => (db1, Ok (map toResponse limits))
      end.

End creditLimitService.

Module transactionService.

    (** The repositories a transaction service is built from. *)
Record t := mk {
      transactionRepo : TransactionRepository.t;
      customerRepo : CustomerRepository.t;
      creditLimitRepo : CreditLimitRepository.t;
      assetRepo : AssetRepository.t
    }.

Definition toResponse (tx : Transaction.t) : TransactionResponse.t :=
      TransactionResponse.mk (Transaction.ID tx) (Transaction.CustomerID tx)
        (Transaction.AssetID tx) (Transaction.ContractNumber tx)
        (Transaction.OTRAmount tx) (Transaction.AdminFee tx)
        (Transaction.InterestAmount tx) (Transaction.TenorMonth tx)
        (Transaction.InstallmentAmount tx) (Transaction.Status tx)
        match Transaction.TransactionDetail tx with
        | Some d =>
            [InstallmentResponse.mk (TransactionDetail.ID d)
               (TransactionDetail.TransactionID d)
               (TransactionDetail.InstallmentNumber d)
               (TransactionDetail.Amount d) (TransactionDetail.DueDate d)
               (TransactionDetail.Status d)]
        | None => []
        end.

    (** The pricing of step 4: the flat-rate interest, the total and the
        equal installment. *)
Definition interestAmount (price : float64) (req : CreateTransactionRequest.t)
      : float64 :=
      f64.div
        (f64.mul (f64.mul price (CreateTransactionRequest.InterestRate req))
           (f64.of_int (CreateTransactionRequest.TenorMonth req)))
        (f64.of_int 100).

Definition totalAmount (price : float64) (req : CreateTransactionRequest.t)
      : float64 :=
      f64.add (f64.add price (CreateTransactionRequest.AdminFee req))
        (interestAmount price req).

Definition installmentAmount (price : float64) (req : CreateTransactionRequest.t)
      : float64 :=
      f64.div (totalAmount price req)
        (f64.of_int (CreateTransactionRequest.TenorMonth req)).

    (** The four lookups are started as goroutines and joined before any
        of their results is inspected; here they run one after the other. *)
Definition Create (s : t) (rt : Runtime) (req : CreateTransactionRequest.t)
      (db : DB) : DB * result TransactionResponse.t :=
      match CreateTransactionRequest.Validate req with
      | _ :: _ as errors =>
          (db, Err (Errorf ("validation failed: " ++ String.concat "||" errors)))
      | [] =>
        let (db1, existingTxResult) :=
          TransactionRepository.GetByContractNumber (transactionRepo s)
            (CreateTransactionRequest.ContractNumber req) db in
        let (db2, customerResult) :=
          CustomerRepository.GetByID (customerRepo s)
            (CreateTransactionRequest.CustomerID req) db1 in
        let (db3, assetResult) :=
          AssetRepository.GetByID (assetRepo s)
            (CreateTransactionRequest.AssetID req) db2 in
        let (db4, creditLimitResult) :=
          CreditLimitRepository.GetByCustomerIDAndTenor (creditLimitRepo s)
            (CreateTransactionRequest.CustomerID req)
            (CreateTransactionRequest.TenorMonth req) db3 in
        match existingTxResult with
        | Err e => (db4, Err (Wrapf "failed to check existing contract" e))
        | Ok (Some _) => (db4, Err ErrDuplicateContract)
        | Ok None =>
        match customerResult with
        | Err e => (db4, Err (Wrapf "failed to get customer" e))
        | Ok None => (db4, Err (Errorf "customer not found"))
        | Ok (Some customer) =>
        if negb (Customer.IsActive customer)
        then (db4, Err (Errorf "customer is not active"))
        else
        match assetResult with
        | Err e => (db4, Err (Wrapf "failed to get asset" e))
        | Ok None => (db4, Err (Errorf "asset not found"))
        | Ok (Some asset) =>
        match creditLimitResult with
        | Err e => (db4, Err (Wrapf "failed to get credit limit" e))
        | Ok None => (db4, Err (Errorf "no credit limit found for tenor %d months"))
        | Ok (Some creditLimit) =>
          let interest := interestAmount (Asset.Price asset) req in
          let total := totalAmount (Asset.Price asset) req in
          let installment := installmentAmount (Asset.Price asset) req in
          if f64.gtb total
               (f64.sub (CreditLimit.LimitAmount creditLimit)
                  (CreditLimit.UsedAmount creditLimit))
          then (db4, Err ErrInsufficientCreditLimit)
          else
            let transaction :=
              Transaction.mk (NewUUID rt 0)
                (CreateTransactionRequest.CustomerID req)
                (CreateTransactionRequest.AssetID req)
                (CreateTransactionRequest.ContractNumber req)
                (Asset.Price asset)
                (CreateTransactionRequest.AdminFee req)
                interest
                (CreateTransactionRequest.TenorMonth req)
                installment
                TransactionStatusPending
                None None None in
            match TransactionRepository.Create (transactionRepo s)
                    (advance rt 2 1) transaction db4 with
            | (db5, Some e) => (db5, Err (Wrapf "failed to create transaction" e))
            | (db5, None) =>
              match CreditLimitRepository.UpdateUsedAmount (creditLimitRepo s)
                      (CreditLimit.ID creditLimit) total db5 with
              | (db6, Some e) => (db6, Err (Wrapf "failed to update credit limit" e))
              | (db6, None) =>
                match TransactionRepository.GetByID (transactionRepo s)
                        (Transaction.ID transaction) db6 with
                | (db7, Err e) =>
                    (db7, Err (Wrapf "failed to get created transaction" e))
                | (db7, Ok None) =>
                    (db7, Err (Panic "invalid memory address or nil pointer dereference"))
                | (db7, Ok (Some createdTx)) => (db7, Ok (toResponse createdTx))
                end
              end
            end
        end end end end
      end.

Definition UpdateStatus (s : t) (id : UUID) (status : TransactionStatus)
      (db : DB) : DB * option error :=
      if negb (TransactionStatus.IsValid status) then (db, Some ErrInvalidStatus)
      else
        match TransactionRepository.GetByID (transactionRepo s) id db with
        | (db1, Err e) => (db1, Some (Wrapf "failed to get transaction" e))
        | (db1, Ok None) => (db1, Some ErrTransactionNotFound)
        | (db1, Ok (Some _)) =>
            match TransactionRepository.UpdateStatus (transactionRepo s) id status db1 with
            | (db2, Some e) => (db2, Some (Wrapf "failed to update status" e))
            | (db2, None) => (db2, None)
            end
        end.

Definition GetByID (s : t) (id : UUID) (db : DB)
      : DB * result TransactionResponse.t :=
      match TransactionRepository.GetByID (transactionRepo s) id db with
      | (db1, Err e) => (db1, Err (Wrapf "failed to get transaction" e))
      | (db1, Ok None) => (db1, Err ErrTransactionNotFound)
      | (db1, Ok (Some transaction)) => (db1, Ok (toResponse transaction))
      end.

Definition GetByContractNumber (s : t) (contractNumber : string) (db : DB)
      : DB * result TransactionResponse.t :=
      match TransactionRepository.GetByContractNumber (transactionRepo s)
              contractNumber db with
      | (db1, Err e) => (db1, Err (Wrapf "failed to get transaction" e))
      | (db1, Ok None) => (db1, Err ErrTransactionNotFound)
      | (db1, Ok (Some transaction)) => (db1, Ok (toResponse transaction))
      end.

End transactionService.

End service.

(** The services as [wire] assembles them: over the MySQL repositories,
    all on the same server. *)
Definition creditLimits (srv : Server) : CreditLimitRepository.t :=
  repository.creditLimitRepository.repo srv.

Definition transactions_svc (srv : Server) : service.transactionService.t :=
  service.transactionService.mk (repository.transactionRepository.repo srv)
    repository.customerRepository.repo
    (repository.creditLimitRepository.repo srv)
    repository.assetRepository.repo.

(** ** Package handler

    The HTTP handlers, from the parsed request to the status code of the
    answer.  A request whose body or path parameter does not parse is
    [None]. *)

Module handler.

Definition StatusOK : Z := 200.
Definition StatusCreated : Z := 201.
Definition StatusBadRequest : Z := 400.
Definition StatusNotFound : Z := 404.
Definition StatusConflict : Z := 409.
Definition StatusInternalServerError : Z := 500.

Module TransactionHandler.

Definition Create (s : service.transactionService.t) (rt : Runtime)
      (body : option CreateTransactionRequest.t) (db : DB)
      : DB * (Z * option TransactionResponse.t) :=
      match body with
      | None => (db, (StatusBadRequest, None))
      | Some req =>
          match service.transactionService.Create s rt req db with
          | (db', Err ErrDuplicateContract) => (db', (StatusConflict, None))
          | (db', Err ErrInsufficientCreditLimit) => (db', (StatusBadRequest, None))
          | (db', Err _) => (db', (StatusInternalServerError, None))
          | (db', Ok transaction) => (db', (StatusCreated, Some transaction))
          end
      end.

Definition UpdateStatus (s : service.transactionService.t)
      (id : option UUID) (body : option TransactionStatus) (db : DB) : DB * Z :=
      match id with
      | None => (db, StatusBadRequest)
      | Some id =>
          match body with
          | None => (db, StatusBadRequest)
          | Some status =>
              match service.transactionService.UpdateStatus s id status db with
              | (db', Some ErrTransactionNotFound) => (db', StatusNotFound)
              | (db', Some ErrInvalidStatus) => (db', StatusBadRequest)
              | (db', Some _) => (db', StatusInternalServerError)
              | (db', None) => (db', StatusOK)
              end
          end
      end.

End TransactionHandler.

Module CreditLimitHandler.

Definition UpdateUsedAmount (repo : CreditLimitRepository.t)
      (id : option UUID) (body : option float64) (db : DB) : DB * Z :=
      match id with
      | None => (db, StatusBadRequest)
      | Some id =>
          match body with
          | None => (db, StatusBadRequest)
          | Some amount =>
              match service.creditLimitService.UpdateUsedAmount repo id amount db with
              | (db', Some ErrCreditLimitNotFound) => (db', StatusNotFound)
              | (db', Some ErrInsufficientCreditLimit) => (db', StatusBadRequest)
              | (db', Some _) => (db', StatusInternalServerError)
              | (db', None) => (db', StatusOK)
              end
          end
      end.

Definition Delete (repo : CreditLimitRepository.t) (id : option UUID) (db : DB)
      : DB * Z :=
      match id with
      | None => (db, StatusBadRequest)
      | Some id =>
          match service.creditLimitService.Delete repo id db with
          | (db', Some ErrCreditLimitNotFound) => (db', StatusNotFound)
          | (db', Some ErrCreditLimitInUse) => (db', StatusBadRequest)
          | (db', Some _) => (db', StatusInternalServerError)
          | (db', None) => (db', StatusOK)
          end
      end.

End CreditLimitHandler.

End handler.

(** ** Calls that overlap

    [creditLimitService.UpdateUsedAmount] talks to the server twice: the
    read of [GetByID], outside any transaction, and the locked
    transaction of the repository's [UpdateUsedAmount].  Each of the two
    is atomic on the server; between them other calls may run.  [step]
    is one of these statements of a call, with the checks the service
    makes before or after it. *)

Module inflight.

Inductive call : Type :=
  | Entered (id : UUID) (amount : float64)    (* nothing sent yet *)
  | Checked (id : UUID) (amount : float64)    (* read and checked; update pending *)
  | Returned (err : option error).

Definition step (repo : CreditLimitRepository.t) (c : call) (db : DB)
    : call * DB :=
    match c with
    | Entered id amount =>
        if f64.eqb amount f64.zero then (Returned None, db)
        else
          let (db1, limit) := CreditLimitRepository.GetByID repo id db in
          match limit with
          | Err e => (Returned (Some (Wrapf "failed to get credit limit" e)), db1)
          | Ok None => (Returned (Some ErrCreditLimitNotFound), db1)
          | Ok (Some limit) =>
              if f64.ltb amount f64.zero
                 && f64.ltb (f64.add (CreditLimit.UsedAmount limit) amount) f64.zero
              then (Returned
                      (Some (Errorf "invalid amount: would result in negative used amount")),
                    db1)
              else if f64.gtb amount f64.zero
                      && f64.gtb (f64.add (CreditLimit.UsedAmount limit) amount)
                           (CreditLimit.LimitAmount limit)
              then (Returned (Some ErrInsufficientCreditLimit), db1)
              else (Checked id amount, db1)
          end
    | Checked id amount =>
        match CreditLimitRepository.UpdateUsedAmount repo id amount db with
        | (db2, Some e) =>
            (Returned (Some (Wrapf "failed to update credit limit used amount" e)),
             db2)
        | (db2, None) => (Returned None, db2)
        end
    | Returned err => (Returned err, db)
    end.

  (** The calls in flight and the store, after the call at position [k]
      has made its next step. *)
Fixpoint step_at (repo : CreditLimitRepository.t) (k : nat)
    (calls : list call) (db : DB) : list call * DB :=
    match calls, k with
    | [], _ => ([], db)
    | c :: cs, O => let (c', db') := step repo c db in (c' :: cs, db')
    | c :: cs, S k' =>
        let (cs', db') := step_at repo k' cs db in (c :: cs', db')
    end.

  (** An interleaving: the positions of the calls that step, in order. *)
Fixpoint interleave (repo : CreditLimitRepository.t) (order : list nat)
    (calls : list call) (db : DB) : list call * DB :=
    match order with
    | [] => (calls, db)
    | k :: order' =>
        let (calls', db') := step_at repo k calls db in
        interleave repo order' calls' db'
    end.

End inflight.

(** ** Vocabulary of the properties *)

(** What a schedule entry promises the customer. *)
Definition schedule_entry (d : TransactionDetail.t)
  : Z * float64 * gotime.Time * TransactionDetailStatus :=
  (TransactionDetail.InstallmentNumber d, TransactionDetail.Amount d,
   TransactionDetail.DueDate d, TransactionDetail.Status d).

Definition schedule (rt : Runtime) (transaction : Transaction.t)
  : option (list (Z * float64 * gotime.Time * TransactionDetailStatus)) :=
  option_map (map schedule_entry)
    (repository.transactionRepository.generateInstallments rt transaction).

(** The reading "the schedule depends on the contract alone". *)
Definition schedule_depends_on_contract_only : Prop :=
  forall (transaction : Transaction.t) (rt1 rt2 : Runtime),
    schedule rt1 transaction = schedule rt2 transaction.

(** The calendar month an instant lies in, counted from year 0. *)
Definition calendar_month (t : gotime.Time) : Z :=
  12 * gotime.year t + (gotime.month t - 1).

(** [dues] advances by one calendar month at a time, starting from
    [start]: every instant lies in the calendar month that follows the
    month of the one before it. *)
Fixpoint monthly (start : gotime.Time) (dues : list gotime.Time) : Prop :=
  match dues with
  | [] => True
  | d :: dues' => calendar_month d = calendar_month start + 1 /\ monthly d dues'
  end.

(** The reading "each due date is exactly one calendar month after the
    previous, the first one month after the generation instant". *)
Definition due_dates_one_month_apart : Prop :=
  forall (rt : Runtime) (transaction : Transaction.t)
         (installments : list TransactionDetail.t),
    gotime.valid (Now rt 0) ->
    repository.transactionRepository.generateInstallments rt transaction
    = Some installments ->
    monthly (Now rt 0) (map TransactionDetail.DueDate installments).

(** One or two calendar months lie between consecutive instants. *)
Fixpoint one_or_two_months (start : gotime.Time) (dues : list gotime.Time)
  : Prop :=
  match dues with
  | [] => True
  | d :: dues' =>
      (calendar_month d = calendar_month start + 1
       \/ calendar_month d = calendar_month start + 2)
      /\ one_or_two_months d dues'
  end.

(** The row of a table with a given primary key. *)
Definition credit_limit_by_id (id : UUID) (db : DB) : option CreditLimit.t :=
  First CreditLimit.ID (fun l => (CreditLimit.ID l =? id)%N) (credit_limits db).

Definition credit_limit_for (customerID : UUID) (tenorMonth : Z) (db : DB)
  : option CreditLimit.t :=
  First CreditLimit.ID
    (fun l => (CreditLimit.CustomerID l =? customerID)%N
              && (CreditLimit.TenorMonth l =? tenorMonth))
    (credit_limits db).

Definition transaction_by_id (id : UUID) (db : DB) : option Transaction.t :=
  First Transaction.ID (fun t => (Transaction.ID t =? id)%N) (transactions db).

(** The contract a look-up by number finds on the server [srv]. *)
Definition transaction_by_number (srv : Server) (number : string) (db : DB)
  : option Transaction.t :=
  First Transaction.ID
    (fun t => same srv (Transaction.ContractNumber t) number) (transactions db).

Definition customer_by_id (id : UUID) (db : DB) : option Customer.t :=
  First Customer.ID (fun c => (Customer.ID c =? id)%N) (customers db).

Definition asset_by_id (id : UUID) (db : DB) : option Asset.t :=
  First Asset.ID (fun a => (Asset.ID a =? id)%N) (assets db).

(** The contract the coordinator hands to the repository for a request
    priced at [price]. *)
Definition contract_of (rt : Runtime) (req : CreateTransactionRequest.t)
  (price : float64) : Transaction.t :=
  Transaction.mk (NewUUID rt 0)
    (CreateTransactionRequest.CustomerID req)
    (CreateTransactionRequest.AssetID req)
    (CreateTransactionRequest.ContractNumber req)
    price
    (CreateTransactionRequest.AdminFee req)
    (service.transactionService.interestAmount price req)
    (CreateTransactionRequest.TenorMonth req)
    (service.transactionService.installmentAmount price req)
    TransactionStatusPending
    None None None.

(** An allocation with [amount] added to its used amount, as the code
    computes the sum before it is written. *)
Definition committed (l : CreditLimit.t) (amount : float64) : CreditLimit.t :=
  CreditLimit.mk (CreditLimit.ID l) (CreditLimit.CustomerID l)
    (CreditLimit.TenorMonth l) (CreditLimit.LimitAmount l)
    (f64.add (CreditLimit.UsedAmount l) amount).

(** The ledger invariant of one allocation and of the whole table. *)
Definition allocation_ok (l : CreditLimit.t) : Prop :=
  f64.leb f64.zero (CreditLimit.UsedAmount l) = true
  /\ f64.leb (CreditLimit.UsedAmount l) (CreditLimit.LimitAmount l) = true.

Definition ledger_ok (db : DB) : Prop := Forall allocation_ok (credit_limits db).

(** The reading "a release that succeeds decrements the used amount by
    the given amount". *)
Definition release_decrements_by_the_amount (srv : Server) : Prop :=
  forall (id : UUID) (amount : float64) (db db' : DB) (l l' : CreditLimit.t),
    f64.ltb amount f64.zero = true ->
    credit_limit_by_id id db = Some l ->
    service.creditLimitService.UpdateUsedAmount (creditLimits srv) id amount db
    = (db', None) ->
    credit_limit_by_id id db' = Some l' ->
    CreditLimit.UsedAmount l' = f64.add (CreditLimit.UsedAmount l) amount.

(** The operations of the ledger and of issuance, as the handlers expose
    them. *)
Inductive operation : Type :=
| CreateLimit (rt : Runtime) (req : CreateCreditLimitRequest.t)
| UpdateUsed (id : UUID) (amount : float64)
| DeleteLimit (id : UUID)
| Issue (rt : Runtime) (req : CreateTransactionRequest.t)
| SetStatus (id : UUID) (status : TransactionStatus).

(** An operation run from its first statement to its last with no other
    call in between. *)
Definition perform (srv : Server) (o : operation) (db : DB) : DB :=
  match o with
  | CreateLimit rt req =>
      fst (service.creditLimitService.Create (creditLimits srv) rt req db)
  | UpdateUsed id amount =>
      fst (service.creditLimitService.UpdateUsedAmount (creditLimits srv) id
             amount db)
  | DeleteLimit id =>
      fst (service.creditLimitService.Delete (creditLimits srv) id db)
  | Issue rt req =>
      fst (service.transactionService.Create (transactions_svc srv) rt req db)
  | SetStatus id status =>
      fst (service.transactionService.UpdateStatus (transactions_svc srv) id
             status db)
  end.

(** The states a sequence of operations run one after the other goes
    through, the initial one included. *)
Fixpoint states (srv : Server) (ops : list operation) (db : DB) : list DB :=
  match ops with
  | [] => [db]
  | o :: ops' => db :: states srv ops' (perform srv o db)
  end.

(** The progression of a contract's status. *)
Definition advances (old new : TransactionStatus) : Prop :=
  (old = TransactionStatusPending /\ new = TransactionStatusActive)
  \/ (old = TransactionStatusActive /\ new = TransactionStatusCompleted).

(** The reading "an accepted status update advances the contract". *)
Definition status_updates_only_advance (srv : Server) : Prop :=
  forall (db db' : DB) (id : UUID) (status : TransactionStatus)
         (t : Transaction.t),
    transaction_by_id id db = Some t ->
    service.transactionService.UpdateStatus (transactions_svc srv) id status db
    = (db', None) ->
    advances (Transaction.Status t) status.

(** The allocations of a (customer, duration) pair. *)
Definition allocations_of (customerID : UUID) (tenorMonth : Z) (db : DB)
  : list CreditLimit.t :=
  filter (fun l => (CreditLimit.CustomerID l =? customerID)%N
                   && (CreditLimit.TenorMonth l =? tenorMonth))
    (credit_limits db).

Definition one_allocation_per_pair (db : DB) : Prop :=
  forall customerID tenorMonth,
    (List.length (allocations_of customerID tenorMonth db) <= 1)%nat.

(** The primary key of [credit_limits]. *)
Definition primary_keys_ok (db : DB) : Prop :=
  NoDup (map CreditLimit.ID (credit_limits db)).

(** Keys are unique and no (customer, duration) pair has two rows. *)
Definition rows_unique (rows : list CreditLimit.t) : Prop :=
  NoDup (map CreditLimit.ID rows)
  /\ forall c t,
      (List.length
         (filter (fun r => (CreditLimit.CustomerID r =? c)%N
                           && (CreditLimit.TenorMonth r =? t)%Z) rows) <= 1)%nat.

(** The ways in which the services change the [credit_limits] table: a
    row is appended whose key is fresh and whose (customer, duration)
    pair has no allocation yet; the amounts of a row of the table are
    rewritten; a row is deleted by key. *)
Inductive ledger_step : list CreditLimit.t -> list CreditLimit.t -> Prop :=
| step_none rows : ledger_step rows rows
| step_insert rows l :
    has_id CreditLimit.ID (CreditLimit.ID l) rows = false ->
    filter (fun r => (CreditLimit.CustomerID r =? CreditLimit.CustomerID l)%N
                     && (CreditLimit.TenorMonth r =? CreditLimit.TenorMonth l))
      rows = [] ->
    ledger_step rows (rows ++ [l])
| step_commit rows l l' :
    In l rows ->
    CreditLimit.ID l' = CreditLimit.ID l ->
    CreditLimit.CustomerID l' = CreditLimit.CustomerID l ->
    CreditLimit.TenorMonth l' = CreditLimit.TenorMonth l ->
    ledger_step rows
      (map (fun r => if (CreditLimit.ID r =? CreditLimit.ID l)%N
                     then l' else r) rows)
| step_delete rows id :
    ledger_step rows (filter (fun r => negb (CreditLimit.ID r =? id)%N) rows)
| step_then rows1 rows2 rows3 :
    ledger_step rows1 rows2 -> ledger_step rows2 rows3 -> ledger_step rows1 rows3.

(** The reading "the store refuses a second allocation of a pair". *)
Definition store_refuses_second_allocation (srv : Server) : Prop :=
  forall (db db' : DB) (l : CreditLimit.t),
    allocations_of (CreditLimit.CustomerID l) (CreditLimit.TenorMonth l) db <> [] ->
    repository.creditLimitRepository.Create srv l db = (db', None) ->
    False.

(** The store after a sequence of operations run one after the other. *)
Definition run (srv : Server) (ops : list operation) (db : DB) : DB :=
  fold_left (fun d o => perform srv o d) ops db.

(** The terms of a contract: everything but its status and the
    associations loaded with it. *)
Definition terms (t : Transaction.t)
  : UUID * UUID * UUID * string * float64 * float64 * float64 * Z * float64 :=
  (Transaction.ID t, Transaction.CustomerID t, Transaction.AssetID t,
   Transaction.ContractNumber t, Transaction.OTRAmount t,
   Transaction.AdminFee t, Transaction.InterestAmount t,
   Transaction.TenorMonth t, Transaction.InstallmentAmount t).

(** Contract numbers and contract keys are unique. *)
Definition contracts_unique (db : DB) : Prop :=
  NoDup (map Transaction.ContractNumber (transactions db))
  /\ NoDup (map Transaction.ID (transactions db)).

(** The rows of a list of structs, as the server writes them. *)
Definition written (srv : Server) (ds rows : list TransactionDetail.t) : Prop :=
  Forall2 (fun d row => transaction_detail_row srv d = Ok row) ds rows.

(** The server takes the due date and the two timestamps of an
    installment into its [DATE] and [TIMESTAMP] columns. *)
Definition times_accepted (srv : Server) (d : TransactionDetail.t) : Prop :=
  Date srv (TransactionDetail.DueDate d) <> None
  /\ Timestamp srv (TransactionDetail.CreatedAt d) <> None
  /\ Timestamp srv (TransactionDetail.UpdatedAt d) <> None.

(** The order of [ORDER BY tenor_month ASC]. *)
Definition tenor_le (a b : CreditLimit.t) : Prop :=
  CreditLimit.TenorMonth a <= CreditLimit.TenorMonth b.

(** ** Concrete stores and requests used as examples *)

Module Examples.

  (** A server for the examples.  Its [DECIMAL(15,2)] keeps fifteen
      digits, two of them after the point: it rounds the value written to
      the nearest hundredth, a half away from zero, and refuses what does
      not fit, infinities and NaN.  (MySQL rounds the shortest decimal
      form of the [float64] it receives; the amounts of the examples are
      away from the ties on which that makes a difference.)  Its [DATE]
      keeps the day; its [TIMESTAMP] rounds to the second; both accept
      the years they can hold.  Its collation ignores the case of the
      Latin letters. *)
Definition hundredths (x : float64) : option Z :=
    match x with
    | S754_zero _ => Some 0
    | S754_finite s m e =>
        if 64 <? e then None
        else
          let c := if 0 <=? e then 100 * Zpos m * 2 ^ e
                   else (200 * Zpos m + 2 ^ (- e)) / 2 ^ (- e + 1) in
          Some (if s then - c else c)
    | _ => None
    end.

Definition decimal_15_2 (x : float64) : option float64 :=
    match hundredths x with
    | Some c => if Z.abs c <? 10 ^ 15 then Some (f64.ratio c 100) else None
    | None => None
    end.

Definition date (t : gotime.Time) : option gotime.Time :=
    if (1000 <=? gotime.year t) && (gotime.year t <=? 9999)
    then Some (gotime.mkTime (gotime.year t) (gotime.month t) (gotime.day t) 0)
    else None.

Definition second : Z := 1000000000.

Definition timestamp (t : gotime.Time) : option gotime.Time :=
    if (1971 <=? gotime.year t) && (gotime.year t <=? 2037)
    then
      let ns := (gotime.nsec t + second / 2) / second * second in
      if ns <? 86400 * second
      then Some (gotime.mkTime (gotime.year t) (gotime.month t) (gotime.day t) ns)
      else if gotime.day t <? gotime.daysIn (gotime.year t) (gotime.month t)
      then Some (gotime.mkTime (gotime.year t) (gotime.month t)
                   (gotime.day t + 1) 0)
      else if gotime.month t <? 12
      then Some (gotime.mkTime (gotime.year t) (gotime.month t + 1) 1 0)
      else Some (gotime.mkTime (gotime.year t + 1) 1 1 0)
    else None.

Definition lower (c : ascii) : ascii :=
    if ((65 <=? N_of_ascii c) && (N_of_ascii c <=? 90))%N
    then ascii_of_N (N_of_ascii c + 32) else c.

Fixpoint fold_case (s : string) : string :=
    match s with
    | EmptyString => EmptyString
    | String c s' => String (lower c) (fold_case s')
    end.

Definition server : Server :=
    mkServer decimal_15_2 date timestamp
      (fun a b => String.eqb (fold_case a) (fold_case b)).

Definition clock (y m d : Z) : Runtime :=
    mkRuntime (fun k => gotime.mkTime y m d k) (fun k => (1000 + Z.to_N k)%N).

Definition store (tenor limit used : Z) : DB :=
    mkDB [Customer.mk 1%N true]
      [Asset.mk 10%N (f64.of_int 90000); Asset.mk 11%N (f64.of_int 4000)]
      [CreditLimit.mk 100%N 1%N tenor (f64.of_int limit) (f64.of_int used)] [] [].

  (** Scenario A: price 90000, fee 5000, rate 2 percent, one month. *)
Definition requestA : CreateTransactionRequest.t :=
    CreateTransactionRequest.mk 1%N 10%N 1 (f64.of_int 5000) (f64.of_int 2)
      "KP-0001".

  (** Scenario B: a request whose total is 5000. *)
Definition requestB : CreateTransactionRequest.t :=
    CreateTransactionRequest.mk 1%N 11%N 1 (f64.of_int 1000) (f64.of_int 0)
      "KP-0002".

  (** A six-month contract against a generous allocation. *)
Definition request6 : CreateTransactionRequest.t :=
    CreateTransactionRequest.mk 1%N 10%N 6 (f64.of_int 5000) (f64.of_int 2)
      "KP-0003".

Definition contract (tenor : Z) : Transaction.t :=
    Transaction.mk 7%N 1%N 10%N "KP-0001" (f64.of_int 90000) (f64.of_int 5000)
      (f64.of_int 1800) tenor (f64.of_int 96800)
      TransactionStatusPending None None None.

Definition completed_contract : Transaction.t :=
    Transaction.mk 7%N 1%N 10%N "KP-0001" (f64.of_int 90000) (f64.of_int 5000)
      (f64.of_int 1800) 1 (f64.of_int 96800)
      TransactionStatusCompleted None None None.

Definition completed_store : DB :=
    mkDB [Customer.mk 1%N true] [Asset.mk 10%N (f64.of_int 90000)] []
      [completed_contract] [].

  (** An allocation of which one hundredth is used. *)
Definition cent_store : DB :=
    mkDB [Customer.mk 1%N true] []
      [CreditLimit.mk 100%N 1%N 1 (f64.of_int 1000) (f64.ratio 1 100)] [] [].

End Examples.

(** ** Comparisons of [float64] *)

Lemma SFcompare_antisym (a b : float64) :
  SFcompare b a = option_map CompOpp (SFcompare a b).
Proof.
  destruct a as [sa | sa | | sa ma ea], b as [sb | sb | | sb mb eb];
    try reflexivity;
    try (destruct sa; reflexivity); try (destruct sb; reflexivity);
    try (destruct sa, sb; reflexivity).
  simpl. destruct sa, sb; try reflexivity; simpl; f_equal;
    rewrite (Z.compare_antisym ea eb);
    destruct (ea ?= eb); simpl; try reflexivity;
    change (PosDef.Pos.compare_cont Eq mb ma) with (mb ?= ma)%positive;
    change (PosDef.Pos.compare_cont Eq ma mb) with (ma ?= mb)%positive;
    rewrite (Pos.compare_antisym ma mb);
    now rewrite ?CompOpp_involutive.
Qed.

(** [a < b] is false exactly when [b <= a] or one of the two is NaN. *)
Lemma ltb_false_iff (a b : float64) :
  f64.ltb a b = false
  <-> f64.leb b a = true \/ a = f64.nan \/ b = f64.nan.
Proof.
  unfold f64.ltb, f64.leb, SFltb, SFleb. rewrite (SFcompare_antisym a b).
  destruct (SFcompare a b) as [[| |] |] eqn:E; simpl.
  - split; [now left | reflexivity].
  - split; [discriminate |].
    intros [H | [-> | ->]]; [discriminate | discriminate E |].
    destruct a; discriminate E.
  - split; [now left | reflexivity].
  - split; [| reflexivity]. intros _. right.
    destruct a as [sa | sa | | sa ma ea], b as [sb | sb | | sb mb eb];
      auto; discriminate E.
Qed.

(** [a <= b] is false exactly when [b < a] or one of the two is NaN. *)
Lemma leb_false_iff (a b : float64) :
  f64.leb a b = false
  <-> f64.gtb a b = true \/ a = f64.nan \/ b = f64.nan.
Proof.
  unfold f64.gtb, f64.leb, SFltb, SFleb. rewrite (SFcompare_antisym a b).
  destruct (SFcompare a b) as [[| |] |] eqn:E; simpl.
  - split; [discriminate |].
    intros [H | [-> | ->]]; [discriminate | discriminate E |].
    destruct a; discriminate E.
  - split; [discriminate |].
    intros [H | [-> | ->]]; [discriminate | discriminate E |].
    destruct a; discriminate E.
  - split; [now left | reflexivity].
  - split; [| reflexivity]. intros _. right.
    destruct a as [sa | sa | | sa ma ea], b as [sb | sb | | sb mb eb];
      auto; discriminate E.
Qed.

(** A negative amount is neither zero nor positive, and conversely. *)
Lemma ltb_excludes (a b : float64) :
  f64.ltb a b = true -> f64.eqb a b = false /\ f64.gtb a b = false.
Proof.
  unfold f64.ltb, f64.eqb, f64.gtb, SFltb, SFeqb.
  rewrite (SFcompare_antisym a b).
  destruct (SFcompare a b) as [[| |] |]; simpl; intro H;
    try discriminate H; auto.
Qed.

Lemma gtb_excludes (a b : float64) :
  f64.gtb a b = true -> f64.eqb a b = false /\ f64.ltb a b = false.
Proof.
  unfold f64.ltb, f64.eqb, f64.gtb, SFltb, SFeqb.
  rewrite (SFcompare_antisym a b).
  destruct (SFcompare a b) as [[| |] |]; simpl; intro H;
    try discriminate H; auto.
Qed.

(** ** Queries *)

Section Queries.

Context {A : Type} (key : A -> UUID).

Lemma lowest_In (rows : list A) (r : A) :
  lowest key rows = Some r -> In r rows.
Proof.
  revert r. induction rows as [| x rows IH]; simpl; intros r H.
  - discriminate.
  - destruct (lowest key rows) as [m |].
    + destruct (key x <=? key m)%N; inversion H; subst; auto.
    + inversion H; auto.
Qed.

Lemma lowest_None (rows : list A) : lowest key rows = None <-> rows = [].
Proof.
  destruct rows as [| x rows]; simpl.
  - split; reflexivity.
  - destruct (lowest key rows) as [m |];
      [destruct (key x <=? key m)%N |]; split; discriminate.
Qed.

Lemma First_In (cond : A -> bool) (rows : list A) (r : A) :
  First key cond rows = Some r -> In r rows /\ cond r = true.
Proof.
  unfold First. intro H. apply lowest_In in H. now apply filter_In in H.
Qed.

Lemma First_None (cond : A -> bool) (rows : list A) :
  First key cond rows = None <-> filter cond rows = [].
Proof. apply lowest_None. Qed.

Lemma First_Some_of_In (cond : A -> bool) (rows : list A) (r : A) :
  In r rows -> cond r = true -> exists r', First key cond rows = Some r'.
Proof.
  intros Hin Hc. destruct (First key cond rows) as [r' |] eqn:E.
  - now exists r'.
  - apply First_None in E.
    assert (In r (filter cond rows)) as H by (apply filter_In; auto).
    rewrite E in H. destruct H.
Qed.

(** A row-wise rewrite that keeps keys and the queried condition commutes
    with the query. *)
Lemma lowest_map (f : A -> A) (rows : list A) :
  (forall r, key (f r) = key r) ->
  lowest key (map f rows) = option_map f (lowest key rows).
Proof.
  intro Hk. induction rows as [| x rows IH]; simpl; [reflexivity |].
  rewrite IH. destruct (lowest key rows) as [m |]; simpl; [| reflexivity].
  rewrite !Hk. now destruct (key x <=? key m)%N.
Qed.

Lemma filter_map_swap (f : A -> A) (cond : A -> bool) (rows : list A) :
  (forall r, cond (f r) = cond r) ->
  filter cond (map f rows) = map f (filter cond rows).
Proof.
  intro Hc. induction rows as [| x rows IH]; simpl; [reflexivity |].
  rewrite Hc, IH. now destruct (cond x).
Qed.

Lemma First_map (f : A -> A) (cond : A -> bool) (rows : list A) :
  (forall r, key (f r) = key r) ->
  (forall r, cond (f r) = cond r) ->
  First key cond (map f rows) = option_map f (First key cond rows).
Proof.
  intros Hk Hc. unfold First. rewrite filter_map_swap by exact Hc.
  now apply lowest_map.
Qed.

End Queries.

(** ** Transactions of the store *)

Lemma Transaction_rollback (fn : DB -> DB * option error) (db db' : DB)
  (e : error) :
  Transaction fn db = (db', Some e) -> db' = db.
Proof.
  unfold Transaction. destruct (fn db) as [d [e' |]]; intro H; inversion H.
  reflexivity.
Qed.

Lemma Transaction_commit (fn : DB -> DB * option error) (db db' : DB) :
  Transaction fn db = (db', None) -> fn db = (db', None).
Proof.
  unfold Transaction. destruct (fn db) as [d [e' |]]; intro H; inversion H.
  reflexivity.
Qed.
(** ** The installment schedule generator *)

Section Generator.

Import repository.transactionRepository.

Variable rt : Runtime.
Variable transaction : Transaction.t.

Lemma installments_from_length (n : nat) (i : Z) (due : gotime.Time) :
  List.length (installments_from rt transaction n i due) = n.
Proof.
  revert i due. induction n as [| n IH]; intros i due; simpl;
    [reflexivity | now rewrite IH].
Qed.

Lemma installments_from_numbers (n : nat) (i : Z) (due : gotime.Time) :
  map TransactionDetail.InstallmentNumber (installments_from rt transaction n i due)
  = map (fun k => i + Z.of_nat k) (seq 1 n).
Proof.
  revert i due. induction n as [| n IH]; intros i due; simpl; [reflexivity |].
  f_equal. rewrite IH, <- (seq_shift n 1), map_map.
  apply map_ext. intro k. lia.
Qed.

Lemma installments_from_flat (n : nat) (i : Z) (due : gotime.Time) :
  Forall (fun d =>
            TransactionDetail.Amount d = Transaction.InstallmentAmount transaction
            /\ TransactionDetail.Status d = TransactionDetailStatusPending
            /\ TransactionDetail.TransactionID d = Transaction.ID transaction)
    (installments_from rt transaction n i due).
Proof.
  revert i due. induction n as [| n IH]; intros i due; simpl; constructor.
  - simpl. auto.
  - apply IH.
Qed.

End Generator.

(** ** The calendar *)

Lemma daysIn_bounds (y m : Z) : 28 <= gotime.daysIn y m <= 31.
Proof.
  unfold gotime.daysIn.
  repeat match goal with
         | |- context [if ?c then _ else _] => destruct c
         end; lia.
Qed.

(** [AddDate(0, 1, 0)] on a date whose month is in range: the following
    month, then the overflow of the day. *)
Lemma AddDate_next_month (y m d ns : Z) :
  1 <= m <= 12 ->
  gotime.AddDate 0 1 (gotime.mkTime y m d ns)
  = let y' := if m =? 12 then y + 1 else y in
    let m' := if m =? 12 then 1 else m + 1 in
    if d <=? gotime.daysIn y' m' then gotime.mkTime y' m' d ns
    else if m' =? 12 then gotime.mkTime (y' + 1) 1 (d - gotime.daysIn y' m') ns
    else gotime.mkTime y' (m' + 1) (d - gotime.daysIn y' m') ns.
Proof.
  intro Hm. unfold gotime.AddDate.
  cbn [gotime.year gotime.month gotime.day gotime.nsec].
  replace (m - 1 + 1) with m by lia.
  destruct (Z.eqb_spec m 12) as [-> | Hne].
  - change (12 / 12) with 1. change (12 mod 12 + 1) with 1.
    replace (y + 0 + 1) with (y + 1) by lia. reflexivity.
  - rewrite Z.div_small, Z.mod_small by lia.
    replace (y + 0 + 0) with y by lia. reflexivity.
Qed.

Lemma AddDate_month_valid (t : gotime.Time) :
  gotime.valid t -> gotime.valid (gotime.AddDate 0 1 t).
Proof.
  destruct t as [y m d ns]. unfold gotime.valid. simpl. intros [Hm Hd].
  rewrite AddDate_next_month by exact Hm. cbn zeta.
  destruct (Z.eqb_spec m 12) as [-> | Hne].
  - assert (gotime.daysIn (y + 1) 1 = 31) as E1 by reflexivity.
    change (gotime.daysIn y 12) with 31 in Hd.
    rewrite E1. destruct (Z.leb_spec d 31); [simpl; rewrite E1; lia | lia].
  - pose proof (daysIn_bounds y m) as Bm.
    pose proof (daysIn_bounds y (m + 1)) as Bn.
    pose proof (daysIn_bounds y (m + 1 + 1)) as Bo.
    destruct (Z.leb_spec d (gotime.daysIn y (m + 1))); [simpl; lia |].
    destruct (Z.eqb_spec (m + 1) 12) as [E | E].
    + rewrite E in *. change (gotime.daysIn y 12) with 31 in *. lia.
    + simpl. lia.
Qed.

Lemma AddDate_month_later (t : gotime.Time) :
  gotime.valid t -> gotime.before t (gotime.AddDate 0 1 t).
Proof.
  destruct t as [y m d ns]. unfold gotime.valid, gotime.before. simpl.
  intros [Hm Hd].
  rewrite AddDate_next_month by exact Hm. cbn zeta.
  destruct (Z.eqb_spec m 12) as [-> | Hne].
  - destruct (d <=? gotime.daysIn (y + 1) 1); simpl; lia.
  - destruct (d <=? gotime.daysIn y (m + 1)); [simpl; lia |].
    destruct (m + 1 =? 12); simpl; lia.
Qed.

(** Up to the 28th the due date keeps its day of the month. *)
Lemma AddDate_month_same_day (t : gotime.Time) :
  1 <= gotime.month t <= 12 -> gotime.day t <= 28 ->
  gotime.day (gotime.AddDate 0 1 t) = gotime.day t
  /\ (gotime.month t < 12 ->
      gotime.month (gotime.AddDate 0 1 t) = gotime.month t + 1
      /\ gotime.year (gotime.AddDate 0 1 t) = gotime.year t)
  /\ (gotime.month t = 12 ->
      gotime.month (gotime.AddDate 0 1 t) = 1
      /\ gotime.year (gotime.AddDate 0 1 t) = gotime.year t + 1).
Proof.
  destruct t as [y m d ns]. unfold gotime.AddDate. simpl. intros Hm Hd.
  assert (d <= gotime.daysIn (y + 0 + (m - 1 + 1) / 12) ((m - 1 + 1) mod 12 + 1))
    as Hle.
  { unfold gotime.daysIn.
    repeat match goal with
           | |- context [if ?c then _ else _] => destruct c
           end; lia. }
  apply Z.leb_le in Hle. rewrite Hle. simpl.
  replace (m - 1 + 1) with m by lia.
  split; [reflexivity |]. split; intro H.
  - rewrite Z.div_small, Z.mod_small by lia. lia.
  - subst m. change (12 / 12) with 1. change (12 mod 12) with 0. lia.
Qed.

(** Go's day overflow, on the end of January. *)
Example AddDate_end_of_january :
  gotime.AddDate 0 1 (gotime.mkTime 2024 1 31 0) = gotime.mkTime 2024 3 2 0
  /\ gotime.AddDate 0 1 (gotime.mkTime 2023 1 31 0) = gotime.mkTime 2023 3 3 0
  /\ gotime.AddDate 0 1 (gotime.mkTime 2023 10 31 0) = gotime.mkTime 2023 12 1 0
  /\ gotime.AddDate 0 1 (gotime.mkTime 2023 12 31 0) = gotime.mkTime 2024 1 31 0.
Proof. repeat split. Qed.
Lemma installments_from_chronological
  (rt : Runtime) (transaction : Transaction.t) (n : nat) (i : Z)
  (due : gotime.Time) :
  gotime.valid due ->
  Forall gotime.valid
    (map TransactionDetail.DueDate
       (repository.transactionRepository.installments_from rt transaction n i due))
  /\ Sorted gotime.before
       (due :: map TransactionDetail.DueDate
                 (repository.transactionRepository.installments_from rt
                    transaction n i due)).
Proof.
  revert i due. induction n as [| n IH]; intros i due Hv; simpl.
  - split; constructor; constructor.
  - pose proof (AddDate_month_valid due Hv) as Hv'.
    destruct (IH (i + 1) (gotime.AddDate 0 1 due) Hv') as [H1 H2].
    split; [constructor; assumption |].
    constructor; [exact H2 |]. constructor. now apply AddDate_month_later.
Qed.

(** [AddDate(0, k, 0)] on a day that every month has. *)
Lemma AddDate_months_small_day (t : gotime.Time) (k : Z) :
  gotime.day t <= 28 ->
  gotime.AddDate 0 k t
  = gotime.mkTime (gotime.year t + (gotime.month t - 1 + k) / 12)
      ((gotime.month t - 1 + k) mod 12 + 1) (gotime.day t) (gotime.nsec t).
Proof.
  intro Hd. unfold gotime.AddDate.
  pose proof (daysIn_bounds (gotime.year t + 0 + (gotime.month t - 1 + k) / 12)
                ((gotime.month t - 1 + k) mod 12 + 1)) as B.
  destruct (Z.leb_spec (gotime.day t)
              (gotime.daysIn (gotime.year t + 0 + (gotime.month t - 1 + k) / 12)
                 ((gotime.month t - 1 + k) mod 12 + 1))); [| lia].
  f_equal. lia.
Qed.

Lemma AddDate_month_after_months (t : gotime.Time) (k : Z) :
  gotime.day t <= 28 ->
  gotime.AddDate 0 1 (gotime.AddDate 0 k t) = gotime.AddDate 0 (k + 1) t.
Proof.
  intro Hd. rewrite (AddDate_months_small_day t k Hd).
  rewrite (AddDate_months_small_day t (k + 1) Hd).
  rewrite AddDate_months_small_day by exact Hd.
  cbn [gotime.year gotime.month gotime.day gotime.nsec].
  f_equal.
  - pose proof (Z.div_mod (gotime.month t - 1 + k) 12).
    pose proof (Z.mod_pos_bound (gotime.month t - 1 + k) 12).
    pose proof (Z.div_mod (gotime.month t - 1 + (k + 1)) 12).
    pose proof (Z.mod_pos_bound (gotime.month t - 1 + (k + 1)) 12).
    pose proof (Z.div_mod ((gotime.month t - 1 + k) mod 12 + 1 - 1 + 1) 12).
    pose proof (Z.mod_pos_bound ((gotime.month t - 1 + k) mod 12 + 1 - 1 + 1) 12).
    lia.
  - pose proof (Z.div_mod (gotime.month t - 1 + k) 12).
    pose proof (Z.mod_pos_bound (gotime.month t - 1 + k) 12).
    pose proof (Z.div_mod (gotime.month t - 1 + (k + 1)) 12).
    pose proof (Z.mod_pos_bound (gotime.month t - 1 + (k + 1)) 12).
    pose proof (Z.div_mod ((gotime.month t - 1 + k) mod 12 + 1 - 1 + 1) 12).
    pose proof (Z.mod_pos_bound ((gotime.month t - 1 + k) mod 12 + 1 - 1 + 1) 12).
    lia.
Qed.

Lemma AddDate_zero_months (t : gotime.Time) :
  1 <= gotime.month t <= 12 -> gotime.day t <= 28 -> gotime.AddDate 0 0 t = t.
Proof.
  intros Hm Hd. rewrite AddDate_months_small_day by exact Hd.
  destruct t as [y m d ns]. cbn [gotime.year gotime.month gotime.day gotime.nsec] in *.
  replace (m - 1 + 0) with (m - 1) by lia.
  rewrite Z.div_small, Z.mod_small by lia. f_equal; lia.
Qed.

Lemma installments_from_months
  (rt : Runtime) (transaction : Transaction.t) (start : gotime.Time)
  (n : nat) (i j : Z) :
  gotime.day start <= 28 ->
  map TransactionDetail.DueDate
    (repository.transactionRepository.installments_from rt transaction n i
       (gotime.AddDate 0 j start))
  = map (fun k => gotime.AddDate 0 (j + Z.of_nat k) start) (seq 1 n).
Proof.
  intro Hd. revert i j. induction n as [| n IH]; intros i j; [reflexivity |].
  cbn [repository.transactionRepository.installments_from map
       TransactionDetail.DueDate seq].
  rewrite (AddDate_month_after_months start j Hd). f_equal.
  rewrite IH, <- (seq_shift n 1), map_map.
  apply map_ext. intro k. f_equal. lia.
Qed.

(** A monthly step ends in the next calendar month or, when the day
    overflows, in the one after it. *)
Lemma AddDate_month_step (t : gotime.Time) :
  gotime.valid t ->
  calendar_month (gotime.AddDate 0 1 t) = calendar_month t + 1
  \/ calendar_month (gotime.AddDate 0 1 t) = calendar_month t + 2.
Proof.
  destruct t as [y m d ns]. unfold gotime.valid, calendar_month.
  cbn [gotime.year gotime.month gotime.day].
  intros [Hm Hd]. rewrite AddDate_next_month by exact Hm. cbn zeta.
  destruct (Z.eqb_spec m 12) as [-> | Hne].
  - destruct (d <=? gotime.daysIn (y + 1) 1);
      [| change (1 =? 12) with false; cbv iota];
      cbn [gotime.year gotime.month]; lia.
  - destruct (d <=? gotime.daysIn y (m + 1));
      [cbn [gotime.year gotime.month]; lia |].
    destruct (Z.eqb_spec (m + 1) 12); cbn [gotime.year gotime.month]; lia.
Qed.

Lemma installments_from_steps
  (rt : Runtime) (transaction : Transaction.t) (n : nat) (i : Z)
  (due : gotime.Time) :
  gotime.valid due ->
  one_or_two_months due
    (map TransactionDetail.DueDate
       (repository.transactionRepository.installments_from rt transaction n i due)).
Proof.
  revert i due. induction n as [| n IH]; intros i due Hv; simpl; [exact I |].
  split; [now apply AddDate_month_step |].
  apply IH. now apply AddDate_month_valid.
Qed.

Lemma installments_from_monthly
  (rt : Runtime) (transaction : Transaction.t) (n : nat) (i : Z)
  (due : gotime.Time) :
  gotime.valid due -> gotime.day due <= 28 ->
  monthly due
    (map TransactionDetail.DueDate
       (repository.transactionRepository.installments_from rt transaction n i due)).
Proof.
  revert i due. induction n as [| n IH]; intros i due Hv Hd; simpl; [exact I |].
  destruct Hv as [Hm Hday].
  destruct (AddDate_month_same_day due Hm Hd) as [Eday [Hlt Heq]].
  split.
  - unfold calendar_month.
    destruct (Z.eq_dec (gotime.month due) 12) as [E | E].
    + destruct (Heq E) as [E1 E2]. lia.
    + destruct (Hlt ltac:(lia)) as [E1 E2]. lia.
  - apply IH; [| lia].
    apply AddDate_month_valid. split; assumption.
Qed.

(** C5, as the code has it.  For a contract of duration [D] (not
    negative) the generator returns exactly [D] entries; their
    installment numbers are 1, ..., D in this order; every amount is the
    contract's installment amount and every status is "pending".  The
    due dates start from the instant the generator reads from the clock
    and advance by Go's [AddDate(0, 1, 0)]: they are dates of the
    calendar, strictly increasing, each one or two calendar months after
    the one before it.  When that instant falls on the 1st to the 28th of
    a month, the k-th due date is the same day of the month and time of
    day k calendar months later, so that every due date is exactly one
    calendar month after the previous one. *)
Theorem generateInstallments_complete (rt : Runtime) (transaction : Transaction.t) :
  0 <= Transaction.TenorMonth transaction ->
  exists installments,
    repository.transactionRepository.generateInstallments rt transaction
    = Some installments
    /\ List.length installments = Z.to_nat (Transaction.TenorMonth transaction)
    /\ map TransactionDetail.InstallmentNumber installments
       = map Z.of_nat (seq 1 (Z.to_nat (Transaction.TenorMonth transaction)))
    /\ Forall (fun d => TransactionDetail.Amount d
                        = Transaction.InstallmentAmount transaction)
         installments
    /\ Forall (fun d => TransactionDetail.Status d = "pending") installments
    /\ (gotime.valid (Now rt 0) ->
        Forall gotime.valid (map TransactionDetail.DueDate installments)
        /\ Sorted gotime.before
             (Now rt 0 :: map TransactionDetail.DueDate installments)
        /\ one_or_two_months (Now rt 0)
             (map TransactionDetail.DueDate installments)
        /\ (gotime.day (Now rt 0) <= 28 ->
            map TransactionDetail.DueDate installments
            = map (fun k =>
                     gotime.mkTime
                       (gotime.year (Now rt 0)
                        + (gotime.month (Now rt 0) - 1 + Z.of_nat k) / 12)
                       ((gotime.month (Now rt 0) - 1 + Z.of_nat k) mod 12 + 1)
                       (gotime.day (Now rt 0)) (gotime.nsec (Now rt 0)))
                (seq 1 (Z.to_nat (Transaction.TenorMonth transaction)))
            /\ monthly (Now rt 0)
                 (map TransactionDetail.DueDate installments))).
Proof.
  intro Hd. unfold repository.transactionRepository.generateInstallments.
  destruct (Transaction.TenorMonth transaction <? 0) eqn:E;
    [apply Z.ltb_lt in E; lia |].
  eexists. split; [reflexivity |].
  split; [apply installments_from_length |].
  split; [apply installments_from_numbers |].
  split; [| split; [| intro Hv]].
  - eapply Forall_impl; [| apply installments_from_flat]. simpl. tauto.
  - eapply Forall_impl; [| apply installments_from_flat]. simpl. tauto.
  - destruct (installments_from_chronological rt transaction
                (Z.to_nat (Transaction.TenorMonth transaction)) 0 (Now rt 0) Hv)
      as [H1 H2].
    split; [exact H1 |]. split; [exact H2 |].
    split; [now apply installments_from_steps |].
    intro Hday. split; [| now apply installments_from_monthly].
    destruct Hv as [Hm _].
    rewrite <- (AddDate_zero_months (Now rt 0) Hm Hday) at 1.
    rewrite installments_from_months by exact Hday.
    apply map_ext. intro k.
    rewrite AddDate_months_small_day by exact Hday. reflexivity.
Qed.

Lemma generateInstallments_complete_witness :
  0 <= Transaction.TenorMonth (Examples.contract 6)
  /\ gotime.valid (Now (Examples.clock 2024 11 15) 0)
  /\ gotime.day (Now (Examples.clock 2024 11 15) 0) <= 28
  /\ exists installments,
      repository.transactionRepository.generateInstallments
        (Examples.clock 2024 11 15) (Examples.contract 6)
      = Some installments
      /\ map TransactionDetail.InstallmentNumber installments = [1; 2; 3; 4; 5; 6]
      /\ map TransactionDetail.DueDate installments
         = [gotime.mkTime 2024 12 15 0; gotime.mkTime 2025 1 15 0;
            gotime.mkTime 2025 2 15 0; gotime.mkTime 2025 3 15 0;
            gotime.mkTime 2025 4 15 0; gotime.mkTime 2025 5 15 0].
Proof.
  assert (gotime.valid (Now (Examples.clock 2024 11 15) 0)) as Hv
    by (repeat split; discriminate).
  assert (gotime.day (Now (Examples.clock 2024 11 15) 0) <= 28) as Hday
    by discriminate.
  split; [simpl; lia |]. split; [exact Hv |]. split; [exact Hday |].
  destruct (generateInstallments_complete (Examples.clock 2024 11 15)
              (Examples.contract 6)) as [l [H1 [_ [H3 [_ [_ H6]]]]]]; [simpl; lia |].
  exists l. split; [exact H1 |]. split; [exact H3 |].
  destruct (H6 Hv) as [_ [_ [_ H7]]]. destruct (H7 Hday) as [H8 _].
  rewrite H8. reflexivity.
Defined.

(** C5, as stated, fails: a schedule generated on 31 January 2024 has its
    first due date on 2 March 2024, in the second calendar month after
    January, because February has no 31st. *)
Lemma due_dates_skip_a_month : ~ due_dates_one_month_apart.
Proof.
  intro H.
  specialize (H (Examples.clock 2024 1 31) (Examples.contract 1)
                [TransactionDetail.mk 1000%N 7%N 1 (f64.of_int 96800)
                   (gotime.mkTime 2024 3 2 0) TransactionDetailStatusPending
                   (gotime.mkTime 2024 1 31 1) (gotime.mkTime 2024 1 31 2)]).
  destruct H as [H _]; [repeat split; discriminate | reflexivity |].
  discriminate H.
Qed.

Lemma installments_from_entries (rt1 rt2 : Runtime) (transaction : Transaction.t)
  (n : nat) (i : Z) (due : gotime.Time) :
  map schedule_entry
    (repository.transactionRepository.installments_from rt1 transaction n i due)
  = map schedule_entry
      (repository.transactionRepository.installments_from rt2 transaction n i due).
Proof.
  revert i due. induction n as [| n IH]; intros i due; simpl; [reflexivity |].
  now rewrite IH.
Qed.

(** C2, as the code has it.  The generator reads the clock: its schedule
    is a function of the contract and of the instant [time.Now] returns
    when it starts.  Two runs on the same contract that read the same
    instant produce the same (number, amount, due date, status) entries,
    whatever identifiers and timestamps they draw. *)
Theorem schedule_deterministic_given_instant
  (transaction : Transaction.t) (rt1 rt2 : Runtime) :
  Now rt1 0 = Now rt2 0 ->
  schedule rt1 transaction = schedule rt2 transaction.
Proof.
  intro Hnow. unfold schedule, repository.transactionRepository.generateInstallments.
  destruct (Transaction.TenorMonth transaction <? 0); [reflexivity |].
  simpl. rewrite Hnow. f_equal. apply installments_from_entries.
Qed.

Lemma schedule_deterministic_given_instant_witness :
  Now (Examples.clock 2024 1 15) 0
  = Now (mkRuntime (fun k => gotime.mkTime 2024 1 15 (7 * k)) (fun _ => 5%N)) 0
  /\ schedule (Examples.clock 2024 1 15) (Examples.contract 3)
     = schedule (mkRuntime (fun k => gotime.mkTime 2024 1 15 (7 * k)) (fun _ => 5%N))
         (Examples.contract 3).
Proof.
  split; [reflexivity |].
  apply (schedule_deterministic_given_instant (Examples.contract 3)
           (Examples.clock 2024 1 15)
           (mkRuntime (fun k => gotime.mkTime 2024 1 15 (7 * k)) (fun _ => 5%N))).
  reflexivity.
Defined.

(** C2, as stated, fails: the same contract scheduled on 15 January and
    on 15 February gets different due dates. *)
Lemma schedule_depends_on_the_clock : ~ schedule_depends_on_contract_only.
Proof.
  intro H.
  specialize (H (Examples.contract 1) (Examples.clock 2024 1 15)
                (Examples.clock 2024 2 15)).
  vm_compute in H. discriminate H.
Qed.

(** The part of an entry that does not come from the clock is the same in
    every run. *)
Lemma schedule_numbers_amounts_statuses (transaction : Transaction.t)
  (rt1 rt2 : Runtime) :
  option_map (map (fun d => (TransactionDetail.InstallmentNumber d,
                             TransactionDetail.Amount d,
                             TransactionDetail.Status d)))
    (repository.transactionRepository.generateInstallments rt1 transaction)
  = option_map (map (fun d => (TransactionDetail.InstallmentNumber d,
                               TransactionDetail.Amount d,
                               TransactionDetail.Status d)))
      (repository.transactionRepository.generateInstallments rt2 transaction).
Proof.
  unfold repository.transactionRepository.generateInstallments.
  destruct (Transaction.TenorMonth transaction <? 0); [reflexivity |].
  simpl. f_equal.
  generalize (Now rt1 0) (Now rt2 0). generalize 0 at 1 2.
  induction (Z.to_nat (Transaction.TenorMonth transaction)) as [| n IH];
    intros i d1 d2; simpl; [reflexivity |].
  now rewrite (IH (i + 1) (gotime.AddDate 0 1 d1) (gotime.AddDate 0 1 d2)).
Qed.

(** X17.  When the clock reading the generator starts from is a date of
    the calendar, every due date is a date of the calendar and the due
    dates are strictly increasing, the first one being later than the
    reading. *)
Theorem due_dates_valid_and_increasing
  (rt : Runtime) (transaction : Transaction.t)
  (installments : list TransactionDetail.t) :
  gotime.valid (Now rt 0) ->
  repository.transactionRepository.generateInstallments rt transaction
  = Some installments ->
  Forall gotime.valid (map TransactionDetail.DueDate installments)
  /\ Sorted gotime.before
       (Now rt 0 :: map TransactionDetail.DueDate installments).
Proof.
  intros Hv H.
  unfold repository.transactionRepository.generateInstallments in H.
  destruct (Transaction.TenorMonth transaction <? 0); [discriminate |].
  inversion H. now apply installments_from_chronological.
Qed.

Lemma due_dates_valid_and_increasing_witness :
  Sorted gotime.before
    (Now (Examples.clock 2024 1 31) 0
     :: map TransactionDetail.DueDate
          (repository.transactionRepository.installments_from
             (Examples.clock 2024 1 31) (Examples.contract 6) 6 0
             (Now (Examples.clock 2024 1 31) 0))).
Proof.
  apply (proj2 (due_dates_valid_and_increasing (Examples.clock 2024 1 31)
                  (Examples.contract 6) _ ltac:(repeat split; discriminate)
                  eq_refl)).
Defined.

(** X18.  When the generator starts on a day of the month up to the 28th,
    the k-th due date is the starting instant plus k calendar months
    ([AddDate(0, k, 0)]): the same day of the month and time of day, k
    months on. *)
Theorem due_dates_are_whole_months
  (rt : Runtime) (transaction : Transaction.t)
  (installments : list TransactionDetail.t) :
  1 <= gotime.month (Now rt 0) <= 12 ->
  gotime.day (Now rt 0) <= 28 ->
  repository.transactionRepository.generateInstallments rt transaction
  = Some installments ->
  map TransactionDetail.DueDate installments
  = map (fun k => gotime.AddDate 0 (Z.of_nat k) (Now rt 0))
      (seq 1 (List.length installments))
  /\ Forall (fun d => gotime.day (TransactionDetail.DueDate d)
                      = gotime.day (Now rt 0)
                      /\ gotime.nsec (TransactionDetail.DueDate d)
                         = gotime.nsec (Now rt 0))
       installments.
Proof.
  intros Hm Hd H.
  unfold repository.transactionRepository.generateInstallments in H.
  destruct (Transaction.TenorMonth transaction <? 0); [discriminate |].
  inversion H as [Hl]. clear H.
  rewrite installments_from_length.
  assert (map TransactionDetail.DueDate
            (repository.transactionRepository.installments_from rt transaction
               (Z.to_nat (Transaction.TenorMonth transaction)) 0 (Now rt 0))
          = map (fun k => gotime.AddDate 0 (Z.of_nat k) (Now rt 0))
              (seq 1 (Z.to_nat (Transaction.TenorMonth transaction)))) as E.
  { rewrite <- (AddDate_zero_months (Now rt 0) Hm Hd) at 1.
    rewrite installments_from_months by exact Hd. reflexivity. }
  split; [exact E |].
  apply Forall_forall. intros d Hin.
  apply (in_map TransactionDetail.DueDate) in Hin. rewrite E in Hin.
  apply in_map_iff in Hin. destruct Hin as [k [Hk _]]. rewrite <- Hk.
  rewrite AddDate_months_small_day by exact Hd. split; reflexivity.
Qed.

Lemma due_dates_are_whole_months_witness :
  exists installments,
    repository.transactionRepository.generateInstallments
      (Examples.clock 2024 11 15) (Examples.contract 3)
    = Some installments
    /\ map (fun d => (gotime.year (TransactionDetail.DueDate d),
                      gotime.month (TransactionDetail.DueDate d),
                      gotime.day (TransactionDetail.DueDate d)))
         installments
       = [(2024, 12, 15); (2025, 1, 15); (2025, 2, 15)].
Proof.
  eexists. split; [reflexivity |].
  pose proof (proj1 (due_dates_are_whole_months (Examples.clock 2024 11 15)
                       (Examples.contract 3) _
                       ltac:(split; discriminate)
                       ltac:(discriminate) eq_refl)) as H.
  rewrite <- (map_map TransactionDetail.DueDate
                (fun t => (gotime.year t, gotime.month t, gotime.day t))).
  rewrite H. reflexivity.
Defined.

(** From the 29th on the monthly steps drift: two steps from 31 January
    2023 end on 3 April, where [AddDate(0, 2, 0)] gives 31 March. *)
Example due_dates_drift_after_the_28th :
  gotime.AddDate 0 1 (gotime.AddDate 0 1 (gotime.mkTime 2023 1 31 0))
  = gotime.mkTime 2023 4 3 0
  /\ gotime.AddDate 0 2 (gotime.mkTime 2023 1 31 0) = gotime.mkTime 2023 3 31 0.
Proof. split; reflexivity. Qed.
(** ** The rows the server writes *)

Lemma credit_limit_row_Ok (srv : Server) (l row : CreditLimit.t) :
  credit_limit_row srv l = Ok row ->
  CreditLimit.ID row = CreditLimit.ID l
  /\ CreditLimit.CustomerID row = CreditLimit.CustomerID l
  /\ CreditLimit.TenorMonth row = CreditLimit.TenorMonth l
  /\ Decimal srv (CreditLimit.LimitAmount l) = Some (CreditLimit.LimitAmount row)
  /\ Decimal srv (CreditLimit.UsedAmount l) = Some (CreditLimit.UsedAmount row).
Proof.
  unfold credit_limit_row.
  destruct (Decimal srv (CreditLimit.LimitAmount l)) as [limit |]; [| discriminate].
  destruct (Decimal srv (CreditLimit.UsedAmount l)) as [used |]; [| discriminate].
  intro H. inversion H. simpl. auto.
Qed.

Lemma credit_limit_row_of (srv : Server) (l : CreditLimit.t)
  (limit used : float64) :
  Decimal srv (CreditLimit.LimitAmount l) = Some limit ->
  Decimal srv (CreditLimit.UsedAmount l) = Some used ->
  credit_limit_row srv l
  = Ok (CreditLimit.mk (CreditLimit.ID l) (CreditLimit.CustomerID l)
          (CreditLimit.TenorMonth l) limit used).
Proof. unfold credit_limit_row. now intros -> ->. Qed.

Lemma put_credit_limit_by_id (l row : CreditLimit.t) (id : UUID) (db : DB) :
  credit_limit_by_id id db = Some l ->
  CreditLimit.ID row = CreditLimit.ID l ->
  credit_limit_by_id id (put_credit_limit row db) = Some row.
Proof.
  intros Hl Hid. unfold credit_limit_by_id in *. simpl.
  rewrite First_map.
  - rewrite Hl. simpl. rewrite Hid, N.eqb_refl. reflexivity.
  - intro r. destruct (N.eqb_spec (CreditLimit.ID r) (CreditLimit.ID row));
      congruence.
  - intro r. destruct (N.eqb_spec (CreditLimit.ID r) (CreditLimit.ID row));
      congruence.
Qed.

Lemma credit_limit_by_id_ID (id : UUID) (db : DB) (l : CreditLimit.t) :
  credit_limit_by_id id db = Some l -> CreditLimit.ID l = id.
Proof.
  intro H. apply First_In in H. destruct H as [_ H]. now apply N.eqb_eq in H.
Qed.

(** A status of the enumeration fits its column and passes its [CHECK],
    whatever the collation. *)
Lemma IsValid_column (srv : Server) (status : TransactionStatus) :
  TransactionStatus.IsValid status = true ->
  (20 <? utf8.RuneCount status) = false
  /\ status_in srv status
       [TransactionStatusPending; TransactionStatusActive;
        TransactionStatusCompleted] = true.
Proof.
  unfold TransactionStatus.IsValid. intro H.
  repeat (apply orb_true_iff in H; destruct H as [H | H]);
    apply String.eqb_eq in H; subst status; split; try reflexivity;
    unfold status_in, same; simpl; now rewrite ?orb_true_r.
Qed.

(** ** The ledger service *)

Ltac open_ledger :=
  cbn [creditLimits repository.creditLimitRepository.repo
       CreditLimitRepository.GetByID CreditLimitRepository.UpdateUsedAmount
       CreditLimitRepository.Delete CreditLimitRepository.Create
       CreditLimitRepository.GetByCustomerIDAndTenor];
  unfold repository.creditLimitRepository.GetByID,
    repository.creditLimitRepository.GetByCustomerIDAndTenor.

(** C10.  Whatever repository the service is built on, updating the used
    amount by zero returns nil at once and leaves the store as it is: the
    repository is not consulted, so it does not matter whether the
    allocation exists. *)
Theorem UpdateUsedAmount_zero_returns_at_once
  (repo : CreditLimitRepository.t) (id : UUID) (amount : float64) (db : DB) :
  f64.eqb amount f64.zero = true ->
  service.creditLimitService.UpdateUsedAmount repo id amount db = (db, None).
Proof.
  intro H. unfold service.creditLimitService.UpdateUsedAmount. now rewrite H.
Qed.

Lemma UpdateUsedAmount_zero_returns_at_once_witness :
  f64.eqb (f64.of_int 0) f64.zero = true
  /\ credit_limit_by_id 42%N mysql.empty = None
  /\ service.creditLimitService.UpdateUsedAmount (creditLimits Examples.server)
       42%N (f64.of_int 0) mysql.empty
     = (mysql.empty, None).
Proof.
  split; [reflexivity |]. split; [reflexivity |].
  apply (UpdateUsedAmount_zero_returns_at_once (creditLimits Examples.server)
           42%N (f64.of_int 0) mysql.empty).
  reflexivity.
Defined.

(** The locked update of the repository, when it commits. *)
Lemma creditLimitRepository_UpdateUsedAmount_commits
  (srv : Server) (id : UUID) (amount : float64) (db db' : DB) :
  repository.creditLimitRepository.UpdateUsedAmount srv id amount db = (db', None) ->
  exists l row,
    credit_limit_by_id id db = Some l
    /\ f64.gtb (f64.add (CreditLimit.UsedAmount l) amount)
         (CreditLimit.LimitAmount l) = false
    /\ credit_limit_row srv (committed l amount) = Ok row
    /\ db' = put_credit_limit row db.
Proof.
  intro H. unfold repository.creditLimitRepository.UpdateUsedAmount in H.
  apply Transaction_commit in H. cbv beta in H.
  fold (credit_limit_by_id id db) in H.
  destruct (credit_limit_by_id id db) as [l |]; [| discriminate].
  destruct (f64.gtb (f64.add (CreditLimit.UsedAmount l) amount)
              (CreditLimit.LimitAmount l)) eqn:E; [discriminate |].
  unfold save_credit_limit in H. fold (committed l amount) in H.
  destruct (credit_limit_row srv (committed l amount)) as [row | e] eqn:Er;
    [| discriminate].
  exists l, row. inversion H. auto.
Qed.

Lemma creditLimitRepository_UpdateUsedAmount_outcome
  (srv : Server) (id : UUID) (amount : float64) (db db' : DB)
  (o : option error) :
  repository.creditLimitRepository.UpdateUsedAmount srv id amount db = (db', o) ->
  db' = db
  \/ exists l row,
      o = None
      /\ credit_limit_by_id id db = Some l
      /\ f64.gtb (f64.add (CreditLimit.UsedAmount l) amount)
           (CreditLimit.LimitAmount l) = false
      /\ credit_limit_row srv (committed l amount) = Ok row
      /\ db' = put_credit_limit row db.
Proof.
  destruct o as [e |]; intro H.
  - left. unfold repository.creditLimitRepository.UpdateUsedAmount in H.
    now apply Transaction_rollback in H.
  - right. apply creditLimitRepository_UpdateUsedAmount_commits in H.
    destruct H as [l [row H]]. exists l, row. tauto.
Qed.

(** The locked update on a row it finds, when the sum stays within the
    limit and the server accepts the row. *)
Lemma creditLimitRepository_UpdateUsedAmount_applies
  (srv : Server) (id : UUID) (amount : float64) (db : DB)
  (l row : CreditLimit.t) :
  credit_limit_by_id id db = Some l ->
  f64.gtb (f64.add (CreditLimit.UsedAmount l) amount)
    (CreditLimit.LimitAmount l) = false ->
  credit_limit_row srv (committed l amount) = Ok row ->
  repository.creditLimitRepository.UpdateUsedAmount srv id amount db
  = (put_credit_limit row db, None).
Proof.
  intros Hl Hcap Hrow.
  unfold repository.creditLimitRepository.UpdateUsedAmount, Transaction.
  fold (credit_limit_by_id id db). rewrite Hl, Hcap.
  unfold save_credit_limit. fold (committed l amount). now rewrite Hrow.
Qed.

(** C8, as the code has it.  A release (a negative amount) on an existing
    allocation, run with no other call between its read and its write.
    When the sum used + amount, computed in [float64], is negative, the
    service fails with the invalid-amount error and the store is
    unchanged.  Otherwise the repository's locked update compares the
    sum with the limit.  When the sum does not exceed it, the release
    succeeds and the allocation's used amount is what the
    [DECIMAL(15,2)] column makes of the sum; its limit is the column's
    value of the limit that was read.  When the sum exceeds the limit,
    the service fails with the repository's insufficient-credit-limit
    error and the store is unchanged. *)
Theorem UpdateUsedAmount_release (srv : Server) (id : UUID) (amount : float64)
  (db : DB) (l : CreditLimit.t) :
  f64.ltb amount f64.zero = true ->
  credit_limit_by_id id db = Some l ->
  (f64.ltb (f64.add (CreditLimit.UsedAmount l) amount) f64.zero = true ->
   service.creditLimitService.UpdateUsedAmount (creditLimits srv) id amount db
   = (db, Some (Errorf "invalid amount: would result in negative used amount")))
  /\ (f64.ltb (f64.add (CreditLimit.UsedAmount l) amount) f64.zero = false ->
      f64.gtb (f64.add (CreditLimit.UsedAmount l) amount)
        (CreditLimit.LimitAmount l) = false ->
      forall used limit,
        Decimal srv (f64.add (CreditLimit.UsedAmount l) amount) = Some used ->
        Decimal srv (CreditLimit.LimitAmount l) = Some limit ->
        exists db' l',
          service.creditLimitService.UpdateUsedAmount (creditLimits srv) id
            amount db
          = (db', None)
          /\ credit_limit_by_id id db' = Some l'
          /\ CreditLimit.UsedAmount l' = used
          /\ CreditLimit.LimitAmount l' = limit)
  /\ (f64.ltb (f64.add (CreditLimit.UsedAmount l) amount) f64.zero = false ->
      f64.gtb (f64.add (CreditLimit.UsedAmount l) amount)
        (CreditLimit.LimitAmount l) = true ->
      service.creditLimitService.UpdateUsedAmount (creditLimits srv) id amount db
      = (db,
         Some (Wrapf "failed to update credit limit used amount"
                 (Errorf "insufficient credit limit: available %.2f, requested %.2f")))).
Proof.
  intros Hneg Hl.
  destruct (ltb_excludes _ _ Hneg) as [Hz Hgt].
  unfold service.creditLimitService.UpdateUsedAmount. rewrite Hz.
  open_ledger. fold (credit_limit_by_id id db). rewrite Hl, Hneg, Hgt.
  cbn [andb].
  split; [intros ->; reflexivity |].
  split.
  - intros -> Hcap used limit Hused Hlimit.
    rewrite (creditLimitRepository_UpdateUsedAmount_applies srv id amount db l
               _ Hl Hcap (credit_limit_row_of srv (committed l amount) limit used
                            Hlimit Hused)).
    eexists. eexists. split; [reflexivity |].
    split; [apply (put_credit_limit_by_id l); [exact Hl | reflexivity] |].
    split; reflexivity.
  - intros -> Hcap.
    unfold repository.creditLimitRepository.UpdateUsedAmount, Transaction.
    fold (credit_limit_by_id id db). now rewrite Hl, Hcap.
Qed.

Lemma UpdateUsedAmount_release_witness :
  exists db' l',
    service.creditLimitService.UpdateUsedAmount (creditLimits Examples.server)
      100%N (f64.of_int (-6800)) (Examples.store 1 100000 96800)
    = (db', None)
    /\ credit_limit_by_id 100%N db' = Some l'
    /\ CreditLimit.UsedAmount l' = f64.of_int 90000
    /\ CreditLimit.LimitAmount l' = f64.of_int 100000.
Proof.
  apply (proj1 (proj2 (UpdateUsedAmount_release Examples.server 100%N
                         (f64.of_int (-6800)) (Examples.store 1 100000 96800)
                         (CreditLimit.mk 100%N 1%N 1 (f64.of_int 100000)
                            (f64.of_int 96800))
                         eq_refl eq_refl)));
    reflexivity.
Defined.

(** The other branch of a release, on the same allocation. *)
Example UpdateUsedAmount_release_too_large :
  service.creditLimitService.UpdateUsedAmount (creditLimits Examples.server)
    100%N (f64.of_int (-96801)) (Examples.store 1 100000 96800)
  = (Examples.store 1 100000 96800,
     Some (Errorf "invalid amount: would result in negative used amount")).
Proof. reflexivity. Qed.

(** C8, as stated, fails: on an allocation of which 0.01 is used, the
    release of 0.004 succeeds and the used amount is not 0.01 - 0.004: the
    column holds hundredths, and still reads 0.01. *)
Lemma release_below_a_hundredth :
  ~ release_decrements_by_the_amount Examples.server.
Proof.
  intro H.
  specialize (H 100%N (f64.ratio (-4) 1000) Examples.cent_store
                (fst (service.creditLimitService.UpdateUsedAmount
                        (creditLimits Examples.server) 100%N
                        (f64.ratio (-4) 1000) Examples.cent_store))
                (CreditLimit.mk 100%N 1%N 1 (f64.of_int 1000) (f64.ratio 1 100))
                (CreditLimit.mk 100%N 1%N 1 (f64.of_int 1000) (f64.ratio 1 100))
                eq_refl eq_refl eq_refl eq_refl).
  vm_compute in H. discriminate H.
Qed.

(** After that release the allocation reads as before. *)
Example release_below_a_hundredth_changes_nothing :
  service.creditLimitService.UpdateUsedAmount (creditLimits Examples.server)
    100%N (f64.ratio (-4) 1000) Examples.cent_store
  = (Examples.cent_store, None).
Proof. vm_compute. reflexivity. Qed.

(** ** Contract status *)

Lemma transaction_by_id_ID (id : UUID) (db : DB) (t : Transaction.t) :
  transaction_by_id id db = Some t -> Transaction.ID t = id.
Proof.
  intro H. apply First_In in H. destruct H as [_ H]. now apply N.eqb_eq in H.
Qed.

Ltac open_coordinator :=
  cbn [transactions_svc service.transactionService.transactionRepo
       service.transactionService.customerRepo
       service.transactionService.creditLimitRepo
       service.transactionService.assetRepo
       repository.transactionRepository.repo repository.customerRepository.repo
       repository.creditLimitRepository.repo repository.assetRepository.repo
       TransactionRepository.GetByContractNumber CustomerRepository.GetByID
       AssetRepository.GetByID CreditLimitRepository.GetByCustomerIDAndTenor
       TransactionRepository.GetByID];
  unfold repository.transactionRepository.GetByContractNumber,
    repository.customerRepository.GetByID, repository.assetRepository.GetByID,
    repository.creditLimitRepository.GetByCustomerIDAndTenor,
    repository.transactionRepository.GetByID.

(** C9, as the code has it.  A status outside {pending, active,
    completed} is refused with [ErrInvalidStatus] and the store is
    unchanged.  A status inside it is accepted for every existing
    contract, whatever the contract's current status: afterwards the
    contract carries the requested status, and the ledger is untouched. *)
Theorem UpdateStatus_checks_the_enumeration
  (srv : Server) (id : UUID) (status : TransactionStatus) (db : DB) :
  (TransactionStatus.IsValid status = false ->
   service.transactionService.UpdateStatus (transactions_svc srv) id status db
   = (db, Some ErrInvalidStatus))
  /\ (TransactionStatus.IsValid status = true ->
      forall t, transaction_by_id id db = Some t ->
      exists db' t',
        service.transactionService.UpdateStatus (transactions_svc srv) id status db
        = (db', None)
        /\ transaction_by_id id db' = Some t'
        /\ Transaction.Status t' = status
        /\ credit_limits db' = credit_limits db).
Proof.
  unfold service.transactionService.UpdateStatus. split; intro Hv; rewrite Hv.
  - reflexivity.
  - intros t Ht. cbn [negb]. open_coordinator.
    cbn [TransactionRepository.UpdateStatus repository.transactionRepository.repo].
    unfold repository.transactionRepository.UpdateStatus, Transaction.
    unfold transaction_by_id in Ht |- *. rewrite Ht. cbv beta iota. rewrite Ht.
    unfold update_transaction_status.
    destruct (IsValid_column srv status Hv) as [-> ->]. cbn [negb].
    eexists. eexists. split; [reflexivity |].
    split; [| split; [| reflexivity]].
    + cbn [transactions].
      rewrite First_map.
      * rewrite Ht. reflexivity.
      * intro r. now destruct (Transaction.ID r =? Transaction.ID t)%N.
      * intro r. now destruct (Transaction.ID r =? Transaction.ID t)%N.
    + cbn. now rewrite N.eqb_refl.
Qed.

Lemma UpdateStatus_checks_the_enumeration_witness :
  service.transactionService.UpdateStatus (transactions_svc Examples.server)
    7%N "cancelled" Examples.completed_store
  = (Examples.completed_store, Some ErrInvalidStatus)
  /\ exists db' t',
      service.transactionService.UpdateStatus (transactions_svc Examples.server)
        7%N "active" Examples.completed_store
      = (db', None)
      /\ transaction_by_id 7%N db' = Some t'
      /\ Transaction.Status t' = "active".
Proof.
  split.
  - apply (UpdateStatus_checks_the_enumeration Examples.server 7%N "cancelled"
             Examples.completed_store).
    reflexivity.
  - destruct (proj2 (UpdateStatus_checks_the_enumeration Examples.server 7%N
                       "active" Examples.completed_store) eq_refl _ eq_refl)
      as [db' [t' [H1 [H2 [H3 _]]]]].
    exists db', t'. split; [exact H1 |]. split; [exact H2 | exact H3].
Defined.

(** C9, as stated, fails: a completed contract is put back to pending. *)
Lemma UpdateStatus_moves_backwards :
  ~ status_updates_only_advance Examples.server.
Proof.
  intro H.
  specialize (H Examples.completed_store
                (fst (service.transactionService.UpdateStatus
                        (transactions_svc Examples.server)
                        7%N "pending" Examples.completed_store))
                7%N "pending" Examples.completed_contract
                eq_refl eq_refl).
  destruct H as [[H _] | [H _]]; discriminate H.
Qed.

(** ** Issuance: the capacity check *)



(** A fee too small to change the sum is not counted: with 90000 left of
    the allocation, a price of 90000 and a fee of 2^-40 the total the
    coordinator computes is 90000, and the capacity check passes. *)
Example totalAmount_absorbs_a_small_fee :
  service.transactionService.totalAmount (f64.of_int 90000)
    (CreateTransactionRequest.mk 1%N 10%N 1 (S754_finite false 1 (-40))
       (f64.of_int 0) "KP-0004")
  = f64.of_int 90000.
Proof. reflexivity. Qed.

(** The re-check inside the issuance transaction: whenever the repository
    fails, for lack of capacity or otherwise, nothing it did persists. *)
Lemma transactionRepository_Create_rolls_back
  (srv : Server) (rt : Runtime) (transaction : Transaction.t) (db db' : DB)
  (e : error) :
  repository.transactionRepository.Create srv rt transaction db = (db', Some e) ->
  db' = db.
Proof. apply Transaction_rollback. Qed.

(** X23.  The capacity re-check of the issuance transaction compares the
    used amount plus the asset price ([OTRAmount]) with the limit; when
    that sum exceeds the limit the repository returns an
    insufficient-credit-limit error and the store is what it was. *)
Lemma transactionRepository_Create_rechecks
  (srv : Server) (rt : Runtime) (transaction : Transaction.t) (db : DB)
  (creditLimit : CreditLimit.t) :
  credit_limit_for (Transaction.CustomerID transaction)
    (Transaction.TenorMonth transaction) db = Some creditLimit ->
  f64.gtb (f64.add (CreditLimit.UsedAmount creditLimit)
             (Transaction.OTRAmount transaction))
    (CreditLimit.LimitAmount creditLimit) = true ->
  repository.transactionRepository.Create srv rt transaction db
  = (db, Some (Errorf "insufficient credit limit: available %.2f, requested %.2f")).
Proof.
  intros Hl Hcap. unfold repository.transactionRepository.Create, Transaction.
  unfold credit_limit_for in Hl. rewrite Hl. now rewrite Hcap.
Qed.

Lemma transactionRepository_Create_rechecks_witness :
  repository.transactionRepository.Create Examples.server
    (Examples.clock 2024 1 15) (Examples.contract 1)
    (Examples.store 1 100000 96800)
  = (Examples.store 1 100000 96800,
     Some (Errorf "insufficient credit limit: available %.2f, requested %.2f")).
Proof.
  apply (transactionRepository_Create_rechecks Examples.server
           (Examples.clock 2024 1 15)
           (Examples.contract 1) (Examples.store 1 100000 96800)
           (CreditLimit.mk 100%N 1%N 1 (f64.of_int 100000) (f64.of_int 96800)));
    reflexivity.
Defined.

(** ** What the store's statements touch *)

Lemma transaction_row_Ok (srv : Server) (t row : Transaction.t) :
  transaction_row srv t = Ok row ->
  Transaction.ID row = Transaction.ID t
  /\ Transaction.CustomerID row = Transaction.CustomerID t
  /\ Transaction.AssetID row = Transaction.AssetID t
  /\ Transaction.ContractNumber row = Transaction.ContractNumber t
  /\ Transaction.TenorMonth row = Transaction.TenorMonth t
  /\ Transaction.Status row = Transaction.Status t
  /\ Decimal srv (Transaction.OTRAmount t) = Some (Transaction.OTRAmount row)
  /\ Decimal srv (Transaction.AdminFee t) = Some (Transaction.AdminFee row)
  /\ Decimal srv (Transaction.InterestAmount t)
     = Some (Transaction.InterestAmount row)
  /\ Decimal srv (Transaction.InstallmentAmount t)
     = Some (Transaction.InstallmentAmount row)
  /\ utf8.RuneCount (Transaction.ContractNumber t) <= 50.
Proof.
  unfold transaction_row.
  destruct (Z.ltb_spec 50 (utf8.RuneCount (Transaction.ContractNumber t)))
    as [Hlong | Hfits]; [discriminate |].
  destruct (20 <? utf8.RuneCount (Transaction.Status t)); [discriminate |].
  destruct (int32 (Transaction.TenorMonth t)); [| discriminate]. cbn [negb].
  destruct (Decimal srv (Transaction.OTRAmount t)); [| discriminate].
  destruct (Decimal srv (Transaction.AdminFee t)); [| discriminate].
  destruct (Decimal srv (Transaction.InterestAmount t)); [| discriminate].
  destruct (Decimal srv (Transaction.InstallmentAmount t)); [| discriminate].
  intro H. inversion H. simpl. repeat split; auto.
Qed.

Lemma transaction_detail_row_Ok (srv : Server) (d row : TransactionDetail.t) :
  transaction_detail_row srv d = Ok row ->
  TransactionDetail.ID row = TransactionDetail.ID d
  /\ TransactionDetail.TransactionID row = TransactionDetail.TransactionID d
  /\ TransactionDetail.InstallmentNumber row
     = TransactionDetail.InstallmentNumber d
  /\ TransactionDetail.Status row = TransactionDetail.Status d
  /\ Decimal srv (TransactionDetail.Amount d) = Some (TransactionDetail.Amount row)
  /\ Date srv (TransactionDetail.DueDate d) = Some (TransactionDetail.DueDate row).
Proof.
  unfold transaction_detail_row.
  destruct (int32 (TransactionDetail.InstallmentNumber d)); [| discriminate].
  cbn [negb].
  destruct (20 <? utf8.RuneCount (TransactionDetail.Status d)); [discriminate |].
  destruct (Decimal srv (TransactionDetail.Amount d)); [| discriminate].
  destruct (Date srv (TransactionDetail.DueDate d)); [| discriminate].
  destruct (Timestamp srv (TransactionDetail.CreatedAt d)); [| discriminate].
  destruct (Timestamp srv (TransactionDetail.UpdatedAt d)); [| discriminate].
  intro H. inversion H. simpl. repeat split; auto.
Qed.

Lemma insert_transaction_tables (srv : Server) (t : Transaction.t)
  (db db' : DB) :
  insert_transaction srv t db = Ok db' ->
  customers db' = customers db /\ assets db' = assets db
  /\ credit_limits db' = credit_limits db
  /\ transaction_details db' = transaction_details db.
Proof.
  unfold insert_transaction.
  destruct (transaction_row srv t); [| discriminate].
  repeat match goal with
         | |- context [if ?c then _ else _] => destruct c; [discriminate |]
         end.
  intro H. inversion H. simpl. auto.
Qed.

Lemma insert_transaction_appends (srv : Server) (t : Transaction.t)
  (db db' : DB) :
  insert_transaction srv t db = Ok db' ->
  exists row,
    transaction_row srv t = Ok row
    /\ transactions db' = transactions db ++ [row]
    /\ has_id Transaction.ID (Transaction.ID t) (transactions db) = false
    /\ existsb (fun r => same srv (Transaction.ContractNumber r)
                           (Transaction.ContractNumber t))
         (transactions db) = false.
Proof.
  unfold insert_transaction.
  destruct (transaction_row srv t) as [row | e]; [| discriminate].
  destruct (has_id Transaction.ID (Transaction.ID t) (transactions db));
    [discriminate |].
  destruct (existsb _ (transactions db)); [discriminate |].
  repeat match goal with
         | |- context [if ?c then _ else _] => destruct c; [discriminate |]
         end.
  intro H. inversion H. exists row. simpl. auto.
Qed.

Lemma insert_transaction_detail_Ok (srv : Server) (d : TransactionDetail.t)
  (db db' : DB) :
  insert_transaction_detail srv d db = Ok db' ->
  exists row,
    transaction_detail_row srv d = Ok row
    /\ db' = mkDB (customers db) (assets db) (credit_limits db)
               (transactions db) (transaction_details db ++ [row]).
Proof.
  unfold insert_transaction_detail.
  destruct (transaction_detail_row srv d) as [row | e]; [| discriminate].
  repeat match goal with
         | |- context [if ?c then _ else _] => destruct c; [discriminate |]
         end.
  intro H. inversion H. exists row. auto.
Qed.

Lemma insert_rows_Ok (srv : Server) (ds : list TransactionDetail.t)
  (db db' : DB) :
  insert_rows srv ds db = Ok db' ->
  exists rows,
    written srv ds rows
    /\ transaction_details db' = transaction_details db ++ rows
    /\ customers db' = customers db /\ assets db' = assets db
    /\ credit_limits db' = credit_limits db
    /\ transactions db' = transactions db.
Proof.
  revert db. induction ds as [| d ds IH]; simpl; intros db H.
  - inversion H. exists []. rewrite app_nil_r. repeat split. constructor.
  - destruct (insert_transaction_detail srv d db) as [db1 | e] eqn:E;
      [| discriminate].
    apply insert_transaction_detail_Ok in E. destruct E as [row [Hrow ->]].
    apply IH in H. destruct H as [rows [Hw [HD [HC [HA [HL HT]]]]]].
    exists (row :: rows). simpl in *.
    split; [constructor; assumption |].
    rewrite HD, <- app_assoc. auto.
Qed.

Lemma insert_transaction_details_Ok (srv : Server)
  (ds : list TransactionDetail.t) (db db' : DB) :
  insert_transaction_details srv ds db = Ok db' ->
  ds <> []
  /\ exists rows,
      written srv ds rows
      /\ transaction_details db' = transaction_details db ++ rows
      /\ customers db' = customers db /\ assets db' = assets db
      /\ credit_limits db' = credit_limits db
      /\ transactions db' = transactions db.
Proof.
  destruct ds as [| d ds]; [discriminate |]. intro H.
  split; [discriminate |]. now apply insert_rows_Ok.
Qed.

Lemma written_length (srv : Server) (ds rows : list TransactionDetail.t) :
  written srv ds rows -> List.length rows = List.length ds.
Proof. intro H. symmetry. exact (Forall2_length H). Qed.

(** What holds of the ID, contract, number and status of every struct of
    a list holds of the rows written for them. *)
Lemma written_Forall (srv : Server) (ds rows : list TransactionDetail.t)
  (P : UUID -> UUID -> Z -> TransactionDetailStatus -> Prop) :
  written srv ds rows ->
  Forall (fun d => P (TransactionDetail.ID d) (TransactionDetail.TransactionID d)
                     (TransactionDetail.InstallmentNumber d)
                     (TransactionDetail.Status d)) ds ->
  Forall (fun r => P (TransactionDetail.ID r) (TransactionDetail.TransactionID r)
                     (TransactionDetail.InstallmentNumber r)
                     (TransactionDetail.Status r)) rows.
Proof.
  induction 1 as [| d row ds rows Hrow Hw IH]; intro H; [constructor |].
  inversion H as [| ? ? Hd Hds]. subst.
  apply transaction_detail_row_Ok in Hrow.
  destruct Hrow as [E1 [E2 [E3 [E4 _]]]].
  constructor; [now rewrite E1, E2, E3, E4 | now apply IH].
Qed.

(** ** What a committed repository transaction did *)

Lemma transactionRepository_Create_commits
  (srv : Server) (rt : Runtime) (transaction : Transaction.t) (db db' : DB) :
  repository.transactionRepository.Create srv rt transaction db = (db', None) ->
  exists l installments tx1 tx2 row,
    credit_limit_for (Transaction.CustomerID transaction)
      (Transaction.TenorMonth transaction) db = Some l
    /\ f64.gtb (f64.add (CreditLimit.UsedAmount l)
                  (Transaction.OTRAmount transaction))
         (CreditLimit.LimitAmount l) = false
    /\ insert_transaction srv transaction db = Ok tx1
    /\ repository.transactionRepository.generateInstallments rt transaction
       = Some installments
    /\ insert_transaction_details srv installments tx1 = Ok tx2
    /\ credit_limit_row srv (committed l (Transaction.OTRAmount transaction))
       = Ok row
    /\ db' = put_credit_limit row tx2.
Proof.
  intro H. unfold repository.transactionRepository.Create in H.
  apply Transaction_commit in H. cbv beta in H.
  fold (credit_limit_for (Transaction.CustomerID transaction)
          (Transaction.TenorMonth transaction) db) in H.
  destruct (credit_limit_for _ _ db) as [l |]; [| discriminate].
  destruct (f64.gtb (f64.add (CreditLimit.UsedAmount l)
                       (Transaction.OTRAmount transaction))
              (CreditLimit.LimitAmount l)) eqn:E; [discriminate |].
  destruct (insert_transaction srv transaction db) as [tx1 | e1] eqn:E1;
    [| discriminate].
  destruct (repository.transactionRepository.generateInstallments rt transaction)
    as [installments |] eqn:E2; [| discriminate].
  destruct (insert_transaction_details srv installments tx1) as [tx2 | e2] eqn:E3;
    [| discriminate].
  unfold save_credit_limit in H.
  fold (committed l (Transaction.OTRAmount transaction)) in H.
  destruct (credit_limit_row srv
              (committed l (Transaction.OTRAmount transaction)))
    as [row | e4] eqn:E4; [| discriminate].
  exists l, installments, tx1, tx2, row. inversion H.
  repeat split; auto.
Qed.

(** ** The two outcomes of an issuance *)

(** Either the coordinator fails before anything is written (or the
    issuance transaction is rolled back), or the issuance transaction has
    committed and the ledger update that follows it has run. *)
Lemma Create_outcome (srv : Server) (rt : Runtime)
  (req : CreateTransactionRequest.t) (db db' : DB)
  (r : result TransactionResponse.t) :
  service.transactionService.Create (transactions_svc srv) rt req db = (db', r) ->
  (db' = db /\ exists e, r = Err e)
  \/ exists customer asset creditLimit db5 o,
      CreateTransactionRequest.Validate req = []
      /\ transaction_by_number srv (CreateTransactionRequest.ContractNumber req)
           db = None
      /\ customer_by_id (CreateTransactionRequest.CustomerID req) db
         = Some customer
      /\ Customer.IsActive customer = true
      /\ asset_by_id (CreateTransactionRequest.AssetID req) db = Some asset
      /\ credit_limit_for (CreateTransactionRequest.CustomerID req)
           (CreateTransactionRequest.TenorMonth req) db = Some creditLimit
      /\ f64.gtb (service.transactionService.totalAmount (Asset.Price asset) req)
           (f64.sub (CreditLimit.LimitAmount creditLimit)
              (CreditLimit.UsedAmount creditLimit)) = false
      /\ repository.transactionRepository.Create srv (advance rt 2 1)
           (contract_of rt req (Asset.Price asset)) db = (db5, None)
      /\ repository.creditLimitRepository.UpdateUsedAmount srv
           (CreditLimit.ID creditLimit)
           (service.transactionService.totalAmount (Asset.Price asset) req) db5
         = (db', o)
      /\ r = match o with
             | Some e => Err (Wrapf "failed to update credit limit" e)
             | None =>
                 match transaction_by_id (NewUUID rt 0) db' with
                 | Some t =>
                     Ok (service.transactionService.toResponse (preload t db'))
                 | None =>
                     Err (Panic "invalid memory address or nil pointer dereference")
                 end
             end.
Proof.
  unfold service.transactionService.Create.
  destruct (CreateTransactionRequest.Validate req) as [| v vs] eqn:Hv;
    [| intro H; inversion H; left; eauto].
  open_coordinator.
  cbn [TransactionRepository.Create CreditLimitRepository.UpdateUsedAmount
       repository.transactionRepository.repo
       repository.creditLimitRepository.repo].
  fold (transaction_by_number srv (CreateTransactionRequest.ContractNumber req) db).
  destruct (transaction_by_number srv _ db) as [t0 |] eqn:Hn;
    [intro H; inversion H; left; eauto |].
  fold (customer_by_id (CreateTransactionRequest.CustomerID req) db).
  fold (asset_by_id (CreateTransactionRequest.AssetID req) db).
  fold (credit_limit_for (CreateTransactionRequest.CustomerID req)
          (CreateTransactionRequest.TenorMonth req) db).
  destruct (customer_by_id _ db) as [customer |] eqn:Hc;
    [| intro H; inversion H; left; eauto].
  destruct (Customer.IsActive customer) eqn:Ha; cbn [negb];
    [| intro H; inversion H; left; eauto].
  destruct (asset_by_id _ db) as [asset |] eqn:Hs;
    [| intro H; inversion H; left; eauto].
  destruct (credit_limit_for _ _ db) as [creditLimit |] eqn:Hl;
    [| intro H; inversion H; left; eauto].
  cbv zeta.
  destruct (f64.gtb (service.transactionService.totalAmount (Asset.Price asset) req)
              (f64.sub (CreditLimit.LimitAmount creditLimit)
                 (CreditLimit.UsedAmount creditLimit))) eqn:Hcap;
    [intro H; inversion H; left; eauto |].
  fold (contract_of rt req (Asset.Price asset)).
  destruct (repository.transactionRepository.Create srv (advance rt 2 1)
              (contract_of rt req (Asset.Price asset)) db) as [db5 [e5 |]] eqn:H5.
  - intro H. inversion H. subst.
    apply transactionRepository_Create_rolls_back in H5. left. eauto.
  - destruct (repository.creditLimitRepository.UpdateUsedAmount srv
                (CreditLimit.ID creditLimit)
                (service.transactionService.totalAmount (Asset.Price asset) req)
                db5) as [db6 o] eqn:H6.
    intro H. right. exists customer, asset, creditLimit, db5, o.
    destruct o as [e6 |].
    + inversion H. subst. repeat split; auto.
    + change (Transaction.ID (contract_of rt req (Asset.Price asset)))
        with (NewUUID rt 0) in H.
      fold (transaction_by_id (NewUUID rt 0) db6) in H.
      destruct (transaction_by_id (NewUUID rt 0) db6) as [t |] eqn:Ht;
        inversion H; subst; rewrite Ht; repeat split; auto.
Qed.

(** ** Issuance: what is committed to the allocation *)

Lemma credit_limit_for_by_id (customerID : UUID) (tenorMonth : Z) (db : DB)
  (l : CreditLimit.t) :
  credit_limit_for customerID tenorMonth db = Some l ->
  exists r, credit_limit_by_id (CreditLimit.ID l) db = Some r.
Proof.
  intro H. apply First_In in H. destruct H as [Hin _].
  apply (First_Some_of_In CreditLimit.ID _ _ l Hin). apply N.eqb_refl.
Qed.

Lemma credit_limit_by_id_tables (id : UUID) (db db' : DB) :
  credit_limits db' = credit_limits db ->
  credit_limit_by_id id db' = credit_limit_by_id id db.
Proof. unfold credit_limit_by_id. now intros ->. Qed.

(** The two writes of a successful issuance to the allocation it looked
    up: the row the issuance transaction leaves, then the row the ledger
    update leaves. *)
Lemma Create_success_ledger (srv : Server) (rt : Runtime)
  (req : CreateTransactionRequest.t) (db db' : DB)
  (response : TransactionResponse.t) :
  service.transactionService.Create (transactions_svc srv) rt req db
  = (db', Ok response) ->
  exists asset creditLimit row1 row2,
    asset_by_id (CreateTransactionRequest.AssetID req) db = Some asset
    /\ credit_limit_for (CreateTransactionRequest.CustomerID req)
         (CreateTransactionRequest.TenorMonth req) db = Some creditLimit
    /\ f64.gtb (service.transactionService.totalAmount (Asset.Price asset) req)
         (f64.sub (CreditLimit.LimitAmount creditLimit)
            (CreditLimit.UsedAmount creditLimit)) = false
    /\ f64.gtb (f64.add (CreditLimit.UsedAmount creditLimit) (Asset.Price asset))
         (CreditLimit.LimitAmount creditLimit) = false
    /\ credit_limit_row srv (committed creditLimit (Asset.Price asset)) = Ok row1
    /\ f64.gtb (f64.add (CreditLimit.UsedAmount row1)
                  (service.transactionService.totalAmount (Asset.Price asset) req))
         (CreditLimit.LimitAmount row1) = false
    /\ credit_limit_row srv
         (committed row1
            (service.transactionService.totalAmount (Asset.Price asset) req))
       = Ok row2
    /\ credit_limit_by_id (CreditLimit.ID creditLimit) db' = Some row2.
Proof.
  intro H. apply Create_outcome in H.
  destruct H as [[_ [e He]] | H]; [discriminate |].
  destruct H as [customer [asset [cl [db5 [o H]]]]].
  destruct H as [_ [_ [_ [_ [Hs [Hl [Hpre [H5 [H6 Hr]]]]]]]]].
  destruct o as [e |]; [discriminate |].
  apply transactionRepository_Create_commits in H5.
  destruct H5 as [l [ins [tx1 [tx2 [row1 [Hl' [Hcap1 [E1 [_ [E3 [Hrow1 Hdb5]]]]]]]]]]].
  change (credit_limit_for (CreateTransactionRequest.CustomerID req)
            (CreateTransactionRequest.TenorMonth req) db = Some l) in Hl'.
  rewrite Hl in Hl'. inversion Hl'. subst l. clear Hl'.
  change (Transaction.OTRAmount (contract_of rt req (Asset.Price asset)))
    with (Asset.Price asset) in *.
  apply insert_transaction_tables in E1. destruct E1 as [_ [_ [E1 _]]].
  apply insert_transaction_details_Ok in E3.
  destruct E3 as [_ [rows [_ [_ [_ [_ [E3 _]]]]]]].
  destruct (credit_limit_for_by_id _ _ _ _ Hl) as [r Hr0].
  pose proof (credit_limit_row_Ok _ _ _ Hrow1) as [Hid1 _].
  assert (credit_limit_by_id (CreditLimit.ID cl) db5 = Some row1) as H5.
  { subst db5. apply (put_credit_limit_by_id r).
    - rewrite (credit_limit_by_id_tables _ db tx2) by congruence. exact Hr0.
    - rewrite Hid1. simpl. symmetry. now apply (credit_limit_by_id_ID _ db). }
  apply creditLimitRepository_UpdateUsedAmount_commits in H6.
  destruct H6 as [l2 [row2 [Hl2 [Hcap2 [Hrow2 Hdb']]]]].
  rewrite H5 in Hl2. inversion Hl2. subst l2. clear Hl2.
  exists asset, cl, row1, row2.
  repeat (split; [assumption |]).
  subst db'. apply (put_credit_limit_by_id row1); [exact H5 |].
  now destruct (credit_limit_row_Ok _ _ _ Hrow2) as [-> _].
Qed.

(** X21.  A successful issuance writes the allocation twice: the issuance
    transaction adds the asset price ([OTRAmount]), and the ledger update
    the coordinator runs afterwards adds the total.  The allocation that
    was looked up ends with the used amount the column makes of: the
    total plus what the column had made of used + price. *)
Lemma Create_commits_price_and_total
  (srv : Server) (rt : Runtime) (req : CreateTransactionRequest.t) (db db' : DB)
  (response : TransactionResponse.t) :
  service.transactionService.Create (transactions_svc srv) rt req db
  = (db', Ok response) ->
  exists asset creditLimit used1 l',
    asset_by_id (CreateTransactionRequest.AssetID req) db = Some asset
    /\ credit_limit_for (CreateTransactionRequest.CustomerID req)
         (CreateTransactionRequest.TenorMonth req) db = Some creditLimit
    /\ Decimal srv (f64.add (CreditLimit.UsedAmount creditLimit)
                      (Asset.Price asset)) = Some used1
    /\ credit_limit_by_id (CreditLimit.ID creditLimit) db' = Some l'
    /\ Decimal srv
         (f64.add used1
            (service.transactionService.totalAmount (Asset.Price asset) req))
       = Some (CreditLimit.UsedAmount l').
Proof.
  intro H. apply Create_success_ledger in H.
  destruct H as [asset [cl [row1 [row2 [Hs [Hl [_ [_ [H1 [_ [H2 Hl']]]]]]]]]]].
  apply credit_limit_row_Ok in H1, H2.
  destruct H1 as [_ [_ [_ [_ H1]]]]. destruct H2 as [_ [_ [_ [_ H2]]]].
  exists asset, cl, (CreditLimit.UsedAmount row1), row2. auto.
Qed.

Lemma Create_commits_price_and_total_witness :
  exists db' response l',
    service.transactionService.Create (transactions_svc Examples.server)
      (Examples.clock 2024 1 15) Examples.requestA (Examples.store 1 1000000 0)
    = (db', Ok response)
    /\ credit_limit_by_id 100%N db' = Some l'
    /\ CreditLimit.UsedAmount l' = f64.of_int (90000 + 96800).
Proof.
  destruct (service.transactionService.Create (transactions_svc Examples.server)
              (Examples.clock 2024 1 15) Examples.requestA
              (Examples.store 1 1000000 0)) as [db' r] eqn:E.
  assert (exists response, r = Ok response) as [response ->].
  { vm_compute in E. inversion E. eexists. reflexivity. }
  destruct (Create_commits_price_and_total _ _ _ _ _ _ E)
    as [asset [cl [used1 [l' [Hs [Hl [H1 [Hl' H2]]]]]]]].
  vm_compute in Hs. inversion Hs. subst asset.
  vm_compute in Hl. inversion Hl. subst cl.
  vm_compute in H1. inversion H1. subst used1.
  exists db', response, l'. split; [reflexivity |]. split; [exact Hl' |].
  remember (CreditLimit.UsedAmount l') as used eqn:Hused.
  vm_compute in H2. inversion H2. reflexivity.
Defined.

(** X24.  Issuance succeeds only when all three capacity checks pass, as
    the code computes them in [float64]: the total does not exceed limit
    - used; used + price does not exceed the limit; and, on the row the
    issuance transaction has written, used + total does not exceed the
    limit. *)
Theorem Create_success_requires
  (srv : Server) (rt : Runtime) (req : CreateTransactionRequest.t) (db db' : DB)
  (response : TransactionResponse.t) :
  service.transactionService.Create (transactions_svc srv) rt req db
  = (db', Ok response) ->
  exists asset creditLimit used1 limit1,
    asset_by_id (CreateTransactionRequest.AssetID req) db = Some asset
    /\ credit_limit_for (CreateTransactionRequest.CustomerID req)
         (CreateTransactionRequest.TenorMonth req) db = Some creditLimit
    /\ f64.gtb (service.transactionService.totalAmount (Asset.Price asset) req)
         (f64.sub (CreditLimit.LimitAmount creditLimit)
            (CreditLimit.UsedAmount creditLimit)) = false
    /\ f64.gtb (f64.add (CreditLimit.UsedAmount creditLimit) (Asset.Price asset))
         (CreditLimit.LimitAmount creditLimit) = false
    /\ Decimal srv (f64.add (CreditLimit.UsedAmount creditLimit)
                      (Asset.Price asset)) = Some used1
    /\ Decimal srv (CreditLimit.LimitAmount creditLimit) = Some limit1
    /\ f64.gtb
         (f64.add used1
            (service.transactionService.totalAmount (Asset.Price asset) req))
         limit1 = false.
Proof.
  intro H. apply Create_success_ledger in H.
  destruct H as [asset [cl [row1 [row2 [Hs [Hl [Hpre [Hc1 [H1 [Hc2 _]]]]]]]]]].
  apply credit_limit_row_Ok in H1. destruct H1 as [_ [_ [_ [Hlim Hused]]]].
  exists asset, cl, (CreditLimit.UsedAmount row1), (CreditLimit.LimitAmount row1).
  auto 10.
Qed.

Lemma Create_success_requires_witness :
  exists db' response,
    service.transactionService.Create (transactions_svc Examples.server)
      (Examples.clock 2024 1 15) Examples.requestA (Examples.store 1 1000000 0)
    = (db', Ok response)
    /\ f64.gtb (f64.add (f64.of_int 90000) (f64.of_int 96800))
         (f64.of_int 1000000) = false.
Proof.
  destruct (service.transactionService.Create (transactions_svc Examples.server)
              (Examples.clock 2024 1 15) Examples.requestA
              (Examples.store 1 1000000 0)) as [db' r] eqn:E.
  assert (exists response, r = Ok response) as [response ->].
  { vm_compute in E. inversion E. eexists. reflexivity. }
  destruct (Create_success_requires _ _ _ _ _ _ E)
    as [asset [cl [used1 [limit1 [Hs [Hl [_ [_ [H1 [H2 H3]]]]]]]]]].
  vm_compute in Hs. inversion Hs. subst asset.
  vm_compute in Hl. inversion Hl. subst cl.
  vm_compute in H1. inversion H1. subst used1.
  vm_compute in H2. inversion H2. subst limit1.
  exists db', response. split; [reflexivity |]. exact H3.
Defined.

(** C1, on Scenario A (limit 100000, nothing used, price 90000, fee 5000,
    rate 2 percent, one month).  The total is 96800.  The issuance
    transaction commits the contract, its single installment and a used
    amount of 90000; the ledger update by 96800 that follows is refused
    because 90000 + 96800 exceeds 100000; the coordinator returns that
    error.  The used amount is left at 90000. *)
Theorem Create_scenario_A :
  service.transactionService.totalAmount (f64.of_int 90000) Examples.requestA
  = f64.of_int 96800
  /\ exists db',
      service.transactionService.Create (transactions_svc Examples.server)
        (Examples.clock 2024 1 15) Examples.requestA (Examples.store 1 100000 0)
      = (db',
         Err (Wrapf "failed to update credit limit"
                (Errorf "insufficient credit limit: available %.2f, requested %.2f")))
      /\ (exists l, credit_limit_by_id 100%N db' = Some l
                    /\ CreditLimit.UsedAmount l = f64.of_int 90000)
      /\ List.length (transactions db') = 1%nat
      /\ List.length (transaction_details db') = 1%nat.
Proof.
  split; [reflexivity |].
  destruct (service.transactionService.Create (transactions_svc Examples.server)
              (Examples.clock 2024 1 15) Examples.requestA
              (Examples.store 1 100000 0)) as [db' r] eqn:E.
  vm_compute in E. inversion E. subst db' r. clear E.
  eexists. split; [reflexivity |].
  split; [eexists; split; reflexivity |]. split; reflexivity.
Qed.

(** The same request against an allocation of one million goes through,
    and commits 90000 + 96800 rather than 96800. *)
Example Create_scenario_A_large_limit :
  exists db' response l,
    service.transactionService.Create (transactions_svc Examples.server)
      (Examples.clock 2024 1 15) Examples.requestA (Examples.store 1 1000000 0)
    = (db', Ok response)
    /\ credit_limit_by_id 100%N db' = Some l
    /\ CreditLimit.UsedAmount l = f64.of_int 186800.
Proof.
  destruct (service.transactionService.Create (transactions_svc Examples.server)
              (Examples.clock 2024 1 15) Examples.requestA
              (Examples.store 1 1000000 0)) as [db' r] eqn:E.
  vm_compute in E. inversion E. subst db' r. clear E.
  eexists. eexists. eexists. split; [reflexivity |]. split; reflexivity.
Qed.

(** ** Issuance: the response *)

(** [toResponse] copies the single installment the contract points to,
    if any. *)
Lemma toResponse_at_most_one_installment (tx : Transaction.t) :
  (List.length (TransactionResponse.Installments
                  (service.transactionService.toResponse tx)) <= 1)%nat.
Proof.
  unfold service.transactionService.toResponse. simpl.
  destruct (Transaction.TransactionDetail tx); simpl; lia.
Qed.

(** X22.  No response of a successful issuance lists more than one
    installment. *)
Lemma Create_response_at_most_one_installment
  (srv : Server) (rt : Runtime) (req : CreateTransactionRequest.t) (db db' : DB)
  (response : TransactionResponse.t) :
  service.transactionService.Create (transactions_svc srv) rt req db
  = (db', Ok response) ->
  (List.length (TransactionResponse.Installments response) <= 1)%nat.
Proof.
  intro H. apply Create_outcome in H.
  destruct H as [[_ [e He]] | H]; [discriminate |].
  destruct H as [customer [asset [cl [db5 [o H]]]]].
  destruct H as [_ [_ [_ [_ [_ [_ [_ [_ [_ Hr]]]]]]]]].
  destruct o as [e |]; [discriminate |].
  destruct (transaction_by_id (NewUUID rt 0) db') as [t |]; [| discriminate].
  inversion Hr. apply toResponse_at_most_one_installment.
Qed.

Lemma Create_response_at_most_one_installment_witness :
  exists db' response,
    service.transactionService.Create (transactions_svc Examples.server)
      (Examples.clock 2024 1 15) Examples.request6 (Examples.store 6 1000000 0)
    = (db', Ok response)
    /\ (List.length (TransactionResponse.Installments response) <= 1)%nat.
Proof.
  destruct (service.transactionService.Create (transactions_svc Examples.server)
              (Examples.clock 2024 1 15) Examples.request6
              (Examples.store 6 1000000 0)) as [db' r] eqn:E.
  assert (exists response, r = Ok response) as [response ->].
  { vm_compute in E. inversion E. eexists. reflexivity. }
  exists db', response. split; [reflexivity |].
  apply (Create_response_at_most_one_installment _ _ _ _ _ _ E).
Defined.

(** C7, on a six-month contract (limit one million, price 90000, fee
    5000, rate 2 percent).  Issuance succeeds and six installments are
    stored for the contract; the response carries one of them. *)
Theorem Create_six_months_response :
  exists db' response,
    service.transactionService.Create (transactions_svc Examples.server)
      (Examples.clock 2024 1 15) Examples.request6 (Examples.store 6 1000000 0)
    = (db', Ok response)
    /\ TransactionResponse.TenorMonth response = 6
    /\ List.length
         (filter (fun d => (TransactionDetail.TransactionID d
                            =? TransactionResponse.ID response)%N)
            (transaction_details db')) = 6%nat
    /\ List.length (TransactionResponse.Installments response) = 1%nat.
Proof.
  destruct (service.transactionService.Create (transactions_svc Examples.server)
              (Examples.clock 2024 1 15) Examples.request6
              (Examples.store 6 1000000 0)) as [db' r] eqn:E.
  vm_compute in E. inversion E. subst db' r. clear E.
  eexists. eexists. split; [reflexivity |].
  repeat split; vm_compute; reflexivity.
Qed.

(** ** The ledger invariant and calls that overlap *)

(** A call that makes its two steps with nothing in between is the
    service's [UpdateUsedAmount]. *)
Lemma inflight_alone (repo : CreditLimitRepository.t) (id : UUID)
  (amount : float64) (db : DB) :
  inflight.interleave repo [0; 0]%nat [inflight.Entered id amount] db
  = ([inflight.Returned
        (snd (service.creditLimitService.UpdateUsedAmount repo id amount db))],
     fst (service.creditLimitService.UpdateUsedAmount repo id amount db)).
Proof.
  unfold service.creditLimitService.UpdateUsedAmount.
  cbn [inflight.interleave inflight.step_at inflight.step].
  destruct (f64.eqb amount f64.zero); [reflexivity |].
  destruct (CreditLimitRepository.GetByID repo id db) as [db1 [[limit |] | e]];
    try reflexivity.
  destruct (f64.ltb amount f64.zero
            && f64.ltb (f64.add (CreditLimit.UsedAmount limit) amount) f64.zero);
    [reflexivity |].
  destruct (f64.gtb amount f64.zero
            && f64.gtb (f64.add (CreditLimit.UsedAmount limit) amount)
                 (CreditLimit.LimitAmount limit));
    [reflexivity |].
  cbn [inflight.step].
  now destruct (CreditLimitRepository.UpdateUsedAmount repo id amount db1)
    as [db2 [e |]].
Qed.

(** C3 fails for calls that overlap.  An allocation of 1000 of which 100
    are used satisfies 0 <= used <= limit.  Two releases of 60 arrive
    together: both read the allocation and find that 100 - 60 is not
    negative; then both run their locked update, which compares the sum
    with the limit only.  Both return nil, and the used amount is -20. *)
Theorem overlapping_releases_break_the_ledger :
  ledger_ok (Examples.store 1 1000 100)
  /\ exists db' l,
      inflight.interleave (creditLimits Examples.server) [0; 1; 0; 1]%nat
        [inflight.Entered 100%N (f64.of_int (-60));
         inflight.Entered 100%N (f64.of_int (-60))]
        (Examples.store 1 1000 100)
      = ([inflight.Returned None; inflight.Returned None], db')
      /\ credit_limit_by_id 100%N db' = Some l
      /\ CreditLimit.UsedAmount l = f64.of_int (-20)
      /\ f64.ltb (CreditLimit.UsedAmount l) f64.zero = true
      /\ ~ ledger_ok db'.
Proof.
  split; [repeat constructor |].
  destruct (inflight.interleave (creditLimits Examples.server) [0; 1; 0; 1]%nat
              [inflight.Entered 100%N (f64.of_int (-60));
               inflight.Entered 100%N (f64.of_int (-60))]
              (Examples.store 1 1000 100)) as [calls db'] eqn:E.
  vm_compute in E. inversion E. subst calls db'. clear E.
  eexists. eexists. split; [reflexivity |]. split; [reflexivity |].
  split; [reflexivity |]. split; [reflexivity |].
  intro H. inversion H as [| ? ? [H1 _] _]. discriminate H1.
Qed.

(** The same two releases one after the other: the second one is
    refused and the used amount stays at 40. *)
Example releases_in_turn_keep_the_ledger :
  exists db' l,
    inflight.interleave (creditLimits Examples.server) [0; 0; 1; 1]%nat
      [inflight.Entered 100%N (f64.of_int (-60));
       inflight.Entered 100%N (f64.of_int (-60))]
      (Examples.store 1 1000 100)
    = ([inflight.Returned None;
        inflight.Returned
          (Some (Errorf "invalid amount: would result in negative used amount"))],
       db')
    /\ credit_limit_by_id 100%N db' = Some l
    /\ CreditLimit.UsedAmount l = f64.of_int 40.
Proof.
  destruct (inflight.interleave (creditLimits Examples.server) [0; 0; 1; 1]%nat
              [inflight.Entered 100%N (f64.of_int (-60));
               inflight.Entered 100%N (f64.of_int (-60))]
              (Examples.store 1 1000 100)) as [calls db'] eqn:E.
  vm_compute in E. inversion E. subst calls db'. clear E.
  eexists. eexists. split; [reflexivity |]. split; reflexivity.
Qed.

(** What a single call guarantees of the sum it writes: a release that
    succeeds has checked that the sum is not negative, a reservation that
    it does not exceed the limit, on the row the call read. *)
Lemma UpdateUsedAmount_checked (srv : Server) (id : UUID) (amount : float64)
  (db db' : DB) (l : CreditLimit.t) :
  f64.eqb amount f64.zero = false ->
  credit_limit_by_id id db = Some l ->
  service.creditLimitService.UpdateUsedAmount (creditLimits srv) id amount db
  = (db', None) ->
  (f64.ltb amount f64.zero = true ->
   f64.ltb (f64.add (CreditLimit.UsedAmount l) amount) f64.zero = false)
  /\ f64.gtb (f64.add (CreditLimit.UsedAmount l) amount)
       (CreditLimit.LimitAmount l) = false.
Proof.
  intros Hz Hl. unfold service.creditLimitService.UpdateUsedAmount.
  rewrite Hz. open_ledger. fold (credit_limit_by_id id db). rewrite Hl.
  destruct (f64.ltb amount f64.zero) eqn:En; cbn [andb].
  - destruct (f64.ltb (f64.add (CreditLimit.UsedAmount l) amount) f64.zero)
      eqn:Elow; [discriminate |].
    destruct (f64.gtb amount f64.zero
              && f64.gtb (f64.add (CreditLimit.UsedAmount l) amount)
                   (CreditLimit.LimitAmount l)); [discriminate |].
    destruct (repository.creditLimitRepository.UpdateUsedAmount srv id amount db)
      as [db2 [e |]] eqn:H; [discriminate |].
    intros _. apply creditLimitRepository_UpdateUsedAmount_commits in H.
    destruct H as [l2 [row [Hl2 [Hcap _]]]].
    rewrite Hl in Hl2. inversion Hl2. subst l2. auto.
  - destruct (f64.gtb amount f64.zero
              && f64.gtb (f64.add (CreditLimit.UsedAmount l) amount)
                   (CreditLimit.LimitAmount l)); [discriminate |].
    destruct (repository.creditLimitRepository.UpdateUsedAmount srv id amount db)
      as [db2 [e |]] eqn:H; [discriminate |].
    intros _. apply creditLimitRepository_UpdateUsedAmount_commits in H.
    destruct H as [l2 [row [Hl2 [Hcap _]]]].
    rewrite Hl in Hl2. inversion Hl2. subst l2.
    split; [discriminate | exact Hcap].
Qed.
(** ** One allocation per customer and duration *)

Section Uniqueness.

Local Abbreviation pair_is c t :=
  (fun r : CreditLimit.t =>
     (CreditLimit.CustomerID r =? c)%N && (CreditLimit.TenorMonth r =? t)).

Lemma has_id_false (rows : list CreditLimit.t) (id : UUID) :
  has_id CreditLimit.ID id rows = false -> ~ In id (map CreditLimit.ID rows).
Proof.
  unfold has_id. intros H Hin. apply in_map_iff in Hin.
  destruct Hin as [r [Hr Hin]].
  assert (existsb (fun r => (CreditLimit.ID r =? id)%N) rows = true) as E.
  { apply existsb_exists. exists r. split; [exact Hin |]. now apply N.eqb_eq. }
  congruence.
Qed.

Lemma key_determines_row (rows : list CreditLimit.t) (x y : CreditLimit.t) :
  NoDup (map CreditLimit.ID rows) -> In x rows -> In y rows ->
  CreditLimit.ID x = CreditLimit.ID y -> x = y.
Proof.
  induction rows as [| r rows IH]; simpl; intros Hnd Hx Hy E; [destruct Hx |].
  inversion Hnd as [| ? ? Hnotin Hnd']. subst.
  destruct Hx as [-> | Hx], Hy as [-> | Hy]; auto.
  - exfalso. apply Hnotin. rewrite E. now apply in_map.
  - exfalso. apply Hnotin. rewrite <- E. now apply in_map.
Qed.

Lemma rows_unique_insert (rows : list CreditLimit.t) (l : CreditLimit.t) :
  has_id CreditLimit.ID (CreditLimit.ID l) rows = false ->
  filter (pair_is (CreditLimit.CustomerID l) (CreditLimit.TenorMonth l)) rows = [] ->
  rows_unique rows -> rows_unique (rows ++ [l]).
Proof.
  intros Hid Hpair [Hnd Hone]. split.
  - rewrite map_app. apply NoDup_app; [exact Hnd | |].
    + simpl. constructor; [intros [] | constructor].
    + intros a Ha [<- | []]. now apply (has_id_false rows (CreditLimit.ID l)).
  - intros c t. rewrite filter_app, length_app. simpl.
    destruct (N.eqb_spec (CreditLimit.CustomerID l) c) as [<- | Hc];
      [| simpl; specialize (Hone c t); lia].
    destruct (Z.eqb_spec (CreditLimit.TenorMonth l) t) as [<- | Ht];
      [| simpl; specialize (Hone (CreditLimit.CustomerID l) t); lia].
    rewrite Hpair. simpl. lia.
Qed.

Lemma rows_unique_commit (rows : list CreditLimit.t) (l l' : CreditLimit.t) :
  In l rows ->
  CreditLimit.ID l' = CreditLimit.ID l ->
  CreditLimit.CustomerID l' = CreditLimit.CustomerID l ->
  CreditLimit.TenorMonth l' = CreditLimit.TenorMonth l ->
  rows_unique rows ->
  rows_unique (map (fun r => if (CreditLimit.ID r =? CreditLimit.ID l)%N
                             then l' else r) rows).
Proof.
  intros Hin Hid Hc Ht [Hnd Hone]. split.
  - rewrite map_map.
    rewrite (map_ext _ CreditLimit.ID); [exact Hnd |].
    intro r. destruct (N.eqb_spec (CreditLimit.ID r) (CreditLimit.ID l));
      simpl; congruence.
  - intros c t. specialize (Hone c t).
    assert (forall xs, incl xs rows ->
              List.length
                (filter (pair_is c t)
                   (map (fun r => if (CreditLimit.ID r =? CreditLimit.ID l)%N
                                  then l' else r) xs))
              = List.length (filter (pair_is c t) xs)) as Hlen.
    { induction xs as [| x xs IH]; intro Hincl; [reflexivity |].
      assert (In x rows) as Hx by (apply Hincl; now left).
      assert (incl xs rows) as Hxs by (intros y Hy; apply Hincl; now right).
      cbn [map filter].
      destruct (N.eqb_spec (CreditLimit.ID x) (CreditLimit.ID l)) as [E | E].
      - assert (x = l) as -> by (eapply key_determines_row; eauto).
        rewrite Hc, Ht.
        destruct (pair_is c t l); simpl; now rewrite IH.
      - destruct (pair_is c t x); simpl; now rewrite IH. }
    rewrite Hlen by apply incl_refl. exact Hone.
Qed.

Lemma NoDup_map_filter (p : CreditLimit.t -> bool) (rows : list CreditLimit.t) :
  NoDup (map CreditLimit.ID rows) ->
  NoDup (map CreditLimit.ID (filter p rows)).
Proof.
  induction rows as [| r rows IH]; simpl; intro H; [constructor |].
  inversion H as [| ? ? Hnotin Hnd]. subst.
  destruct (p r); simpl; [| now apply IH].
  constructor; [| now apply IH].
  intro Hin. apply Hnotin. apply in_map_iff in Hin.
  destruct Hin as [x [Hx Hin]]. apply filter_In in Hin.
  apply in_map_iff. exists x. tauto.
Qed.

Lemma filter_filter_length (p q : CreditLimit.t -> bool)
  (rows : list CreditLimit.t) :
  (List.length (filter p (filter q rows)) <= List.length (filter p rows))%nat.
Proof.
  induction rows as [| r rows IH]; simpl; [lia |].
  destruct (q r), (p r) eqn:Ep; simpl; rewrite ?Ep; simpl; lia.
Qed.

Lemma rows_unique_delete (rows : list CreditLimit.t) (id : UUID) :
  rows_unique rows ->
  rows_unique (filter (fun r => negb (CreditLimit.ID r =? id)%N) rows).
Proof.
  intros [Hnd Hone]. split; [now apply NoDup_map_filter |].
  intros c t. specialize (Hone c t).
  pose proof (filter_filter_length (pair_is c t)
                (fun r => negb (CreditLimit.ID r =? id)%N) rows).
  lia.
Qed.

Lemma ledger_step_unique (rows rows' : list CreditLimit.t) :
  ledger_step rows rows' -> rows_unique rows -> rows_unique rows'.
Proof.
  induction 1; intro Hu; auto.
  - now apply rows_unique_insert.
  - now apply rows_unique_commit.
  - now apply rows_unique_delete.
Qed.

End Uniqueness.

(** The table after an amount was committed to one of its rows. *)
Lemma committed_step (srv : Server) (l row : CreditLimit.t) (amount : float64)
  (db : DB) :
  In l (credit_limits db) ->
  credit_limit_row srv (committed l amount) = Ok row ->
  ledger_step (credit_limits db) (credit_limits (put_credit_limit row db)).
Proof.
  intros Hin Hrow.
  apply credit_limit_row_Ok in Hrow. destruct Hrow as [E1 [E2 [E3 _]]].
  cbn [put_credit_limit credit_limits]. rewrite E1.
  cbn [committed CreditLimit.ID].
  apply (step_commit (credit_limits db) l row); auto.
Qed.

(** Every operation changes the [credit_limits] table by ledger steps. *)
Lemma perform_ledger_step (srv : Server) (o : operation) (db : DB) :
  ledger_step (credit_limits db) (credit_limits (perform srv o db)).
Proof.
  destruct o as [rt req | id amount | id | rt req | id status]; simpl.
  - unfold service.creditLimitService.Create.
    destruct (CreateCreditLimitRequest.Validate req); [| apply step_none].
    open_ledger.
    destruct (First CreditLimit.ID _ (credit_limits db)) eqn:Hl;
      [apply step_none |].
    unfold repository.creditLimitRepository.Create, Transaction,
      insert_credit_limit.
    cbn [CreditLimit.TenorMonth CreditLimit.ID CreditLimit.CustomerID].
    destruct (int32 (CreateCreditLimitRequest.TenorMonth req)); cbn [negb];
      [| apply step_none].
    match goal with
    | |- context [credit_limit_row srv ?l] =>
        destruct (credit_limit_row srv l) as [row | e] eqn:Hrow
    end; [| apply step_none].
    destruct (has_id CreditLimit.ID _ (credit_limits db)) eqn:Hid;
      [apply step_none |].
    destruct (has_id Customer.ID _ (customers db)); simpl; [| apply step_none].
    apply credit_limit_row_Ok in Hrow. destruct Hrow as [E1 [E2 [E3 _]]].
    cbn [CreditLimit.ID CreditLimit.CustomerID CreditLimit.TenorMonth] in E1, E2, E3.
    apply step_insert; [now rewrite E1 |].
    rewrite E2, E3. apply First_None in Hl. exact Hl.
  - unfold service.creditLimitService.UpdateUsedAmount.
    destruct (f64.eqb amount f64.zero); [apply step_none |].
    open_ledger.
    destruct (First CreditLimit.ID _ (credit_limits db)) as [l |];
      [| apply step_none].
    destruct (f64.ltb amount f64.zero
              && f64.ltb (f64.add (CreditLimit.UsedAmount l) amount) f64.zero);
      [apply step_none |].
    destruct (f64.gtb amount f64.zero
              && f64.gtb (f64.add (CreditLimit.UsedAmount l) amount)
                   (CreditLimit.LimitAmount l));
      [apply step_none |].
    destruct (repository.creditLimitRepository.UpdateUsedAmount srv id amount db)
      as [db2 o] eqn:H.
    apply creditLimitRepository_UpdateUsedAmount_outcome in H.
    assert (ledger_step (credit_limits db) (credit_limits db2)) as Hstep.
    { destruct H as [-> | [l2 [row [_ [Hl2 [_ [Hrow ->]]]]]]]; [apply step_none |].
      apply First_In in Hl2. eapply (committed_step srv l2 row);
        [tauto | exact Hrow]. }
    destruct o; exact Hstep.
  - unfold service.creditLimitService.Delete. open_ledger.
    destruct (First CreditLimit.ID _ (credit_limits db)) as [l |] eqn:Hl;
      [| apply step_none].
    destruct (f64.gtb (CreditLimit.UsedAmount l) f64.zero); [apply step_none |].
    unfold repository.creditLimitRepository.Delete, Transaction. rewrite Hl.
    destruct (f64.gtb (CreditLimit.UsedAmount l) f64.zero); simpl;
      [apply step_none | apply step_delete].
  - destruct (service.transactionService.Create (transactions_svc srv) rt req db)
      as [db' r] eqn:H.
    simpl. apply Create_outcome in H.
    destruct H as [[-> _] | H]; [apply step_none |].
    destruct H as [customer [asset [cl [db5 [o H]]]]].
    destruct H as [_ [_ [_ [_ [_ [_ [_ [H5 [H6 _]]]]]]]]].
    apply transactionRepository_Create_commits in H5.
    destruct H5 as [l [ins [tx1 [tx2 [row [Hl [_ [E1 [_ [E3 [Hrow ->]]]]]]]]]]].
    apply insert_transaction_tables in E1. destruct E1 as [_ [_ [E1 _]]].
    apply insert_transaction_details_Ok in E3.
    destruct E3 as [_ [rows [_ [_ [_ [_ [E3 _]]]]]]].
    apply First_In in Hl. destruct Hl as [Hin _].
    apply (step_then _ (credit_limits (put_credit_limit row tx2))).
    + replace (credit_limits db) with (credit_limits tx2) by congruence.
      eapply (committed_step srv l row); [| exact Hrow]. congruence.
    + apply creditLimitRepository_UpdateUsedAmount_outcome in H6.
      destruct H6 as [-> | [l2 [row2 [_ [Hl2 [_ [Hrow2 ->]]]]]]];
        [apply step_none |].
      apply First_In in Hl2. eapply (committed_step srv l2 row2);
        [tauto | exact Hrow2].
  - unfold service.transactionService.UpdateStatus.
    destruct (TransactionStatus.IsValid status) eqn:Hv; cbn [negb];
      [| apply step_none].
    open_coordinator.
    destruct (First Transaction.ID _ (transactions db)) as [t |] eqn:Ht;
      [| apply step_none].
    cbn [TransactionRepository.UpdateStatus repository.transactionRepository.repo].
    unfold repository.transactionRepository.UpdateStatus, Transaction.
    cbv beta iota. rewrite Ht. unfold update_transaction_status.
    destruct (IsValid_column srv status Hv) as [-> ->]. apply step_none.
Qed.

Lemma states_rows_unique (srv : Server) (ops : list operation) (db : DB) :
  rows_unique (credit_limits db) ->
  Forall (fun s => rows_unique (credit_limits s)) (states srv ops db).
Proof.
  revert db. induction ops as [| o ops IH]; intros db Hu; simpl.
  - constructor; [exact Hu | constructor].
  - constructor; [exact Hu |]. apply IH.
    exact (ledger_step_unique _ _ (perform_ledger_step srv o db) Hu).
Qed.

Lemma duplicate_allocation_refused
  (srv : Server) (rt : Runtime) (req : CreateCreditLimitRequest.t) (db : DB) :
  CreateCreditLimitRequest.Validate req = [] ->
  allocations_of (CreateCreditLimitRequest.CustomerID req)
    (CreateCreditLimitRequest.TenorMonth req) db <> [] ->
  service.creditLimitService.Create (creditLimits srv) rt req db
  = (db, Err ErrDuplicateCreditLimit).
Proof.
  intros Hv Hex. unfold service.creditLimitService.Create. rewrite Hv.
  open_ledger.
  destruct (First CreditLimit.ID _ (credit_limits db)) eqn:Hl; [reflexivity |].
  apply First_None in Hl. contradiction.
Qed.

(** C6, as the code has it.  A valid request to create an allocation for
    a (customer, duration) pair that already has one fails with
    [ErrDuplicateCreditLimit] and leaves the store as it is.  This check of
    the service is what keeps the pairs apart: in a store whose keys are
    unique and in which no pair has two allocations, no sequence of
    operations run through the services, one after the other, produces a
    pair with two allocations. *)
Theorem allocations_unique_through_the_service
  (srv : Server) (rt : Runtime) (req : CreateCreditLimitRequest.t)
  (ops : list operation) (db : DB) :
  primary_keys_ok db -> one_allocation_per_pair db ->
  (CreateCreditLimitRequest.Validate req = [] ->
   allocations_of (CreateCreditLimitRequest.CustomerID req)
     (CreateCreditLimitRequest.TenorMonth req) db <> [] ->
   service.creditLimitService.Create (creditLimits srv) rt req db
   = (db, Err ErrDuplicateCreditLimit))
  /\ Forall one_allocation_per_pair (states srv ops db).
Proof.
  intros Hpk Hone. split; [apply duplicate_allocation_refused |].
  assert (rows_unique (credit_limits db)) as Hu by (split; assumption).
  apply (states_rows_unique srv ops) in Hu.
  eapply Forall_impl; [| exact Hu]. intros s [_ H]. exact H.
Qed.

Lemma allocations_unique_through_the_service_witness :
  service.creditLimitService.Create (creditLimits Examples.server)
    (Examples.clock 2024 1 15)
    (CreateCreditLimitRequest.mk 1%N 1 (f64.of_int 250000))
    (Examples.store 1 100000 0)
  = (Examples.store 1 100000 0, Err ErrDuplicateCreditLimit)
  /\ Forall one_allocation_per_pair
       (states Examples.server
          [CreateLimit (Examples.clock 2024 1 15)
             (CreateCreditLimitRequest.mk 1%N 1 (f64.of_int 250000));
           CreateLimit (Examples.clock 2024 1 15)
             (CreateCreditLimitRequest.mk 1%N 3 (f64.of_int 250000))]
          (Examples.store 1 100000 0)).
Proof.
  assert (primary_keys_ok (Examples.store 1 100000 0)) as Hpk.
  { unfold primary_keys_ok. simpl. constructor; [intros [] | constructor]. }
  assert (one_allocation_per_pair (Examples.store 1 100000 0)) as Hone.
  { intros c t. unfold allocations_of, Examples.store.
    cbn [credit_limits filter CreditLimit.CustomerID CreditLimit.TenorMonth].
    match goal with
    | |- context [if ?b then _ else _] => destruct b
    end; simpl; lia. }
  destruct (allocations_unique_through_the_service Examples.server
              (Examples.clock 2024 1 15)
              (CreateCreditLimitRequest.mk 1%N 1 (f64.of_int 250000))
              [CreateLimit (Examples.clock 2024 1 15)
                 (CreateCreditLimitRequest.mk 1%N 1 (f64.of_int 250000));
               CreateLimit (Examples.clock 2024 1 15)
                 (CreateCreditLimitRequest.mk 1%N 3 (f64.of_int 250000))]
              (Examples.store 1 100000 0) Hpk Hone) as [H1 H2].
  split; [| exact H2].
  apply H1; [reflexivity | discriminate].
Defined.

(** C6, as stated, fails: the store accepts a second allocation for a
    pair that already has one, provided its key is new. *)
Lemma credit_limits_accepts_second_allocation :
  ~ store_refuses_second_allocation Examples.server.
Proof.
  intro H.
  apply (H (Examples.store 1 100000 0)
           (fst (repository.creditLimitRepository.Create Examples.server
                   (CreditLimit.mk 101%N 1%N 1 (f64.of_int 50000) (f64.of_int 0))
                   (Examples.store 1 100000 0)))
           (CreditLimit.mk 101%N 1%N 1 (f64.of_int 50000) (f64.of_int 0))).
  - discriminate.
  - reflexivity.
Qed.

(** The two allocations of the pair after that insertion. *)
Example second_allocation_is_stored :
  map CreditLimit.ID
    (allocations_of 1%N 1
       (fst (repository.creditLimitRepository.Create Examples.server
               (CreditLimit.mk 101%N 1%N 1 (f64.of_int 50000) (f64.of_int 0))
               (Examples.store 1 100000 0))))
  = [100%N; 101%N].
Proof. reflexivity. Qed.
(** * Further properties of the ledger, the coordinator and the handlers *)

(** ** Looking up what was just inserted *)

Section Inserted.

Context {A : Type} (key : A -> UUID).

Lemma First_app_new (cond : A -> bool) (rows : list A) (r : A) :
  filter cond rows = [] -> cond r = true ->
  First key cond (rows ++ [r]) = Some r.
Proof.
  intros Hnone Hr. unfold First. rewrite filter_app, Hnone. simpl.
  now rewrite Hr.
Qed.

Lemma First_app_old (cond : A -> bool) (rows : list A) (r : A) :
  cond r = false ->
  First key cond (rows ++ [r]) = First key cond rows.
Proof.
  intro Hr. unfold First. rewrite filter_app. simpl. rewrite Hr.
  now rewrite app_nil_r.
Qed.

Lemma has_id_filter (id : UUID) (rows : list A) :
  has_id key id rows = false ->
  filter (fun r => (key r =? id)%N) rows = [].
Proof.
  unfold has_id. induction rows as [| r rows IH]; simpl; [reflexivity |].
  intro H. apply orb_false_iff in H. destruct H as [Hr H].
  rewrite Hr. now apply IH.
Qed.

Lemma filter_nil_has_id (id : UUID) (rows : list A) :
  filter (fun r => (key r =? id)%N) rows = [] ->
  has_id key id rows = false.
Proof.
  unfold has_id. induction rows as [| r rows IH]; simpl; [reflexivity |].
  destruct (key r =? id)%N; [discriminate |]. exact IH.
Qed.

End Inserted.

Lemma isValidTenor_iff (tenor : Z) :
  isValidTenor tenor = true <-> tenor = 1 \/ tenor = 2 \/ tenor = 3 \/ tenor = 6.
Proof.
  unfold isValidTenor. rewrite !orb_true_iff, !Z.eqb_eq. tauto.
Qed.

Lemma isValidTenor_positive (tenor : Z) : isValidTenor tenor = true -> 1 <= tenor.
Proof. rewrite isValidTenor_iff. lia. Qed.

Lemma isValidTenor_int32 (tenor : Z) :
  isValidTenor tenor = true -> int32 tenor = true.
Proof.
  rewrite isValidTenor_iff.
  intros [-> | [-> | [-> | ->]]]; reflexivity.
Qed.

Lemma CreateCreditLimitRequest_Validate_tenor (req : CreateCreditLimitRequest.t) :
  CreateCreditLimitRequest.Validate req = [] ->
  isValidTenor (CreateCreditLimitRequest.TenorMonth req) = true.
Proof.
  unfold CreateCreditLimitRequest.Validate.
  destruct (CreateCreditLimitRequest.CustomerID req =? uuid.Nil)%N;
    [discriminate |].
  now destruct (isValidTenor (CreateCreditLimitRequest.TenorMonth req)).
Qed.

Lemma CreateTransactionRequest_Validate_tenor (req : CreateTransactionRequest.t) :
  CreateTransactionRequest.Validate req = [] ->
  isValidTenor (CreateTransactionRequest.TenorMonth req) = true.
Proof.
  unfold CreateTransactionRequest.Validate.
  destruct (CreateTransactionRequest.CustomerID req =? uuid.Nil)%N;
    [discriminate |].
  destruct (CreateTransactionRequest.AssetID req =? uuid.Nil)%N;
    [discriminate |].
  now destruct (isValidTenor (CreateTransactionRequest.TenorMonth req)).
Qed.

(** ** Creating an allocation *)

(** X1.  A valid request for a pair that has no allocation yet, for a
    customer that exists, with an identifier that is not in use and a
    limit the column accepts, stores one new row and nothing else: the
    limit and the zero used amount as the [DECIMAL(15,2)] columns hold
    them.  The response of creation is built from the struct in memory
    and carries the limit as requested; reading the allocation back by its
    pair or by its identifier gives the response of the stored row, with
    the same identifier, customer and duration and with the amounts of
    the columns.  (Of a response, the identifier, the customer, the
    duration and the two amounts are modelled.) *)
Theorem creditLimitService_Create_then_read
  (srv : Server) (rt : Runtime) (req : CreateCreditLimitRequest.t) (db : DB)
  (limit used : float64) :
  CreateCreditLimitRequest.Validate req = [] ->
  allocations_of (CreateCreditLimitRequest.CustomerID req)
    (CreateCreditLimitRequest.TenorMonth req) db = [] ->
  has_id Customer.ID (CreateCreditLimitRequest.CustomerID req) (customers db)
  = true ->
  has_id CreditLimit.ID (NewUUID rt 0) (credit_limits db) = false ->
  Decimal srv (CreateCreditLimitRequest.LimitAmount req) = Some limit ->
  Decimal srv f64.zero = Some used ->
  exists db',
    service.creditLimitService.Create (creditLimits srv) rt req db
    = (db',
       Ok (CreditLimitResponse.mk (NewUUID rt 0)
             (CreateCreditLimitRequest.CustomerID req)
             (CreateCreditLimitRequest.TenorMonth req)
             (CreateCreditLimitRequest.LimitAmount req) f64.zero))
    /\ credit_limits db'
       = credit_limits db
         ++ [CreditLimit.mk (NewUUID rt 0)
               (CreateCreditLimitRequest.CustomerID req)
               (CreateCreditLimitRequest.TenorMonth req) limit used]
    /\ customers db' = customers db /\ assets db' = assets db
    /\ transactions db' = transactions db
    /\ transaction_details db' = transaction_details db
    /\ service.creditLimitService.GetByCustomerIDAndTenor (creditLimits srv)
         (CreateCreditLimitRequest.CustomerID req)
         (CreateCreditLimitRequest.TenorMonth req) db'
       = (db',
          Ok (CreditLimitResponse.mk (NewUUID rt 0)
                (CreateCreditLimitRequest.CustomerID req)
                (CreateCreditLimitRequest.TenorMonth req) limit used))
    /\ service.creditLimitService.GetByID (creditLimits srv) (NewUUID rt 0) db'
       = (db',
          Ok (CreditLimitResponse.mk (NewUUID rt 0)
                (CreateCreditLimitRequest.CustomerID req)
                (CreateCreditLimitRequest.TenorMonth req) limit used)).
Proof.
  intros Hv Hnone Hcust Hfresh Hlimit Hused.
  pose proof (CreateCreditLimitRequest_Validate_tenor req Hv) as Htenor.
  unfold service.creditLimitService.Create. rewrite Hv. open_ledger.
  unfold allocations_of in Hnone.
  assert (First CreditLimit.ID
            (fun l => (CreditLimit.CustomerID l
                       =? CreateCreditLimitRequest.CustomerID req)%N
                      && (CreditLimit.TenorMonth l
                          =? CreateCreditLimitRequest.TenorMonth req))
            (credit_limits db) = None) as Hl by (now apply First_None).
  rewrite Hl.
  unfold repository.creditLimitRepository.Create, Transaction, insert_credit_limit,
    credit_limit_row.
  cbn [CreditLimit.ID CreditLimit.CustomerID CreditLimit.TenorMonth
       CreditLimit.LimitAmount CreditLimit.UsedAmount].
  rewrite (isValidTenor_int32 _ Htenor), Hlimit, Hused, Hfresh, Hcust.
  cbn [negb].
  eexists. split; [reflexivity |].
  cbn [credit_limits customers assets transactions transaction_details].
  repeat (split; [reflexivity |]).
  unfold service.creditLimitService.GetByCustomerIDAndTenor,
    service.creditLimitService.GetByID.
  rewrite Htenor. cbn [negb]. open_ledger. cbn [credit_limits]. split.
  - rewrite (First_app_new CreditLimit.ID); [reflexivity | exact Hnone |].
    cbn. now rewrite N.eqb_refl, Z.eqb_refl.
  - rewrite (First_app_new CreditLimit.ID); [reflexivity | |].
    + now apply has_id_filter.
    + cbn. apply N.eqb_refl.
Qed.

Lemma creditLimitService_Create_then_read_witness :
  exists db',
    service.creditLimitService.Create (creditLimits Examples.server)
      (Examples.clock 2024 1 15)
      (CreateCreditLimitRequest.mk 1%N 3 (f64.ratio 2500005 10))
      (Examples.store 1 100000 0)
    = (db',
       Ok (CreditLimitResponse.mk 1000%N 1%N 3 (f64.ratio 2500005 10) f64.zero))
    /\ service.creditLimitService.GetByCustomerIDAndTenor
         (creditLimits Examples.server) 1%N 3 db'
       = (db',
          Ok (CreditLimitResponse.mk 1000%N 1%N 3 (f64.ratio 25000050 100)
                f64.zero)).
Proof.
  destruct (creditLimitService_Create_then_read Examples.server
              (Examples.clock 2024 1 15)
              (CreateCreditLimitRequest.mk 1%N 3 (f64.ratio 2500005 10))
              (Examples.store 1 100000 0) (f64.ratio 25000050 100) f64.zero)
    as [db' [H1 [_ [_ [_ [_ [_ [H3 _]]]]]]]]; try reflexivity.
  exists db'. split; [exact H1 | exact H3].
Defined.

(** A limit below half a hundredth passes validation and is stored as
    zero: creation answers with the limit requested, a read with 0. *)
Example creditLimitService_Create_rounds_the_limit :
  exists db',
    service.creditLimitService.Create (creditLimits Examples.server)
      (Examples.clock 2024 1 15)
      (CreateCreditLimitRequest.mk 1%N 3 (f64.ratio 1 1000))
      (Examples.store 1 100000 0)
    = (db',
       Ok (CreditLimitResponse.mk 1000%N 1%N 3 (f64.ratio 1 1000) f64.zero))
    /\ service.creditLimitService.GetByID (creditLimits Examples.server)
         1000%N db'
       = (db', Ok (CreditLimitResponse.mk 1000%N 1%N 3 f64.zero f64.zero)).
Proof.
  destruct (service.creditLimitService.Create (creditLimits Examples.server)
              (Examples.clock 2024 1 15)
              (CreateCreditLimitRequest.mk 1%N 3 (f64.ratio 1 1000))
              (Examples.store 1 100000 0)) as [db' r] eqn:E.
  vm_compute in E. inversion E. subst db' r. clear E.
  eexists. split; reflexivity.
Qed.

(** A limit of fourteen digits before the point does not fit the column:
    the request passes validation and the server refuses the row. *)
Example creditLimitService_Create_out_of_range :
  service.creditLimitService.Create (creditLimits Examples.server)
    (Examples.clock 2024 1 15)
    (CreateCreditLimitRequest.mk 1%N 3 (f64.of_int (10 ^ 13)))
    (Examples.store 1 100000 0)
  = (Examples.store 1 100000 0,
     Err (Wrapf "failed to create credit limit"
            (Wrapf "failed to create credit limit"
               (ErrConstraint "out of range value for column limit_amount")))).
Proof. vm_compute. reflexivity. Qed.

(** X2.  A valid request for a customer that is not in the [customers]
    table is refused by the store (the foreign key of the table, if not
    a column before it) and nothing is stored; the error is not the
    duplicate-allocation one. *)
Theorem creditLimitService_Create_unknown_customer
  (srv : Server) (rt : Runtime) (req : CreateCreditLimitRequest.t) (db : DB) :
  CreateCreditLimitRequest.Validate req = [] ->
  allocations_of (CreateCreditLimitRequest.CustomerID req)
    (CreateCreditLimitRequest.TenorMonth req) db = [] ->
  has_id Customer.ID (CreateCreditLimitRequest.CustomerID req) (customers db)
  = false ->
  exists e,
    service.creditLimitService.Create (creditLimits srv) rt req db
    = (db, Err (Wrapf "failed to create credit limit" e)).
Proof.
  intros Hv Hnone Hcust.
  unfold service.creditLimitService.Create. rewrite Hv. open_ledger.
  unfold allocations_of in Hnone. apply (First_None CreditLimit.ID) in Hnone.
  rewrite Hnone.
  unfold repository.creditLimitRepository.Create, Transaction, insert_credit_limit.
  cbn [CreditLimit.ID CreditLimit.CustomerID CreditLimit.TenorMonth].
  rewrite Hcust. cbn [negb].
  destruct (int32 (CreateCreditLimitRequest.TenorMonth req)); cbn [negb];
    [| eexists; reflexivity].
  match goal with
  | |- context [credit_limit_row srv ?l] => destruct (credit_limit_row srv l)
  end; [| eexists; reflexivity].
  destruct (has_id CreditLimit.ID (NewUUID rt 0) (credit_limits db));
    eexists; reflexivity.
Qed.

Lemma creditLimitService_Create_unknown_customer_witness :
  exists e,
    service.creditLimitService.Create (creditLimits Examples.server)
      (Examples.clock 2024 1 15)
      (CreateCreditLimitRequest.mk 77%N 3 (f64.of_int 250000))
      (Examples.store 1 100000 0)
    = (Examples.store 1 100000 0, Err (Wrapf "failed to create credit limit" e)).
Proof.
  apply (creditLimitService_Create_unknown_customer Examples.server
           (Examples.clock 2024 1 15)
           (CreateCreditLimitRequest.mk 77%N 3 (f64.of_int 250000))
           (Examples.store 1 100000 0)); reflexivity.
Defined.

(** ** Deleting an allocation *)

Lemma delete_credit_limit_by_id (id : UUID) (db : DB) :
  credit_limit_by_id id (delete_credit_limit id db) = None.
Proof.
  unfold credit_limit_by_id. apply First_None. simpl.
  induction (credit_limits db) as [| r rows IH]; simpl; [reflexivity |].
  destruct (CreditLimit.ID r =? id)%N eqn:E; simpl; [exact IH |].
  now rewrite E.
Qed.

Lemma delete_credit_limit_others (id id' : UUID) (db : DB) :
  id' <> id ->
  credit_limit_by_id id' (delete_credit_limit id db) = credit_limit_by_id id' db.
Proof.
  intro Hne. unfold credit_limit_by_id, First. simpl. f_equal.
  induction (credit_limits db) as [| r rows IH]; simpl; [reflexivity |].
  destruct (N.eqb_spec (CreditLimit.ID r) id) as [E | E]; simpl.
  - destruct (N.eqb_spec (CreditLimit.ID r) id'); [congruence | exact IH].
  - destruct (CreditLimit.ID r =? id')%N; [f_equal |]; exact IH.
Qed.

(** X3.  Deleting an allocation: an identifier that is not in the table
    gives [ErrCreditLimitNotFound]; an allocation with a positive used
    amount gives [ErrCreditLimitInUse]; in both cases the store is
    unchanged.  Otherwise the row is removed: it can no longer be read,
    every other allocation reads as before and the contracts are
    untouched. *)
Theorem creditLimitService_Delete_cases (srv : Server) (id : UUID) (db : DB) :
  (credit_limit_by_id id db = None ->
   service.creditLimitService.Delete (creditLimits srv) id db
   = (db, Some ErrCreditLimitNotFound))
  /\ (forall l, credit_limit_by_id id db = Some l ->
      f64.gtb (CreditLimit.UsedAmount l) f64.zero = true ->
      service.creditLimitService.Delete (creditLimits srv) id db
      = (db, Some ErrCreditLimitInUse))
  /\ (forall l, credit_limit_by_id id db = Some l ->
      f64.gtb (CreditLimit.UsedAmount l) f64.zero = false ->
      exists db',
        service.creditLimitService.Delete (creditLimits srv) id db = (db', None)
        /\ credit_limit_by_id id db' = None
        /\ (forall id', id' <> id ->
            credit_limit_by_id id' db' = credit_limit_by_id id' db)
        /\ transactions db' = transactions db
        /\ transaction_details db' = transaction_details db).
Proof.
  unfold service.creditLimitService.Delete. open_ledger.
  fold (credit_limit_by_id id db).
  split; [intros ->; reflexivity |].
  split; intros l Hl Hused; rewrite Hl, Hused; [reflexivity |].
  unfold repository.creditLimitRepository.Delete, Transaction.
  fold (credit_limit_by_id id db). rewrite Hl, Hused.
  rewrite (credit_limit_by_id_ID _ _ _ Hl).
  eexists. split; [reflexivity |].
  split; [apply delete_credit_limit_by_id |].
  split; [intros id' Hne; now apply delete_credit_limit_others |].
  split; reflexivity.
Qed.

Lemma creditLimitService_Delete_cases_witness :
  service.creditLimitService.Delete (creditLimits Examples.server) 5%N
    (Examples.store 1 100000 0)
  = (Examples.store 1 100000 0, Some ErrCreditLimitNotFound)
  /\ service.creditLimitService.Delete (creditLimits Examples.server) 100%N
       (Examples.store 1 100000 96800)
     = (Examples.store 1 100000 96800, Some ErrCreditLimitInUse)
  /\ exists db',
      service.creditLimitService.Delete (creditLimits Examples.server) 100%N
        (Examples.store 1 100000 0)
      = (db', None)
      /\ credit_limit_by_id 100%N db' = None.
Proof.
  split; [| split].
  - apply (proj1 (creditLimitService_Delete_cases Examples.server 5%N
                    (Examples.store 1 100000 0))).
    reflexivity.
  - apply (proj1 (proj2 (creditLimitService_Delete_cases Examples.server 100%N
                           (Examples.store 1 100000 96800)))
             (CreditLimit.mk 100%N 1%N 1 (f64.of_int 100000) (f64.of_int 96800)));
      reflexivity.
  - destruct (proj2 (proj2 (creditLimitService_Delete_cases Examples.server
                              100%N (Examples.store 1 100000 0)))
                (CreditLimit.mk 100%N 1%N 1 (f64.of_int 100000) (f64.of_int 0)))
      as [db' [H1 [H2 _]]]; [reflexivity | reflexivity |].
    exists db'. split; [exact H1 | exact H2].
Defined.

(** ** Reserving *)

(** X4.  A reservation (a positive amount) on an existing allocation, run
    with no other call between its read and its write: when used +
    amount, computed in [float64], exceeds the limit the service fails
    with [ErrInsufficientCreditLimit] and the store is unchanged;
    otherwise the allocation's used amount becomes what the
    [DECIMAL(15,2)] column makes of that sum, the contracts being what
    they were. *)
Theorem UpdateUsedAmount_reserve (srv : Server) (id : UUID) (amount : float64)
  (db : DB) (l : CreditLimit.t) :
  f64.gtb amount f64.zero = true ->
  credit_limit_by_id id db = Some l ->
  (f64.gtb (f64.add (CreditLimit.UsedAmount l) amount)
     (CreditLimit.LimitAmount l) = true ->
   service.creditLimitService.UpdateUsedAmount (creditLimits srv) id amount db
   = (db, Some ErrInsufficientCreditLimit))
  /\ (f64.gtb (f64.add (CreditLimit.UsedAmount l) amount)
        (CreditLimit.LimitAmount l) = false ->
      forall used limit,
        Decimal srv (f64.add (CreditLimit.UsedAmount l) amount) = Some used ->
        Decimal srv (CreditLimit.LimitAmount l) = Some limit ->
        exists db' l',
          service.creditLimitService.UpdateUsedAmount (creditLimits srv) id
            amount db
          = (db', None)
          /\ credit_limit_by_id id db' = Some l'
          /\ CreditLimit.UsedAmount l' = used
          /\ CreditLimit.LimitAmount l' = limit
          /\ transactions db' = transactions db
          /\ transaction_details db' = transaction_details db).
Proof.
  intros Hpos Hl.
  destruct (gtb_excludes _ _ Hpos) as [Hz Hlt].
  unfold service.creditLimitService.UpdateUsedAmount. rewrite Hz.
  open_ledger. fold (credit_limit_by_id id db). rewrite Hl, Hpos, Hlt.
  cbn [andb].
  split; [intros ->; reflexivity |].
  intros Hcap used limit Hused Hlimit. rewrite Hcap.
  rewrite (creditLimitRepository_UpdateUsedAmount_applies srv id amount db l
             _ Hl Hcap (credit_limit_row_of srv (committed l amount) limit used
                          Hlimit Hused)).
  eexists. eexists. split; [reflexivity |].
  split; [apply (put_credit_limit_by_id l); [exact Hl | reflexivity] |].
  repeat split.
Qed.

Lemma UpdateUsedAmount_reserve_witness :
  service.creditLimitService.UpdateUsedAmount (creditLimits Examples.server)
    100%N (f64.of_int 5000) (Examples.store 1 100000 96800)
  = (Examples.store 1 100000 96800, Some ErrInsufficientCreditLimit)
  /\ exists db' l',
      service.creditLimitService.UpdateUsedAmount (creditLimits Examples.server)
        100%N (f64.of_int 3200) (Examples.store 1 100000 96800)
      = (db', None)
      /\ credit_limit_by_id 100%N db' = Some l'
      /\ CreditLimit.UsedAmount l' = f64.of_int 100000.
Proof.
  split.
  - apply (proj1 (UpdateUsedAmount_reserve Examples.server 100%N
                    (f64.of_int 5000) (Examples.store 1 100000 96800)
                    (CreditLimit.mk 100%N 1%N 1 (f64.of_int 100000)
                       (f64.of_int 96800))
                    eq_refl eq_refl)).
    reflexivity.
  - destruct (proj2 (UpdateUsedAmount_reserve Examples.server 100%N
                       (f64.of_int 3200) (Examples.store 1 100000 96800)
                       (CreditLimit.mk 100%N 1%N 1 (f64.of_int 100000)
                          (f64.of_int 96800))
                       eq_refl eq_refl) eq_refl (f64.of_int 100000)
                (f64.of_int 100000) eq_refl eq_refl)
      as [db' [l' [H1 [H2 [H3 _]]]]].
    exists db', l'. split; [exact H1 |]. split; [exact H2 | exact H3].
Defined.

(** In [float64] 0.1 + 0.2 exceeds 0.3: a reservation of 0.2 on an
    allocation of 0.3 of which 0.1 is used is refused. *)
Example UpdateUsedAmount_reserve_to_the_limit :
  service.creditLimitService.UpdateUsedAmount (creditLimits Examples.server)
    100%N (f64.ratio 2 10)
    (mkDB [Customer.mk 1%N true] []
       [CreditLimit.mk 100%N 1%N 1 (f64.ratio 3 10) (f64.ratio 1 10)] [] [])
  = (mkDB [Customer.mk 1%N true] []
       [CreditLimit.mk 100%N 1%N 1 (f64.ratio 3 10) (f64.ratio 1 10)] [] [],
     Some ErrInsufficientCreditLimit).
Proof. vm_compute. reflexivity. Qed.

(** X6.  The repository's locked update checks the upper bound only: on
    an existing allocation every amount for which used + amount,
    computed in [float64], does not exceed the limit is written, as the
    column stores the sum, also when that leaves the used amount
    negative. *)
Theorem creditLimitRepository_UpdateUsedAmount_upper_bound_only
  (srv : Server) (id : UUID) (amount : float64) (db : DB) (l : CreditLimit.t)
  (used limit : float64) :
  credit_limit_by_id id db = Some l ->
  f64.gtb (f64.add (CreditLimit.UsedAmount l) amount)
    (CreditLimit.LimitAmount l) = false ->
  Decimal srv (f64.add (CreditLimit.UsedAmount l) amount) = Some used ->
  Decimal srv (CreditLimit.LimitAmount l) = Some limit ->
  exists db' l',
    repository.creditLimitRepository.UpdateUsedAmount srv id amount db
    = (db', None)
    /\ credit_limit_by_id id db' = Some l'
    /\ CreditLimit.UsedAmount l' = used.
Proof.
  intros Hl Hcap Hused Hlimit.
  rewrite (creditLimitRepository_UpdateUsedAmount_applies srv id amount db l
             _ Hl Hcap (credit_limit_row_of srv (committed l amount) limit used
                          Hlimit Hused)).
  eexists. eexists. split; [reflexivity |].
  split; [apply (put_credit_limit_by_id l); [exact Hl | reflexivity] |].
  reflexivity.
Qed.

Lemma creditLimitRepository_UpdateUsedAmount_upper_bound_only_witness :
  exists db' l',
    repository.creditLimitRepository.UpdateUsedAmount Examples.server 100%N
      (f64.of_int (-500)) (Examples.store 1 100000 0)
    = (db', None)
    /\ credit_limit_by_id 100%N db' = Some l'
    /\ CreditLimit.UsedAmount l' = f64.of_int (-500)
    /\ f64.ltb (f64.of_int (-500)) f64.zero = true.
Proof.
  destruct (creditLimitRepository_UpdateUsedAmount_upper_bound_only
              Examples.server 100%N (f64.of_int (-500))
              (Examples.store 1 100000 0)
              (CreditLimit.mk 100%N 1%N 1 (f64.of_int 100000) (f64.of_int 0))
              (f64.of_int (-500)) (f64.of_int 100000))
    as [db' [l' [H1 [H2 H3]]]]; try reflexivity.
  exists db', l'. split; [exact H1 |]. split; [exact H2 |].
  split; [exact H3 | reflexivity].
Defined.

(** ** Validation of the requests *)

(** X7.  A request to issue a contract passes validation exactly when
    both identifiers are set, the duration is 1, 2, 3 or 6, the fee is
    not negative, the rate lies between 0 and 100 and the contract number
    is not empty; a fee or a rate that is NaN passes too, since no
    comparison rejects it. *)
Theorem CreateTransactionRequest_Validate_iff (req : CreateTransactionRequest.t) :
  CreateTransactionRequest.Validate req = []
  <-> CreateTransactionRequest.CustomerID req <> uuid.Nil
      /\ CreateTransactionRequest.AssetID req <> uuid.Nil
      /\ (CreateTransactionRequest.TenorMonth req = 1
          \/ CreateTransactionRequest.TenorMonth req = 2
          \/ CreateTransactionRequest.TenorMonth req = 3
          \/ CreateTransactionRequest.TenorMonth req = 6)
      /\ (f64.leb f64.zero (CreateTransactionRequest.AdminFee req) = true
          \/ CreateTransactionRequest.AdminFee req = f64.nan)
      /\ (f64.leb f64.zero (CreateTransactionRequest.InterestRate req) = true
          /\ f64.leb (CreateTransactionRequest.InterestRate req) (f64.of_int 100)
             = true
          \/ CreateTransactionRequest.InterestRate req = f64.nan)
      /\ CreateTransactionRequest.ContractNumber req <> "".
Proof.
  rewrite <- isValidTenor_iff. unfold CreateTransactionRequest.Validate.
  destruct (N.eqb_spec (CreateTransactionRequest.CustomerID req) uuid.Nil) as [Ec | Ec];
    [split; [discriminate | tauto] |].
  destruct (N.eqb_spec (CreateTransactionRequest.AssetID req) uuid.Nil) as [Ea | Ea];
    [split; [discriminate | tauto] |].
  destruct (isValidTenor (CreateTransactionRequest.TenorMonth req)) eqn:Et;
    cbn [negb app];
    [| split; [discriminate | intros [_ [_ [H _]]]; discriminate H]].
  destruct (f64.ltb (CreateTransactionRequest.AdminFee req) f64.zero) eqn:Ef;
    cbn [app].
  { split; [discriminate |]. intros [_ [_ [_ [H _]]]].
    assert (f64.ltb (CreateTransactionRequest.AdminFee req) f64.zero = false) as E
      by (apply ltb_false_iff; tauto).
    congruence. }
  apply ltb_false_iff in Ef.
  assert (f64.leb f64.zero (CreateTransactionRequest.AdminFee req) = true
          \/ CreateTransactionRequest.AdminFee req = f64.nan) as Hfee
    by (destruct Ef as [H | [H | H]]; [now left | now right | discriminate H]).
  destruct (f64.ltb (CreateTransactionRequest.InterestRate req) f64.zero) eqn:Er;
    cbn [orb app].
  { split; [discriminate |]. intros [_ [_ [_ [_ [H _]]]]].
    assert (f64.ltb (CreateTransactionRequest.InterestRate req) f64.zero = false)
      as E by (apply ltb_false_iff; tauto).
    congruence. }
  apply ltb_false_iff in Er.
  destruct (f64.gtb (CreateTransactionRequest.InterestRate req) (f64.of_int 100))
    eqn:Eh; cbn [app].
  { split; [discriminate |]. intros [_ [_ [_ [_ [H _]]]]].
    assert (f64.ltb (f64.of_int 100) (CreateTransactionRequest.InterestRate req)
            = false) as E by (apply ltb_false_iff; tauto).
    unfold f64.gtb in Eh. unfold f64.ltb in E. congruence. }
  apply (ltb_false_iff (f64.of_int 100)) in Eh.
  assert (f64.leb f64.zero (CreateTransactionRequest.InterestRate req) = true
          /\ f64.leb (CreateTransactionRequest.InterestRate req) (f64.of_int 100)
             = true
          \/ CreateTransactionRequest.InterestRate req = f64.nan) as Hrate.
  { destruct Er as [H | [H | H]]; [| now right | discriminate H].
    destruct Eh as [H' | [H' | H']]; [now left | discriminate H' | now right]. }
  destruct (String.eqb_spec (CreateTransactionRequest.ContractNumber req) "")
    as [En | En]; cbn [app].
  - split; [discriminate | tauto].
  - split; [intros _; tauto | reflexivity].
Qed.

(** X8.  A request to create an allocation passes validation exactly when
    the customer identifier is set, the duration is 1, 2, 3 or 6 and the
    limit is positive; a limit that is NaN passes too. *)
Theorem CreateCreditLimitRequest_Validate_iff (req : CreateCreditLimitRequest.t) :
  CreateCreditLimitRequest.Validate req = []
  <-> CreateCreditLimitRequest.CustomerID req <> uuid.Nil
      /\ (CreateCreditLimitRequest.TenorMonth req = 1
          \/ CreateCreditLimitRequest.TenorMonth req = 2
          \/ CreateCreditLimitRequest.TenorMonth req = 3
          \/ CreateCreditLimitRequest.TenorMonth req = 6)
      /\ (f64.gtb (CreateCreditLimitRequest.LimitAmount req) f64.zero = true
          \/ CreateCreditLimitRequest.LimitAmount req = f64.nan).
Proof.
  rewrite <- isValidTenor_iff. unfold CreateCreditLimitRequest.Validate.
  destruct (N.eqb_spec (CreateCreditLimitRequest.CustomerID req) uuid.Nil) as [Ec | Ec];
    [split; [discriminate | tauto] |].
  destruct (isValidTenor (CreateCreditLimitRequest.TenorMonth req)) eqn:Et;
    cbn [negb app];
    [| split; [discriminate | intros [_ [H _]]; discriminate H]].
  destruct (f64.leb (CreateCreditLimitRequest.LimitAmount req) f64.zero) eqn:El.
  - split; [discriminate |]. intros [_ [_ H]].
    assert (f64.leb (CreateCreditLimitRequest.LimitAmount req) f64.zero = false)
      as E by (apply leb_false_iff; tauto).
    congruence.
  - apply leb_false_iff in El. split; [intros _ | reflexivity].
    repeat split; auto.
    destruct El as [H | [H | H]]; [now left | now right | discriminate H].
Qed.

(** NaN passes both validations. *)
Example Validate_accepts_NaN :
  CreateCreditLimitRequest.Validate (CreateCreditLimitRequest.mk 1%N 1 f64.nan)
  = []
  /\ CreateTransactionRequest.Validate
       (CreateTransactionRequest.mk 1%N 10%N 1 f64.nan f64.nan "KP-0001") = [].
Proof. split; reflexivity. Qed.

(** ** Issuance: the checks before the transaction *)

(** X10.  A validated request is checked in this order, each failure
    ending the call with its own error and an unchanged store: a contract
    whose number the server takes for equal to the request's exists
    ([ErrDuplicateContract]); the customer is missing; the customer is
    inactive; the asset is missing; the customer has no allocation for
    the duration. *)
Theorem Create_precondition_failures
  (srv : Server) (rt : Runtime) (req : CreateTransactionRequest.t) (db : DB) :
  CreateTransactionRequest.Validate req = [] ->
  (forall t,
     transaction_by_number srv (CreateTransactionRequest.ContractNumber req) db
     = Some t ->
     service.transactionService.Create (transactions_svc srv) rt req db
     = (db, Err ErrDuplicateContract))
  /\ (transaction_by_number srv (CreateTransactionRequest.ContractNumber req) db
      = None ->
      (customer_by_id (CreateTransactionRequest.CustomerID req) db = None ->
       service.transactionService.Create (transactions_svc srv) rt req db
       = (db, Err (Errorf "customer not found")))
      /\ (forall customer,
            customer_by_id (CreateTransactionRequest.CustomerID req) db
            = Some customer ->
            (Customer.IsActive customer = false ->
             service.transactionService.Create (transactions_svc srv) rt req db
             = (db, Err (Errorf "customer is not active")))
            /\ (Customer.IsActive customer = true ->
                (asset_by_id (CreateTransactionRequest.AssetID req) db = None ->
                 service.transactionService.Create (transactions_svc srv) rt req db
                 = (db, Err (Errorf "asset not found")))
                /\ (forall asset,
                      asset_by_id (CreateTransactionRequest.AssetID req) db
                      = Some asset ->
                      credit_limit_for (CreateTransactionRequest.CustomerID req)
                        (CreateTransactionRequest.TenorMonth req) db = None ->
                      service.transactionService.Create (transactions_svc srv)
                        rt req db
                      = (db, Err (Errorf "no credit limit found for tenor %d months")))))).
Proof.
  intro Hv. unfold service.transactionService.Create. rewrite Hv.
  open_coordinator.
  unfold transaction_by_number, customer_by_id, asset_by_id, credit_limit_for.
  split; [intros t ->; reflexivity |].
  intros ->. split; [intros ->; reflexivity |].
  intros customer ->. split; [intros ->; reflexivity |].
  intros ->. cbn [negb]. split; [intros ->; reflexivity |].
  intros asset -> ->. reflexivity.
Qed.

Lemma Create_precondition_failures_witness :
  service.transactionService.Create (transactions_svc Examples.server)
    (Examples.clock 2024 1 15)
    (CreateTransactionRequest.mk 9%N 10%N 1 (f64.of_int 5000) (f64.of_int 2)
       "kp-0001")
    Examples.completed_store
  = (Examples.completed_store, Err ErrDuplicateContract)
  /\ service.transactionService.Create (transactions_svc Examples.server)
       (Examples.clock 2024 1 15)
       (CreateTransactionRequest.mk 9%N 10%N 1 (f64.of_int 5000) (f64.of_int 2)
          "KP-0009")
       Examples.completed_store
     = (Examples.completed_store, Err (Errorf "customer not found")).
Proof.
  split.
  - apply (proj1 (Create_precondition_failures Examples.server
                    (Examples.clock 2024 1 15)
                    (CreateTransactionRequest.mk 9%N 10%N 1 (f64.of_int 5000)
                       (f64.of_int 2) "kp-0001")
                    Examples.completed_store eq_refl)
             Examples.completed_contract).
    reflexivity.
  - apply (proj2 (Create_precondition_failures Examples.server
                    (Examples.clock 2024 1 15)
                    (CreateTransactionRequest.mk 9%N 10%N 1 (f64.of_int 5000)
                       (f64.of_int 2) "KP-0009")
                    Examples.completed_store eq_refl));
      reflexivity.
Defined.

(** ** Issuance: what a success stores *)

(** The tables after a successful issuance. *)
Lemma Create_success_tables
  (srv : Server) (rt : Runtime) (req : CreateTransactionRequest.t) (db db' : DB)
  (response : TransactionResponse.t) :
  service.transactionService.Create (transactions_svc srv) rt req db
  = (db', Ok response) ->
  exists asset installments row rows,
    CreateTransactionRequest.Validate req = []
    /\ asset_by_id (CreateTransactionRequest.AssetID req) db = Some asset
    /\ transaction_by_number srv (CreateTransactionRequest.ContractNumber req) db
       = None
    /\ has_id Transaction.ID (NewUUID rt 0) (transactions db) = false
    /\ repository.transactionRepository.generateInstallments (advance rt 2 1)
         (contract_of rt req (Asset.Price asset)) = Some installments
    /\ transaction_row srv (contract_of rt req (Asset.Price asset)) = Ok row
    /\ written srv installments rows
    /\ transactions db' = transactions db ++ [row]
    /\ transaction_details db' = transaction_details db ++ rows
    /\ customers db' = customers db
    /\ assets db' = assets db
    /\ response = service.transactionService.toResponse (preload row db').
Proof.
  intro H. apply Create_outcome in H.
  destruct H as [[_ [e He]] | H]; [discriminate |].
  destruct H as [customer [asset [cl [db5 [o H]]]]].
  destruct H as [Hv [Hn [_ [_ [Hs [_ [_ [H5 [H6 Hr]]]]]]]]].
  destruct o as [e |]; [discriminate |].
  apply transactionRepository_Create_commits in H5.
  destruct H5 as [l [ins [tx1 [tx2 [row1 [_ [_ [E1 [E2 [E3 [_ Hdb5]]]]]]]]]]].
  pose proof (insert_transaction_tables _ _ _ _ E1) as [C1 [A1 [_ D1]]].
  apply insert_transaction_appends in E1.
  destruct E1 as [row [Hrow [T1 [F1 _]]]].
  apply insert_transaction_details_Ok in E3.
  destruct E3 as [_ [rows [Hw [D3 [C3 [A3 [_ T3]]]]]]].
  apply creditLimitRepository_UpdateUsedAmount_commits in H6.
  destruct H6 as [l2 [row2 [_ [_ [_ Hdb']]]]].
  assert (transactions db' = transactions db ++ [row]) as HT.
  { subst db' db5. simpl. rewrite T3, T1. reflexivity. }
  assert (transaction_by_id (NewUUID rt 0) db' = Some row) as Hid.
  { unfold transaction_by_id. rewrite HT.
    apply First_app_new; [now apply has_id_filter |].
    apply transaction_row_Ok in Hrow. destruct Hrow as [-> _].
    apply N.eqb_refl. }
  rewrite Hid in Hr. inversion Hr.
  exists asset, ins, row, rows. repeat split; auto.
  - subst db' db5. simpl. rewrite D3, D1. reflexivity.
  - subst db' db5. simpl. congruence.
  - subst db' db5. simpl. congruence.
Qed.

(** X11.  A successful issuance appends exactly one contract, in status
    "pending", with the number and the duration of the request and with
    the fee as the column stores it, and exactly as many installments as
    the duration has months, each referring to the contract, each of the
    contract's installment amount and each "pending"; earlier contracts
    and installments, customers and assets are left as they were. *)
Theorem Create_success_stores
  (srv : Server) (rt : Runtime) (req : CreateTransactionRequest.t) (db db' : DB)
  (response : TransactionResponse.t) :
  service.transactionService.Create (transactions_svc srv) rt req db
  = (db', Ok response) ->
  exists contract installments,
    transactions db' = transactions db ++ [contract]
    /\ Transaction.ID contract = TransactionResponse.ID response
    /\ Transaction.Status contract = "pending"
    /\ Transaction.ContractNumber contract
       = CreateTransactionRequest.ContractNumber req
    /\ Transaction.TenorMonth contract = CreateTransactionRequest.TenorMonth req
    /\ Decimal srv (CreateTransactionRequest.AdminFee req)
       = Some (Transaction.AdminFee contract)
    /\ transaction_details db' = transaction_details db ++ installments
    /\ Z.of_nat (List.length installments)
       = CreateTransactionRequest.TenorMonth req
    /\ Forall (fun d =>
                 TransactionDetail.TransactionID d = Transaction.ID contract
                 /\ TransactionDetail.Amount d
                    = Transaction.InstallmentAmount contract
                 /\ TransactionDetail.Status d = "pending")
         installments
    /\ customers db' = customers db
    /\ assets db' = assets db.
Proof.
  intro H. apply Create_success_tables in H.
  destruct H as [asset [ins [row [rows H]]]].
  destruct H as [_ [_ [_ [_ [Hg [Hrow [Hw [HT [HD [HC [HA Hr]]]]]]]]]]].
  pose proof (transaction_row_Ok _ _ _ Hrow)
    as [R1 [_ [_ [R4 [R5 [R6 [_ [R8 [_ [R10 _]]]]]]]]]].
  exists row, rows.
  split; [exact HT |]. split; [now subst response |].
  split; [exact R6 |]. split; [exact R4 |]. split; [exact R5 |].
  split; [exact R8 |]. split; [exact HD |].
  assert (Z.of_nat (List.length ins) = CreateTransactionRequest.TenorMonth req
          /\ Forall (fun d =>
                       TransactionDetail.Amount d
                       = Transaction.InstallmentAmount
                           (contract_of rt req (Asset.Price asset))
                       /\ TransactionDetail.Status d = TransactionDetailStatusPending
                       /\ TransactionDetail.TransactionID d
                          = Transaction.ID (contract_of rt req (Asset.Price asset)))
               ins) as [Hlen Hflat].
  { unfold repository.transactionRepository.generateInstallments in Hg.
    destruct (Z.ltb_spec
                (Transaction.TenorMonth (contract_of rt req (Asset.Price asset))) 0)
      as [Hlt | Hge]; [discriminate |].
    inversion Hg as [Hins]. split; [| apply installments_from_flat].
    rewrite installments_from_length.
    cbn [contract_of Transaction.TenorMonth] in Hge |- *. lia. }
  clear Hg.
  split; [now rewrite (written_length _ _ _ Hw) |].
  split; [| auto].
  clear Hlen HD. revert Hflat.
  induction Hw as [| d r ds rs Hd Hw IH]; intro Hflat; [constructor |].
  inversion Hflat as [| ? ? [F1 [F2 F3]] Hflat']. subst.
  constructor; [| now apply IH].
  apply transaction_detail_row_Ok in Hd.
  destruct Hd as [_ [D2 [_ [D4 [D5 _]]]]].
  rewrite D2, D4, F2, F3, R1. repeat split.
  rewrite F1 in D5. cbn [contract_of Transaction.InstallmentAmount] in D5.
  cbn [contract_of Transaction.InstallmentAmount] in R10. congruence.
Qed.

Lemma Create_success_stores_witness :
  exists db' response contract installments,
    service.transactionService.Create (transactions_svc Examples.server)
      (Examples.clock 2024 1 15) Examples.request6 (Examples.store 6 1000000 0)
    = (db', Ok response)
    /\ transactions db' = [contract]
    /\ transaction_details db' = installments
    /\ List.length installments = 6%nat.
Proof.
  destruct (service.transactionService.Create (transactions_svc Examples.server)
              (Examples.clock 2024 1 15) Examples.request6
              (Examples.store 6 1000000 0)) as [db' r] eqn:E.
  assert (exists response, r = Ok response) as [response ->].
  { vm_compute in E. inversion E. eexists. reflexivity. }
  destruct (Create_success_stores _ _ _ _ _ _ E)
    as [contract [ins [H1 [_ [_ [_ [_ [_ [H2 [H3 _]]]]]]]]]].
  exists db', response, contract, ins.
  split; [reflexivity |]. split; [exact H1 |]. split; [exact H2 |].
  apply Nat2Z.inj. rewrite H3. reflexivity.
Defined.

(** A fee of 0.006 is stored as 0.01. *)
Example Create_rounds_the_fee :
  exists db' response contract,
    service.transactionService.Create (transactions_svc Examples.server)
      (Examples.clock 2024 1 15)
      (CreateTransactionRequest.mk 1%N 10%N 1 (f64.ratio 6 1000) (f64.of_int 0)
         "KP-0005")
      (Examples.store 1 1000000 0)
    = (db', Ok response)
    /\ transactions db' = [contract]
    /\ Transaction.AdminFee contract = f64.ratio 1 100.
Proof.
  destruct (service.transactionService.Create (transactions_svc Examples.server)
              (Examples.clock 2024 1 15)
              (CreateTransactionRequest.mk 1%N 10%N 1 (f64.ratio 6 1000)
                 (f64.of_int 0) "KP-0005")
              (Examples.store 1 1000000 0)) as [db' r] eqn:E.
  vm_compute in E. inversion E. subst db' r. clear E.
  eexists. eexists. eexists. split; [reflexivity |]. split; reflexivity.
Qed.

(** X12.  A contract that was issued successfully can be read back by
    its identifier and by its contract number, and both reads return the
    response that issuance returned. *)
Theorem Create_then_read
  (srv : Server) (rt : Runtime) (req : CreateTransactionRequest.t) (db db' : DB)
  (response : TransactionResponse.t) :
  service.transactionService.Create (transactions_svc srv) rt req db
  = (db', Ok response) ->
  service.transactionService.GetByID (transactions_svc srv)
    (TransactionResponse.ID response) db'
  = (db', Ok response)
  /\ service.transactionService.GetByContractNumber (transactions_svc srv)
       (CreateTransactionRequest.ContractNumber req) db'
     = (db', Ok response).
Proof.
  intro H. apply Create_success_tables in H.
  destruct H as [asset [ins [row [rows H]]]].
  destruct H as [_ [_ [Hn [Hf [_ [Hrow [_ [HT [_ [_ [_ Hr]]]]]]]]]]].
  pose proof (transaction_row_Ok _ _ _ Hrow) as [R1 [_ [_ [R4 _]]]].
  cbn [contract_of Transaction.ID Transaction.ContractNumber] in R1, R4.
  assert (TransactionResponse.ID response = NewUUID rt 0) as Hid
    by (subst response; exact R1).
  unfold service.transactionService.GetByID,
    service.transactionService.GetByContractNumber.
  open_coordinator. rewrite Hid, HT. split.
  - rewrite (First_app_new Transaction.ID);
      [now subst response | now apply has_id_filter |].
    rewrite R1. apply N.eqb_refl.
  - rewrite (First_app_new Transaction.ID); [now subst response | |].
    + unfold transaction_by_number in Hn. now apply First_None in Hn.
    + unfold same. now rewrite R4, String.eqb_refl.
Qed.

Lemma Create_then_read_witness :
  exists db' response,
    service.transactionService.Create (transactions_svc Examples.server)
      (Examples.clock 2024 1 15) Examples.request6 (Examples.store 6 1000000 0)
    = (db', Ok response)
    /\ service.transactionService.GetByContractNumber
         (transactions_svc Examples.server) "KP-0003" db'
       = (db', Ok response).
Proof.
  destruct (service.transactionService.Create (transactions_svc Examples.server)
              (Examples.clock 2024 1 15) Examples.request6
              (Examples.store 6 1000000 0)) as [db' r] eqn:E.
  assert (exists response, r = Ok response) as [response ->].
  { vm_compute in E. inversion E. eexists. reflexivity. }
  exists db', response. split; [reflexivity |].
  apply (proj2 (Create_then_read _ _ _ _ _ _ E)).
Defined.

(** ** The answers of the handlers *)

(** X13.  The issue endpoint.  Whenever it answers 400 or 409 the store
    is exactly what it was before the request and no contract is
    returned; it answers 201 exactly when the coordinator succeeded, with
    the coordinator's response; its only other answer is 500. *)
Theorem TransactionHandler_Create_answers
  (srv : Server) (rt : Runtime) (body : option CreateTransactionRequest.t) (db db' : DB)
  (status : Z) (data : option TransactionResponse.t) :
  handler.TransactionHandler.Create (transactions_svc srv) rt body db
  = (db', (status, data)) ->
  (status = 400 \/ status = 409 -> db' = db /\ data = None)
  /\ (status = 201 <->
      exists req response,
        body = Some req /\ data = Some response
        /\ service.transactionService.Create (transactions_svc srv) rt req db
           = (db', Ok response))
  /\ (status = 201 \/ status = 400 \/ status = 409 \/ status = 500).
Proof.
  unfold handler.TransactionHandler.Create.
  destruct body as [req |].
  - destruct (service.transactionService.Create (transactions_svc srv) rt req db)
      as [d r] eqn:E.
    pose proof (Create_outcome _ _ _ _ _ _ E) as Hout.
    destruct r as [response | e].
    + intro H. inversion H. subst. clear H.
      split; [intros [H | H]; discriminate H |].
      split; [| auto].
      split; [intros _; eauto |]. reflexivity.
    + assert (forall s, (d, (s, @None TransactionResponse.t)) = (db', (status, data)) ->
                d = db' /\ s = status /\ data = None) as Hinv
        by (intros s H; inversion H; auto).
      assert (e = ErrDuplicateContract \/ e = ErrInsufficientCreditLimit ->
              d = db) as Hsame.
      { intros He. destruct Hout as [[Hd _] | Hout]; [exact Hd |].
        destruct Hout as [c [a [cl [db5 [o [_ [_ [_ [_ [_ [_ [_ [_ [_ Hr]]]]]]]]]]]]]].
        destruct o as [e6 |];
          [| destruct (transaction_by_id (NewUUID rt 0) d)];
          inversion Hr; subst e; destruct He; discriminate. }
      destruct e; intro H; apply Hinv in H; destruct H as [<- [<- ->]];
        unfold handler.StatusConflict, handler.StatusBadRequest,
          handler.StatusInternalServerError.
      all: split;
        [intro Hs; split; [| reflexivity];
         first [apply Hsame; auto; fail
               | destruct Hs as [Hs | Hs]; discriminate Hs] |].
      all: split; [| auto 6].
      all: split;
        [intro Hs; discriminate Hs
        | intros [q [r [Hb [_ Hc]]]]; inversion Hb; subst q;
          rewrite E in Hc; discriminate Hc].
  - intro H. inversion H. subst. unfold handler.StatusBadRequest.
    split; [auto |]. split; [| auto].
    split; [discriminate | intros [q [r [H1 _]]]; discriminate H1].
Qed.

Lemma TransactionHandler_Create_answers_witness :
  handler.TransactionHandler.Create (transactions_svc Examples.server)
    (Examples.clock 2024 1 15) (Some Examples.requestB)
    (Examples.store 1 100000 96800)
  = (Examples.store 1 100000 96800, (400, None))
  /\ (Examples.store 1 100000 96800 = Examples.store 1 100000 96800
      /\ @None TransactionResponse.t = None).
Proof.
  assert (handler.TransactionHandler.Create (transactions_svc Examples.server)
            (Examples.clock 2024 1 15) (Some Examples.requestB)
            (Examples.store 1 100000 96800)
          = (Examples.store 1 100000 96800, (400, None))) as E by reflexivity.
  split; [exact E |].
  apply (proj1 (TransactionHandler_Create_answers _ _ _ _ _ _ _ E)). now left.
Defined.

(** The 500 of the issue endpoint can leave a contract behind: Scenario A. *)
Example TransactionHandler_Create_scenario_A :
  exists db',
    handler.TransactionHandler.Create (transactions_svc Examples.server)
      (Examples.clock 2024 1 15) (Some Examples.requestA)
      (Examples.store 1 100000 0)
    = (db', (500, None))
    /\ List.length (transactions db') = 1%nat.
Proof.
  destruct (handler.TransactionHandler.Create (transactions_svc Examples.server)
              (Examples.clock 2024 1 15) (Some Examples.requestA)
              (Examples.store 1 100000 0)) as [db' a] eqn:E.
  vm_compute in E. inversion E. subst. eexists. split; reflexivity.
Qed.

(** X14.  The used-amount endpoint, for a request that parses.  An
    amount equal to zero is answered 200 whether or not the allocation
    exists; any other amount on a missing allocation 404; a reservation
    whose sum used + amount, computed in [float64], exceeds the limit
    400; a release whose sum is negative 500.  In all four cases the
    store is unchanged. *)
Theorem CreditLimitHandler_UpdateUsedAmount_answers
  (srv : Server) (id : UUID) (amount : float64) (db : DB) :
  (f64.eqb amount f64.zero = true ->
   handler.CreditLimitHandler.UpdateUsedAmount (creditLimits srv) (Some id)
     (Some amount) db = (db, 200))
  /\ (f64.eqb amount f64.zero = false -> credit_limit_by_id id db = None ->
      handler.CreditLimitHandler.UpdateUsedAmount (creditLimits srv) (Some id)
        (Some amount) db = (db, 404))
  /\ (forall l, credit_limit_by_id id db = Some l ->
      f64.gtb amount f64.zero = true ->
      f64.gtb (f64.add (CreditLimit.UsedAmount l) amount)
        (CreditLimit.LimitAmount l) = true ->
      handler.CreditLimitHandler.UpdateUsedAmount (creditLimits srv) (Some id)
        (Some amount) db = (db, 400))
  /\ (forall l, credit_limit_by_id id db = Some l ->
      f64.ltb amount f64.zero = true ->
      f64.ltb (f64.add (CreditLimit.UsedAmount l) amount) f64.zero = true ->
      handler.CreditLimitHandler.UpdateUsedAmount (creditLimits srv) (Some id)
        (Some amount) db = (db, 500)).
Proof.
  unfold handler.CreditLimitHandler.UpdateUsedAmount,
    service.creditLimitService.UpdateUsedAmount.
  split; [intros ->; reflexivity |].
  split; [intros -> Hl; open_ledger;
          fold (credit_limit_by_id id db); now rewrite Hl |].
  split; intros l Hl Hsign H.
  - destruct (gtb_excludes _ _ Hsign) as [-> Hlt]. open_ledger.
    fold (credit_limit_by_id id db). now rewrite Hl, Hlt, Hsign, H.
  - destruct (ltb_excludes _ _ Hsign) as [-> Hgt]. open_ledger.
    fold (credit_limit_by_id id db). now rewrite Hl, Hsign, H.
Qed.

Lemma CreditLimitHandler_UpdateUsedAmount_answers_witness :
  handler.CreditLimitHandler.UpdateUsedAmount (creditLimits Examples.server)
    (Some 42%N) (Some (f64.of_int 0)) mysql.empty = (mysql.empty, 200)
  /\ handler.CreditLimitHandler.UpdateUsedAmount (creditLimits Examples.server)
       (Some 42%N) (Some (f64.of_int 5)) mysql.empty = (mysql.empty, 404)
  /\ handler.CreditLimitHandler.UpdateUsedAmount (creditLimits Examples.server)
       (Some 100%N) (Some (f64.of_int 5000)) (Examples.store 1 100000 96800)
     = (Examples.store 1 100000 96800, 400)
  /\ handler.CreditLimitHandler.UpdateUsedAmount (creditLimits Examples.server)
       (Some 100%N) (Some (f64.of_int (-96801))) (Examples.store 1 100000 96800)
     = (Examples.store 1 100000 96800, 500).
Proof.
  split; [| split; [| split]].
  - apply (proj1 (CreditLimitHandler_UpdateUsedAmount_answers Examples.server
                    42%N (f64.of_int 0) mysql.empty)).
    reflexivity.
  - apply (proj1 (proj2 (CreditLimitHandler_UpdateUsedAmount_answers
                           Examples.server 42%N (f64.of_int 5) mysql.empty)));
      reflexivity.
  - apply (proj1 (proj2 (proj2 (CreditLimitHandler_UpdateUsedAmount_answers
                                  Examples.server 100%N (f64.of_int 5000)
                                  (Examples.store 1 100000 96800))))
             (CreditLimit.mk 100%N 1%N 1 (f64.of_int 100000) (f64.of_int 96800)));
      reflexivity.
  - apply (proj2 (proj2 (proj2 (CreditLimitHandler_UpdateUsedAmount_answers
                                  Examples.server 100%N (f64.of_int (-96801))
                                  (Examples.store 1 100000 96800))))
             (CreditLimit.mk 100%N 1%N 1 (f64.of_int 100000) (f64.of_int 96800)));
      reflexivity.
Defined.

(** An amount too small to change the sum is not counted: on an
    allocation used to its limit of 90000, a reservation of 2^-40 is
    answered 200. *)
Example CreditLimitHandler_UpdateUsedAmount_absorbs :
  handler.CreditLimitHandler.UpdateUsedAmount (creditLimits Examples.server)
    (Some 100%N) (Some (S754_finite false 1 (-40))) (Examples.store 1 90000 90000)
  = (Examples.store 1 90000 90000, 200).
Proof. vm_compute. reflexivity. Qed.

(** ** Contracts and schedules are kept *)

Lemma ledger_operations_leave_contracts (srv : Server) (o : operation) (db : DB) :
  match o with
  | Issue _ _ | SetStatus _ _ => True
  | _ =>
      transactions (perform srv o db) = transactions db
      /\ transaction_details (perform srv o db) = transaction_details db
  end.
Proof.
  destruct o as [rt req | id amount | id | rt req | id status]; simpl; auto.
  - unfold service.creditLimitService.Create.
    destruct (CreateCreditLimitRequest.Validate req); [| simpl; auto].
    open_ledger.
    destruct (First CreditLimit.ID _ (credit_limits db)); [simpl; auto |].
    unfold repository.creditLimitRepository.Create, Transaction,
      insert_credit_limit.
    destruct (int32 _); cbn [negb]; [| simpl; auto].
    destruct (credit_limit_row srv _); [| simpl; auto].
    destruct (has_id CreditLimit.ID _ (credit_limits db)); [simpl; auto |].
    destruct (has_id Customer.ID _ (customers db)); simpl; auto.
  - unfold service.creditLimitService.UpdateUsedAmount.
    destruct (f64.eqb amount f64.zero); [simpl; auto |]. open_ledger.
    destruct (First CreditLimit.ID _ (credit_limits db)) as [l |];
      [| simpl; auto].
    destruct (f64.ltb amount f64.zero
              && f64.ltb (f64.add (CreditLimit.UsedAmount l) amount) f64.zero);
      [simpl; auto |].
    destruct (f64.gtb amount f64.zero
              && f64.gtb (f64.add (CreditLimit.UsedAmount l) amount)
                   (CreditLimit.LimitAmount l));
      [simpl; auto |].
    destruct (repository.creditLimitRepository.UpdateUsedAmount srv id amount db)
      as [db2 o] eqn:H.
    apply creditLimitRepository_UpdateUsedAmount_outcome in H.
    assert (transactions db2 = transactions db
            /\ transaction_details db2 = transaction_details db) as Hgoal
      by (destruct H as [-> | [l2 [row [_ [_ [_ [_ ->]]]]]]]; simpl; auto).
    destruct o; exact Hgoal.
  - unfold service.creditLimitService.Delete. open_ledger.
    destruct (First CreditLimit.ID _ (credit_limits db)) as [l |] eqn:Hl;
      [| simpl; auto].
    destruct (f64.gtb (CreditLimit.UsedAmount l) f64.zero); [simpl; auto |].
    unfold repository.creditLimitRepository.Delete, Transaction. rewrite Hl.
    destruct (f64.gtb (CreditLimit.UsedAmount l) f64.zero); simpl; auto.
Qed.

(** What one operation does to the contracts: their terms stay, or one
    contract with a new key and a number that the server takes for new
    is appended; installments are only ever appended. *)
Lemma perform_contracts (srv : Server) (o : operation) (db : DB) :
  (map terms (transactions (perform srv o db)) = map terms (transactions db)
   \/ exists c,
       transactions (perform srv o db) = transactions db ++ [c]
       /\ has_id Transaction.ID (Transaction.ID c) (transactions db) = false
       /\ existsb (fun r => same srv (Transaction.ContractNumber r)
                              (Transaction.ContractNumber c))
            (transactions db) = false)
  /\ exists more,
      transaction_details (perform srv o db) = transaction_details db ++ more.
Proof.
  pose proof (ledger_operations_leave_contracts srv o db) as Hframe.
  destruct o as [rt req | id amount | id | rt req | id status];
    try (destruct Hframe as [HT HD]; rewrite HT, HD; split;
         [now left | exists []; now rewrite app_nil_r]).
  - simpl.
    destruct (service.transactionService.Create (transactions_svc srv) rt req db)
      as [db' r] eqn:H.
    simpl. apply Create_outcome in H.
    destruct H as [[-> _] | H];
      [split; [now left | exists []; now rewrite app_nil_r] |].
    destruct H as [customer [asset [cl [db5 [o H]]]]].
    destruct H as [_ [_ [_ [_ [_ [_ [_ [H5 [H6 _]]]]]]]]].
    apply transactionRepository_Create_commits in H5.
    destruct H5 as [l [ins [tx1 [tx2 [row1 [_ [_ [E1 [_ [E3 [_ Hdb5]]]]]]]]]]].
    pose proof (insert_transaction_tables _ _ _ _ E1) as [_ [_ [_ D1]]].
    apply insert_transaction_appends in E1.
    destruct E1 as [c [Hc [T1 [F1 N1]]]].
    apply transaction_row_Ok in Hc. destruct Hc as [C1 [_ [_ [C4 _]]]].
    apply insert_transaction_details_Ok in E3.
    destruct E3 as [_ [rows [_ [D3 [_ [_ [_ T3]]]]]]].
    apply creditLimitRepository_UpdateUsedAmount_outcome in H6.
    assert (transactions db' = transactions db5
            /\ transaction_details db' = transaction_details db5) as [HT HD]
      by (destruct H6 as [-> | [l2 [row2 [_ [_ [_ [_ ->]]]]]]]; simpl; auto).
    rewrite HT, HD. subst db5. simpl. split.
    + right. exists c. rewrite T3, T1, C1, C4. auto.
    + exists rows. now rewrite D3, D1.
  - simpl. unfold service.transactionService.UpdateStatus.
    destruct (TransactionStatus.IsValid status) eqn:Hv; cbn [negb];
      [| simpl; split; [now left | exists []; now rewrite app_nil_r]].
    open_coordinator.
    destruct (First Transaction.ID _ (transactions db)) as [t |] eqn:Ht;
      [| simpl; split; [now left | exists []; now rewrite app_nil_r]].
    cbn [TransactionRepository.UpdateStatus repository.transactionRepository.repo].
    unfold repository.transactionRepository.UpdateStatus, Transaction.
    cbv beta iota. rewrite Ht. unfold update_transaction_status.
    destruct (IsValid_column srv status Hv) as [-> ->]. simpl.
    split; [left | exists []; now rewrite app_nil_r].
    rewrite map_map. apply map_ext. intro r.
    now destruct (Transaction.ID r =? Transaction.ID t)%N.
Qed.

(** X15.  No sequence of operations deletes a contract or changes its
    terms (identifier, customer, asset, number, principal, fee, interest,
    duration, installment amount), and none deletes or changes an
    installment: the terms of the stored contracts and the stored
    installments are extended at the end, never rewritten. *)
Theorem contracts_and_schedules_are_kept
  (srv : Server) (ops : list operation) (db : DB) :
  (exists more,
     map terms (transactions (run srv ops db))
     = map terms (transactions db) ++ more)
  /\ (exists more,
        transaction_details (run srv ops db) = transaction_details db ++ more).
Proof.
  revert db. induction ops as [| o ops IH]; intro db; simpl.
  - split; exists []; now rewrite app_nil_r.
  - destruct (IH (perform srv o db)) as [[m1 H1] [m2 H2]].
    destruct (perform_contracts srv o db) as [HT [m3 HD]].
    fold (run srv ops (perform srv o db)). split.
    + rewrite H1. destruct HT as [-> | [c [-> _]]]; [now exists m1 |].
      exists (terms c :: m1). rewrite map_app, <- app_assoc. reflexivity.
    + rewrite H2, HD. exists (m3 ++ m2). now rewrite app_assoc.
Qed.

Lemma existsb_number_false (srv : Server) (rows : list Transaction.t)
  (number : string) :
  existsb (fun r => same srv (Transaction.ContractNumber r) number) rows = false ->
  ~ In number (map Transaction.ContractNumber rows).
Proof.
  intros H Hin. apply in_map_iff in Hin. destruct Hin as [r [Hr Hin]].
  assert (existsb (fun r => same srv (Transaction.ContractNumber r) number) rows
          = true) as E.
  { apply existsb_exists. exists r. split; [exact Hin |].
    unfold same. now rewrite Hr, String.eqb_refl. }
  congruence.
Qed.

Lemma has_transaction_id_false (rows : list Transaction.t) (id : UUID) :
  has_id Transaction.ID id rows = false -> ~ In id (map Transaction.ID rows).
Proof.
  unfold has_id. intros H Hin. apply in_map_iff in Hin.
  destruct Hin as [r [Hr Hin]].
  assert (existsb (fun r => (Transaction.ID r =? id)%N) rows = true) as E.
  { apply existsb_exists. exists r. split; [exact Hin |]. now apply N.eqb_eq. }
  congruence.
Qed.

Lemma map_terms_numbers (rows rows' : list Transaction.t) :
  map terms rows = map terms rows' ->
  map Transaction.ContractNumber rows = map Transaction.ContractNumber rows'
  /\ map Transaction.ID rows = map Transaction.ID rows'.
Proof.
  intro H. split.
  - assert (forall l, map Transaction.ContractNumber l
                      = map (fun p => match p with
                                      | (_, _, _, n, _, _, _, _, _) => n
                                      end) (map terms l)) as E
      by (intro l; rewrite map_map; reflexivity).
    now rewrite (E rows), (E rows'), H.
  - assert (forall l, map Transaction.ID l
                      = map (fun p => match p with
                                      | (i, _, _, _, _, _, _, _, _) => i
                                      end) (map terms l)) as E
      by (intro l; rewrite map_map; reflexivity).
    now rewrite (E rows), (E rows'), H.
Qed.

(** X16.  In a store in which no two contracts share a number or an
    identifier, no sequence of operations produces two contracts with
    the same number or the same identifier. *)
Theorem contract_numbers_stay_unique
  (srv : Server) (ops : list operation) (db : DB) :
  contracts_unique db -> contracts_unique (run srv ops db).
Proof.
  revert db. induction ops as [| o ops IH]; intros db Hu; simpl; [exact Hu |].
  apply IH. destruct Hu as [Hn Hi].
  destruct (perform_contracts srv o db) as [[HT | [c [HT [Hid Hnum]]]] _].
  - apply map_terms_numbers in HT. destruct HT as [E1 E2].
    unfold contracts_unique. now rewrite E1, E2.
  - unfold contracts_unique. rewrite HT, !map_app. simpl. split.
    + apply NoDup_app; [exact Hn | constructor; [intros [] | constructor] |].
      intros a Ha [<- | []]. now apply (existsb_number_false _ _ _ Hnum).
    + apply NoDup_app; [exact Hi | constructor; [intros [] | constructor] |].
      intros a Ha [<- | []]. now apply (has_transaction_id_false _ _ Hid).
Qed.

Lemma contract_numbers_stay_unique_witness :
  contracts_unique
    (run Examples.server
       [Issue (Examples.clock 2024 1 15) Examples.request6;
        Issue (Examples.clock 2024 2 15) Examples.request6;
        SetStatus 1000%N "active"]
       (Examples.store 6 1000000 0)).
Proof.
  apply (contract_numbers_stay_unique Examples.server
           [Issue (Examples.clock 2024 1 15) Examples.request6;
            Issue (Examples.clock 2024 2 15) Examples.request6;
            SetStatus 1000%N "active"]
           (Examples.store 6 1000000 0)).
  split; constructor.
Defined.

(** ** Listing the contracts of a customer: the page filter *)

Lemma wrap_small (z : Z) :
  - 2 ^ 63 <= z < 2 ^ 63 -> TransactionFilterRequest.wrap z = z.
Proof.
  intro H. unfold TransactionFilterRequest.wrap.
  rewrite Z.mod_small by lia. lia.
Qed.

(** X19.  A page filter that passes validation, with a page number for
    which the offset fits into an [int] (at most 92233720368547758), is
    turned into a query whose limit is the page size, between 1 and 100,
    and whose offset is not negative: zero for the first page and growing
    by exactly one page size from a page to the next; its status is empty
    or one of pending, active, completed. *)
Theorem TransactionFilterRequest_pages (r : TransactionFilterRequest.t) :
  TransactionFilterRequest.Validate r = [] ->
  TransactionFilterRequest.Page r < 92233720368547758 ->
  1 <= TransactionFilterRepository.Limit
         (TransactionFilterRequest.ToTransactionFilterRepo r) <= 100
  /\ 0 <= TransactionFilterRepository.Offset
            (TransactionFilterRequest.ToTransactionFilterRepo r)
  /\ (TransactionFilterRequest.Page r = 1 ->
      TransactionFilterRepository.Offset
        (TransactionFilterRequest.ToTransactionFilterRepo r) = 0)
  /\ TransactionFilterRepository.Offset
       (TransactionFilterRequest.ToTransactionFilterRepo
          (TransactionFilterRequest.mk (TransactionFilterRequest.Status r)
             (TransactionFilterRequest.Page r + 1)
             (TransactionFilterRequest.PerPage r)))
     = TransactionFilterRepository.Offset
         (TransactionFilterRequest.ToTransactionFilterRepo r)
       + TransactionFilterRepository.Limit
           (TransactionFilterRequest.ToTransactionFilterRepo r)
  /\ (TransactionFilterRepository.Status
        (TransactionFilterRequest.ToTransactionFilterRepo r) = ""
      \/ TransactionStatus.IsValid
           (TransactionFilterRepository.Status
              (TransactionFilterRequest.ToTransactionFilterRepo r)) = true).
Proof.
  destruct r as [status page perPage].
  unfold TransactionFilterRequest.Validate,
    TransactionFilterRequest.ToTransactionFilterRepo.
  cbn [TransactionFilterRequest.Status TransactionFilterRequest.Page
       TransactionFilterRequest.PerPage TransactionFilterRepository.Limit
       TransactionFilterRepository.Offset TransactionFilterRepository.Status].
  destruct (Z.ltb_spec page 1); [discriminate |].
  destruct (Z.ltb_spec perPage 1); [discriminate |].
  destruct (Z.ltb_spec 100 perPage); [discriminate |].
  intros Hst Hpage.
  assert (2 ^ 63 = 9223372036854775808) as P63 by reflexivity.
  rewrite (wrap_small (page - 1)) by lia.
  rewrite (wrap_small (page + 1 - 1)) by lia.
  rewrite (wrap_small ((page - 1) * perPage)) by nia.
  rewrite (wrap_small ((page + 1 - 1) * perPage)) by nia.
  split; [lia |]. split; [nia |]. split; [intros ->; lia |]. split; [nia |].
  destruct (String.eqb_spec status "") as [Es | Es]; [now left | right].
  cbn [negb andb app] in Hst.
  now destruct (TransactionStatus.IsValid status).
Qed.

Lemma TransactionFilterRequest_pages_witness :
  TransactionFilterRepository.Offset
    (TransactionFilterRequest.ToTransactionFilterRepo
       (TransactionFilterRequest.mk "active" 4 25))
  = TransactionFilterRepository.Offset
      (TransactionFilterRequest.ToTransactionFilterRepo
         (TransactionFilterRequest.mk "active" 3 25))
    + TransactionFilterRepository.Limit
        (TransactionFilterRequest.ToTransactionFilterRepo
           (TransactionFilterRequest.mk "active" 3 25)).
Proof.
  apply (proj1 (proj2 (proj2 (proj2
           (TransactionFilterRequest_pages
              (TransactionFilterRequest.mk "active" 3 25) eq_refl eq_refl))))).
Defined.

(** Beyond that page number the offset wraps around and is negative,
    although the filter passes validation. *)
Example TransactionFilterRequest_offset_wraps :
  TransactionFilterRequest.Validate
    (TransactionFilterRequest.mk "" 92233720368547760 100) = []
  /\ TransactionFilterRepository.Offset
       (TransactionFilterRequest.ToTransactionFilterRepo
          (TransactionFilterRequest.mk "" 92233720368547760 100))
     = - 9223372036854775716.
Proof. split; reflexivity. Qed.

(** ** Listing the allocations of a customer *)
Lemma insert_by_tenor_permutation (l : CreditLimit.t) (rows : list CreditLimit.t) :
  Permutation (repository.creditLimitRepository.insert_by_tenor l rows) (l :: rows).
Proof.
  induction rows as [| x rows IH]; simpl; [apply Permutation_refl |].
  destruct (CreditLimit.TenorMonth l <=? CreditLimit.TenorMonth x);
    [apply Permutation_refl |].
  eapply Permutation_trans; [apply perm_skip; exact IH | apply perm_swap].
Qed.

Lemma insert_by_tenor_sorted (l : CreditLimit.t) (rows : list CreditLimit.t) :
  Sorted tenor_le rows ->
  Sorted tenor_le (repository.creditLimitRepository.insert_by_tenor l rows).
Proof.
  induction rows as [| x rows IH]; simpl; intro Hs.
  - constructor; constructor.
  - destruct (Z.leb_spec (CreditLimit.TenorMonth l) (CreditLimit.TenorMonth x)).
    + constructor; [exact Hs |]. constructor. exact H.
    + inversion Hs as [| ? ? Hs' Hhd]. subst.
      constructor; [now apply IH |].
      destruct rows as [| y rows]; simpl.
      * constructor. unfold tenor_le. lia.
      * destruct (CreditLimit.TenorMonth l <=? CreditLimit.TenorMonth y);
          constructor; [unfold tenor_le; lia |].
        now inversion Hhd.
Qed.

Lemma order_by_tenor_sorted_permutation (rows : list CreditLimit.t) :
  Permutation (repository.creditLimitRepository.order_by_tenor rows) rows
  /\ Sorted tenor_le (repository.creditLimitRepository.order_by_tenor rows).
Proof.
  unfold repository.creditLimitRepository.order_by_tenor.
  induction rows as [| r rows [IHp IHs]]; simpl.
  - split; constructor.
  - split; [| now apply insert_by_tenor_sorted].
    eapply Permutation_trans; [apply insert_by_tenor_permutation |].
    now apply perm_skip.
Qed.

(** X20.  Listing the allocations of a customer never fails on the
    MySQL repository and returns the responses of exactly that customer's
    allocations, each of them once, in ascending order of duration; the
    store is unchanged. *)
Theorem creditLimitService_GetAllByCustomerID_sorted (customerID : UUID) (db : DB) :
  exists limits,
    service.creditLimitService.GetAllByCustomerID
      repository.creditLimitRepository.GetAllByCustomerID customerID db
    = (db, Ok (map service.creditLimitService.toResponse limits))
    /\ Permutation limits
         (filter (fun l => (CreditLimit.CustomerID l =? customerID)%N)
            (credit_limits db))
    /\ Sorted tenor_le limits
    /\ Sorted Z.le
         (map CreditLimitResponse.TenorMonth
            (map service.creditLimitService.toResponse limits)).
Proof.
  unfold service.creditLimitService.GetAllByCustomerID,
    repository.creditLimitRepository.GetAllByCustomerID.
  eexists. split; [reflexivity |].
  destruct (order_by_tenor_sorted_permutation
              (filter (fun l => (CreditLimit.CustomerID l =? customerID)%N)
                 (credit_limits db))) as [Hp Hs].
  split; [exact Hp |]. split; [exact Hs |].
  rewrite map_map. cbn [service.creditLimitService.toResponse
                        CreditLimitResponse.TenorMonth].
  clear Hp. induction Hs as [| x xs Hs IH Hhd]; simpl; constructor;
    [exact IH |].
  destruct Hhd; simpl; constructor. assumption.
Qed.

(** Allocations stored out of order are listed in order. *)
Example GetAllByCustomerID_orders :
  repository.creditLimitRepository.GetAllByCustomerID 1%N
    (mkDB [Customer.mk 1%N true; Customer.mk 2%N true] []
       [CreditLimit.mk 5%N 1%N 6 (f64.of_int 700000) f64.zero;
        CreditLimit.mk 6%N 2%N 1 (f64.of_int 100000) f64.zero;
        CreditLimit.mk 7%N 1%N 1 (f64.of_int 100000) f64.zero;
        CreditLimit.mk 8%N 1%N 3 (f64.of_int 500000) f64.zero]
       [] [])
  = (mkDB [Customer.mk 1%N true; Customer.mk 2%N true] []
       [CreditLimit.mk 5%N 1%N 6 (f64.of_int 700000) f64.zero;
        CreditLimit.mk 6%N 2%N 1 (f64.of_int 100000) f64.zero;
        CreditLimit.mk 7%N 1%N 1 (f64.of_int 100000) f64.zero;
        CreditLimit.mk 8%N 1%N 3 (f64.of_int 500000) f64.zero]
       [] [],
     Ok [CreditLimit.mk 7%N 1%N 1 (f64.of_int 100000) f64.zero;
         CreditLimit.mk 8%N 1%N 3 (f64.of_int 500000) f64.zero;
         CreditLimit.mk 5%N 1%N 6 (f64.of_int 700000) f64.zero]).
Proof. reflexivity. Qed.

(** ** The issuance transaction commits a schedule *)

(** X25.  The issuance transaction never commits a contract without a
    schedule: whenever it commits, the duration is at least one month and
    as many installments as the duration has months were appended. *)
Theorem transactionRepository_Create_commits_a_schedule
  (srv : Server) (rt : Runtime) (transaction : Transaction.t) (db db' : DB) :
  repository.transactionRepository.Create srv rt transaction db = (db', None) ->
  1 <= Transaction.TenorMonth transaction
  /\ exists installments,
      transaction_details db' = transaction_details db ++ installments
      /\ Z.of_nat (List.length installments) = Transaction.TenorMonth transaction
      /\ Forall (fun d => TransactionDetail.TransactionID d
                          = Transaction.ID transaction)
           installments.
Proof.
  intro H. apply transactionRepository_Create_commits in H.
  destruct H as [l [ins [tx1 [tx2 [row [_ [_ [E1 [E2 [E3 [_ ->]]]]]]]]]]].
  pose proof (insert_transaction_tables _ _ _ _ E1) as [_ [_ [_ D1]]].
  apply insert_transaction_details_Ok in E3.
  destruct E3 as [Hne [rows [Hw [D3 _]]]].
  unfold repository.transactionRepository.generateInstallments in E2.
  destruct (Z.ltb_spec (Transaction.TenorMonth transaction) 0); [discriminate |].
  inversion E2 as [Hins]. clear E2.
  assert (List.length ins = Z.to_nat (Transaction.TenorMonth transaction)) as Hlen
    by (rewrite <- Hins; apply installments_from_length).
  split; [destruct ins; [now destruct Hne | simpl in Hlen; lia] |].
  exists rows. simpl. rewrite D3, D1.
  split; [reflexivity |].
  split; [rewrite (written_length _ _ _ Hw); lia |].
  apply (written_Forall srv ins rows
           (fun _ tid _ _ => tid = Transaction.ID transaction) Hw).
  rewrite <- Hins. eapply Forall_impl; [| apply installments_from_flat].
  simpl. tauto.
Qed.

Lemma transactionRepository_Create_commits_a_schedule_witness :
  exists db',
    repository.transactionRepository.Create Examples.server
      (Examples.clock 2024 1 15) (Examples.contract 1) (Examples.store 1 100000 0)
    = (db', None)
    /\ 1 <= Transaction.TenorMonth (Examples.contract 1).
Proof.
  destruct (repository.transactionRepository.Create Examples.server
              (Examples.clock 2024 1 15) (Examples.contract 1)
              (Examples.store 1 100000 0))
    as [db' o] eqn:E.
  assert (o = None) as -> by (vm_compute in E; now inversion E).
  exists db'. split; [reflexivity |].
  apply (proj1 (transactionRepository_Create_commits_a_schedule _ _ _ _ _ E)).
Defined.

(** A contract of zero months is refused and nothing is stored. *)
Example transactionRepository_Create_zero_months :
  repository.transactionRepository.Create Examples.server
    (Examples.clock 2024 1 15) (Examples.contract 0) (Examples.store 0 100000 0)
  = (Examples.store 0 100000 0,
     Some (Wrapf "failed to create transaction details" ErrEmptySlice)).
Proof. vm_compute. reflexivity. Qed.

(** ** The status endpoint *)

(** X27.  The status endpoint, for a request that parses.  A status
    outside the enumeration is answered 400, also when the contract does
    not exist; a status of the enumeration for a contract that is not
    stored 404; in both cases the store is unchanged.  For a stored
    contract the answer is 200 and the contract then carries the new
    status with all its terms as before. *)
Theorem TransactionHandler_UpdateStatus_answers
  (srv : Server) (id : UUID) (status : TransactionStatus) (db : DB) :
  (TransactionStatus.IsValid status = false ->
   handler.TransactionHandler.UpdateStatus (transactions_svc srv) (Some id)
     (Some status) db = (db, 400))
  /\ (TransactionStatus.IsValid status = true ->
      (transaction_by_id id db = None ->
       handler.TransactionHandler.UpdateStatus (transactions_svc srv) (Some id)
         (Some status) db = (db, 404))
      /\ (forall t, transaction_by_id id db = Some t ->
          exists db' t',
            handler.TransactionHandler.UpdateStatus (transactions_svc srv) (Some id)
              (Some status) db = (db', 200)
            /\ transaction_by_id id db' = Some t'
            /\ Transaction.Status t' = status
            /\ terms t' = terms t)).
Proof.
  unfold handler.TransactionHandler.UpdateStatus,
    service.transactionService.UpdateStatus.
  split; intro Hv; rewrite Hv; [reflexivity |]. cbn [negb].
  open_coordinator.
  cbn [TransactionRepository.UpdateStatus repository.transactionRepository.repo].
  unfold transaction_by_id. split; [intros ->; reflexivity |].
  intros t Ht. rewrite Ht.
  unfold repository.transactionRepository.UpdateStatus, Transaction.
  cbv beta iota. rewrite Ht. unfold update_transaction_status.
  destruct (IsValid_column srv status Hv) as [-> ->]. cbn [negb].
  eexists. eexists. split; [reflexivity |].
  cbn [transactions]. rewrite First_map.
  - rewrite Ht. cbn [option_map]. rewrite N.eqb_refl.
    split; [reflexivity |]. split; reflexivity.
  - intro r. now destruct (Transaction.ID r =? Transaction.ID t)%N.
  - intro r. now destruct (Transaction.ID r =? Transaction.ID t)%N.
Qed.

Lemma TransactionHandler_UpdateStatus_answers_witness :
  handler.TransactionHandler.UpdateStatus (transactions_svc Examples.server)
    (Some 8%N) (Some "cancelled") Examples.completed_store
  = (Examples.completed_store, 400)
  /\ handler.TransactionHandler.UpdateStatus (transactions_svc Examples.server)
       (Some 8%N) (Some "active") Examples.completed_store
     = (Examples.completed_store, 404).
Proof.
  split.
  - apply (proj1 (TransactionHandler_UpdateStatus_answers Examples.server 8%N
                    "cancelled" Examples.completed_store)).
    reflexivity.
  - apply (proj1 (proj2 (TransactionHandler_UpdateStatus_answers Examples.server
                           8%N "active" Examples.completed_store) eq_refl)).
    reflexivity.
Defined.

(** ** Issuance: when it succeeds *)

Lemma filter_nil_existsb {A : Type} (cond : A -> bool) (rows : list A) :
  filter cond rows = [] -> existsb cond rows = false.
Proof.
  induction rows as [| r rows IH]; simpl; [reflexivity |].
  destruct (cond r); [discriminate | exact IH].
Qed.

Lemma First_Some_has_id {A : Type} (key : A -> UUID) (id : UUID)
  (rows : list A) (r : A) :
  First key (fun x => (key x =? id)%N) rows = Some r ->
  has_id key id rows = true.
Proof.
  intro H. apply First_In in H. destruct H as [Hin Hr].
  unfold has_id. apply existsb_exists. exists r. auto.
Qed.

Lemma has_id_app_new {A : Type} (key : A -> UUID) (id : UUID)
  (rows : list A) (r : A) :
  has_id key id rows = false -> key r <> id ->
  has_id key id (rows ++ [r]) = false.
Proof.
  unfold has_id. intros H Hne. rewrite existsb_app, H. simpl.
  destruct (N.eqb_spec (key r) id); [contradiction | reflexivity].
Qed.

Lemma insert_rows_succeeds (srv : Server) (ds : list TransactionDetail.t)
  (db : DB) :
  NoDup (map TransactionDetail.ID ds) ->
  Forall (fun d =>
            int32 (TransactionDetail.InstallmentNumber d) = true
            /\ TransactionDetail.Status d = TransactionDetailStatusPending
            /\ Decimal srv (TransactionDetail.Amount d) <> None
            /\ times_accepted srv d
            /\ has_id TransactionDetail.ID (TransactionDetail.ID d)
                 (transaction_details db) = false
            /\ has_id Transaction.ID (TransactionDetail.TransactionID d)
                 (transactions db) = true)
    ds ->
  exists db', insert_rows srv ds db = Ok db'.
Proof.
  revert db. induction ds as [| d ds IH]; intros db Hnd Hall; simpl.
  - now exists db.
  - inversion Hnd as [| ? ? Hnotin Hnd']. subst.
    inversion Hall as [| ? ? [Hn [Hst [Ha [[Hd [Hc Hu]] [Hfresh Hfk]]]]] Hall'].
    subst.
    unfold insert_transaction_detail, transaction_detail_row.
    rewrite Hn, Hst, Hfresh, Hfk. cbn [negb].
    change (20 <? utf8.RuneCount TransactionDetailStatusPending) with false.
    cbv iota.
    destruct (Decimal srv (TransactionDetail.Amount d)); [| contradiction].
    destruct (Date srv (TransactionDetail.DueDate d)); [| contradiction].
    destruct (Timestamp srv (TransactionDetail.CreatedAt d)); [| contradiction].
    destruct (Timestamp srv (TransactionDetail.UpdatedAt d)); [| contradiction].
    assert (status_in srv TransactionDetailStatusPending
              [TransactionDetailStatusPending; TransactionDetailStatusPaid;
               TransactionDetailStatusOverdue] = true) as ->
      by (unfold status_in, same; simpl; reflexivity).
    cbn [negb]. apply IH; [exact Hnd' |].
    apply Forall_forall. intros x Hx.
    rewrite Forall_forall in Hall'.
    destruct (Hall' x Hx) as [Xn [Xst [Xa [Xt [Xf Xk]]]]].
    cbn [transaction_details transactions]. repeat split; auto; try apply Xt.
    apply has_id_app_new; [exact Xf |].
    cbn [TransactionDetail.ID].
    intro E. apply Hnotin. rewrite E. now apply in_map.
Qed.

Lemma installments_from_ids (rt : Runtime) (transaction : Transaction.t)
  (n : nat) (i : Z) (due : gotime.Time) :
  map TransactionDetail.ID
    (repository.transactionRepository.installments_from (advance rt 2 1)
       transaction n i due)
  = map (fun k => NewUUID rt (i + Z.of_nat k)) (seq 1 n).
Proof.
  revert i due. induction n as [| n IH]; intros i due; [reflexivity |].
  cbn [repository.transactionRepository.installments_from map
       TransactionDetail.ID seq advance NewUUID].
  f_equal; try (f_equal; lia).
  rewrite IH, <- (seq_shift n 1), map_map.
  apply map_ext. intro k. f_equal. lia.
Qed.

(** X26.  Issuance succeeds whenever the request is valid with a
    contract number of at most 50 characters that the server takes for
    new, the customer is active, the asset exists, the customer has an
    allocation for the duration, the three capacity checks pass in
    [float64] (the total against limit - used; used + price against the
    limit; and, on the row the issuance transaction has written, used +
    total against the limit), the server takes every amount, date and
    timestamp into its columns, and the identifiers drawn for the
    contract and for its installments are new and pairwise different. *)
Theorem Create_succeeds
  (srv : Server) (rt : Runtime) (req : CreateTransactionRequest.t) (db : DB)
  (customer : Customer.t) (asset : Asset.t) (creditLimit : CreditLimit.t)
  (limit1 used1 limit2 used2 : float64) :
  CreateTransactionRequest.Validate req = [] ->
  utf8.RuneCount (CreateTransactionRequest.ContractNumber req) <= 50 ->
  transaction_by_number srv (CreateTransactionRequest.ContractNumber req) db
  = None ->
  customer_by_id (CreateTransactionRequest.CustomerID req) db = Some customer ->
  Customer.IsActive customer = true ->
  asset_by_id (CreateTransactionRequest.AssetID req) db = Some asset ->
  credit_limit_for (CreateTransactionRequest.CustomerID req)
    (CreateTransactionRequest.TenorMonth req) db = Some creditLimit ->
  f64.gtb (service.transactionService.totalAmount (Asset.Price asset) req)
    (f64.sub (CreditLimit.LimitAmount creditLimit)
       (CreditLimit.UsedAmount creditLimit)) = false ->
  f64.gtb (f64.add (CreditLimit.UsedAmount creditLimit) (Asset.Price asset))
    (CreditLimit.LimitAmount creditLimit) = false ->
  Decimal srv (CreditLimit.LimitAmount creditLimit) = Some limit1 ->
  Decimal srv (f64.add (CreditLimit.UsedAmount creditLimit) (Asset.Price asset))
  = Some used1 ->
  f64.gtb (f64.add used1
             (service.transactionService.totalAmount (Asset.Price asset) req))
    limit1 = false ->
  Decimal srv limit1 = Some limit2 ->
  Decimal srv (f64.add used1
                 (service.transactionService.totalAmount (Asset.Price asset) req))
  = Some used2 ->
  Decimal srv (Asset.Price asset) <> None ->
  Decimal srv (CreateTransactionRequest.AdminFee req) <> None ->
  Decimal srv (service.transactionService.interestAmount (Asset.Price asset) req)
  <> None ->
  Decimal srv (service.transactionService.installmentAmount (Asset.Price asset) req)
  <> None ->
  (forall installments,
     repository.transactionRepository.generateInstallments (advance rt 2 1)
       (contract_of rt req (Asset.Price asset)) = Some installments ->
     Forall (times_accepted srv) installments) ->
  has_id Transaction.ID (NewUUID rt 0) (transactions db) = false ->
  NoDup (map (fun k => NewUUID rt (Z.of_nat k))
           (seq 1 (Z.to_nat (CreateTransactionRequest.TenorMonth req)))) ->
  Forall (fun k => has_id TransactionDetail.ID (NewUUID rt (Z.of_nat k))
                     (transaction_details db) = false)
    (seq 1 (Z.to_nat (CreateTransactionRequest.TenorMonth req))) ->
  exists db' response,
    service.transactionService.Create (transactions_svc srv) rt req db
    = (db', Ok response).
Proof.
  intros Hv Hlen Hn Hc Ha Hs Hl Hpre Hcap1 Hlimit1 Hused1 Hcap2 Hlimit2 Hused2
    Dp Df Di Dm Htimes Hid Hnd Hfresh.
  pose proof (CreateTransactionRequest_Validate_tenor _ Hv) as Ht.
  pose proof (isValidTenor_positive _ Ht) as Hpos.
  pose proof (proj1 (isValidTenor_iff _) Ht) as Hsix.
  set (c := contract_of rt req (Asset.Price asset)) in *.
  (* the contract row *)
  assert (exists row, transaction_row srv c = Ok row) as [row Hrow].
  { unfold transaction_row.
    cbn [c contract_of Transaction.ContractNumber Transaction.Status
         Transaction.TenorMonth Transaction.OTRAmount Transaction.AdminFee
         Transaction.InterestAmount Transaction.InstallmentAmount].
    destruct (Z.ltb_spec 50
                (utf8.RuneCount (CreateTransactionRequest.ContractNumber req)));
      [lia |].
    change (20 <? utf8.RuneCount TransactionStatusPending) with false.
    cbv iota. rewrite (isValidTenor_int32 _ Ht). cbn [negb].
    destruct (Decimal srv (Asset.Price asset)); [| contradiction].
    destruct (Decimal srv (CreateTransactionRequest.AdminFee req));
      [| contradiction].
    destruct (Decimal srv (service.transactionService.interestAmount _ req));
      [| contradiction].
    destruct (Decimal srv (service.transactionService.installmentAmount _ req));
      [| contradiction].
    eexists. reflexivity. }
  pose proof (transaction_row_Ok _ _ _ Hrow) as [R1 _].
  assert (exists tx1, insert_transaction srv c db = Ok tx1) as [tx1 E1].
  { unfold insert_transaction. rewrite Hrow.
    cbn [c contract_of Transaction.ID Transaction.ContractNumber
         Transaction.CustomerID Transaction.AssetID Transaction.Status].
    rewrite Hid.
    unfold transaction_by_number in Hn. apply First_None in Hn.
    rewrite (filter_nil_existsb _ _ Hn).
    rewrite (First_Some_has_id Customer.ID _ _ _ Hc).
    rewrite (First_Some_has_id Asset.ID _ _ _ Hs). cbn [negb].
    destruct (IsValid_column srv TransactionStatusPending eq_refl) as [_ ->].
    cbn [negb]. eexists. reflexivity. }
  pose proof (insert_transaction_tables _ _ _ _ E1) as [C1 [A1 [L1 D1]]].
  pose proof (insert_transaction_appends _ _ _ _ E1) as [row' [Hrow' [T1 _]]].
  assert (row' = row) as -> by congruence. clear Hrow'.
  (* the installments *)
  set (ins := repository.transactionRepository.installments_from (advance rt 2 1)
                c (Z.to_nat (CreateTransactionRequest.TenorMonth req)) 0
                (Now (advance rt 2 1) 0)).
  assert (repository.transactionRepository.generateInstallments (advance rt 2 1) c
          = Some ins) as E2.
  { unfold repository.transactionRepository.generateInstallments.
    cbn [c contract_of Transaction.TenorMonth].
    destruct (Z.ltb_spec (CreateTransactionRequest.TenorMonth req) 0);
      [lia | reflexivity]. }
  specialize (Htimes ins E2).
  assert (exists tx2, insert_transaction_details srv ins tx1 = Ok tx2) as [tx2 E3].
  { assert (exists tx2, insert_rows srv ins tx1 = Ok tx2) as [tx2 E].
    { apply insert_rows_succeeds.
      - unfold ins. rewrite installments_from_ids. exact Hnd.
      - apply Forall_forall. intros d Hd.
        pose proof (installments_from_flat (advance rt 2 1) c
                      (Z.to_nat (CreateTransactionRequest.TenorMonth req)) 0
                      (Now (advance rt 2 1) 0)) as Hflat.
        rewrite Forall_forall in Hflat. fold ins in Hflat.
        destruct (Hflat d Hd) as [Hamt [Hst Htid]].
        rewrite Forall_forall in Htimes.
        split; [| split; [exact Hst | split; [| split; [now apply Htimes |]]]].
        + assert (In (TransactionDetail.InstallmentNumber d)
                    (map TransactionDetail.InstallmentNumber ins)) as Hin
            by (now apply in_map).
          unfold ins in Hin. rewrite installments_from_numbers in Hin.
          apply in_map_iff in Hin. destruct Hin as [k [Hk Hin]].
          apply in_seq in Hin. rewrite <- Hk. unfold int32.
          apply andb_true_iff. split; [apply Z.leb_le | apply Z.ltb_lt]; lia.
        + rewrite Hamt. exact Dm.
        + split.
          * rewrite D1.
            assert (In (TransactionDetail.ID d) (map TransactionDetail.ID ins))
              as Hin by (now apply in_map).
            unfold ins in Hin. rewrite installments_from_ids in Hin.
            apply in_map_iff in Hin. destruct Hin as [k [Hk Hin]].
            rewrite Forall_forall in Hfresh. rewrite <- Hk. now apply Hfresh.
          * rewrite Htid, T1. unfold has_id. rewrite existsb_app. simpl.
            rewrite R1. cbn [c contract_of Transaction.ID].
            rewrite N.eqb_refl. now rewrite orb_true_r. }
    exists tx2. unfold insert_transaction_details.
    destruct ins as [| d ds] eqn:Eins; [| exact E].
    apply (f_equal (@List.length _)) in Eins.
    unfold ins in Eins. rewrite installments_from_length in Eins.
    simpl in Eins. lia. }
  pose proof (insert_transaction_details_Ok _ _ _ _ E3)
    as [_ [rows [_ [_ [_ [_ [L3 T3]]]]]]].
  (* the issuance transaction *)
  set (row1 := CreditLimit.mk (CreditLimit.ID creditLimit)
                 (CreditLimit.CustomerID creditLimit)
                 (CreditLimit.TenorMonth creditLimit) limit1 used1).
  set (db5 := put_credit_limit row1 tx2).
  assert (repository.transactionRepository.Create srv (advance rt 2 1) c db
          = (db5, None)) as H5.
  { unfold repository.transactionRepository.Create, Transaction.
    change (First CreditLimit.ID _ (credit_limits db))
      with (credit_limit_for (CreateTransactionRequest.CustomerID req)
              (CreateTransactionRequest.TenorMonth req) db).
    rewrite Hl. cbn [c contract_of Transaction.OTRAmount]. rewrite Hcap1.
    fold c. rewrite E1, E2, E3.
    unfold save_credit_limit, credit_limit_row.
    cbn [CreditLimit.LimitAmount CreditLimit.UsedAmount CreditLimit.ID
         CreditLimit.CustomerID CreditLimit.TenorMonth].
    rewrite Hlimit1, Hused1. reflexivity. }
  (* the ledger update *)
  destruct (credit_limit_for_by_id _ _ _ _ Hl) as [r Hr0].
  assert (credit_limit_by_id (CreditLimit.ID creditLimit) db5 = Some row1) as Hl5.
  { apply (put_credit_limit_by_id r).
    - rewrite (credit_limit_by_id_tables _ db tx2) by congruence. exact Hr0.
    - simpl. symmetry. now apply (credit_limit_by_id_ID _ db). }
  set (total := service.transactionService.totalAmount (Asset.Price asset) req)
    in *.
  set (row2 := CreditLimit.mk (CreditLimit.ID creditLimit)
                 (CreditLimit.CustomerID creditLimit)
                 (CreditLimit.TenorMonth creditLimit) limit2 used2).
  assert (repository.creditLimitRepository.UpdateUsedAmount srv
            (CreditLimit.ID creditLimit) total db5
          = (put_credit_limit row2 db5, None)) as H6.
  { apply (creditLimitRepository_UpdateUsedAmount_applies srv _ _ _ row1 row2);
      [exact Hl5 | exact Hcap2 |].
    apply (credit_limit_row_of srv (committed row1 total)); assumption. }
  assert (transaction_by_id (NewUUID rt 0) (put_credit_limit row2 db5) = Some row)
    as H7.
  { unfold transaction_by_id, db5. cbn [transactions put_credit_limit].
    rewrite T3, T1.
    apply First_app_new; [now apply has_id_filter |].
    rewrite R1. apply N.eqb_refl. }
  (* the coordinator *)
  unfold service.transactionService.Create. rewrite Hv. open_coordinator.
  unfold transaction_by_number, customer_by_id, asset_by_id, credit_limit_for in *.
  rewrite Hn, Hc, Hs, Hl, Ha. cbn [negb]. cbv zeta.
  fold total. rewrite Hpre.
  fold (contract_of rt req (Asset.Price asset)). fold c.
  cbn [TransactionRepository.Create CreditLimitRepository.UpdateUsedAmount
       repository.transactionRepository.repo
       repository.creditLimitRepository.repo].
  rewrite H5. cbv beta iota. rewrite H6. cbv beta iota.
  change (Transaction.ID c) with (NewUUID rt 0).
  unfold transaction_by_id in H7. rewrite H7.
  eexists. eexists. reflexivity.
Qed.

Lemma Create_succeeds_witness :
  exists db' response,
    service.transactionService.Create (transactions_svc Examples.server)
      (Examples.clock 2024 1 15) Examples.request6 (Examples.store 6 1000000 0)
    = (db', Ok response).
Proof.
  apply (Create_succeeds Examples.server (Examples.clock 2024 1 15)
           Examples.request6 (Examples.store 6 1000000 0) (Customer.mk 1%N true)
           (Asset.mk 10%N (f64.of_int 90000))
           (CreditLimit.mk 100%N 1%N 6 (f64.of_int 1000000) (f64.of_int 0))
           (f64.of_int 1000000) (f64.of_int 90000)
           (f64.of_int 1000000) (f64.of_int 195800)).
  1: reflexivity.
  1: vm_compute; discriminate.
  1-12: vm_compute; reflexivity.
  1-4: vm_compute; discriminate.
  - intros installments H. vm_compute in H. inversion H. subst installments.
    clear H.
    repeat (apply Forall_cons;
            [unfold times_accepted; repeat split; vm_compute; discriminate |]).
    apply Forall_nil.
  - reflexivity.
  - vm_compute.
    repeat (constructor; [simpl; intuition discriminate |]).
    constructor.
  - repeat constructor.
Defined.

(** A contract number of 51 characters passes validation and every
    check of the coordinator; the [VARCHAR(50)] column refuses it. *)
Example Create_long_contract_number :
  service.transactionService.Create (transactions_svc Examples.server)
    (Examples.clock 2024 1 15)
    (CreateTransactionRequest.mk 1%N 10%N 6 (f64.of_int 5000) (f64.of_int 2)
       "KP-000000000000000000000000000000000000000000000001")
    (Examples.store 6 1000000 0)
  = (Examples.store 6 1000000 0,
     Err (Wrapf "failed to create transaction"
            (Wrapf "failed to create transaction"
               (ErrConstraint "data too long for column contract_number")))).
Proof. vm_compute. reflexivity. Qed.
